(** * The VR session platform backend: session store, chat store and
real-time relay, embedded from the JavaScript sources.

- [Js]            : the few JavaScript conventions the handlers rely on
                    (truthiness of strings, [trim], insertion-ordered
                    [Map] and [Set], query paging).
- [VRSession]     : models/VRSession.js (the persisted session document,
                    [generateInviteCode], [canUserJoin]).
- [VRSessionRoutes] : routes/vrSessions.js (list, create, fetch, join,
                    leave, update, end, invite-code).
- [ChatMessage]   : models/ChatMessage.js.
- [ChatRoutes]    : routes/chat.js (history, send, edit, delete, rooms).
- [Relay]         : the Socket.IO handlers of server.js.
- [Server]        : the three pieces of state side by side.
- [Samples]       : small concrete stores and runs.

The properties follow the definitions: the session store, the chat store,
the relay.

Times are JavaScript [Date] values, i.e. integer milliseconds.  Every
handler receives the clock reading, the random identifiers and the random
numbers it draws as explicit arguments.  Identifiers (ObjectIds, session
ids, socket ids) are strings, compared the way the code compares them
(through [toString()]); a message id taken from a request is first cast to
an ObjectId, as the query does. *)

From Stdlib Require QArith.QArith_base.
From Stdlib Require Import Strings.String Strings.Ascii.
From stdpp Require Import gmap strings list fin_maps sorting.

Open Scope Z_scope.

(** JavaScript numbers that are not integers in the sources (coordinates
such as [1.6]) are kept as rationals. *)
Abbreviation Q := QArith_base.Q.

#[global] Instance Q_eq_dec : EqDecision Q.
Proof. solve_decision. Defined.

Record vec3 := { vx : Q; vy : Q; vz : Q }.

#[global] Instance vec3_eq_dec : EqDecision vec3.
Proof. solve_decision. Defined.

(* ===================================================================== *)
(** * JavaScript conventions *)
(* ===================================================================== *)

Module Js.

(** [if (s)] on a string-or-null value: [null] and the empty string are falsy. *)
Definition truthy (o : option string) : bool :=
  match o with
  | Some s => negb (String.eqb s EmptyString)
  | None => false
  end.

(** [a || b] where [a] is a string or absent. *)
Definition or_else (o : option string) (d : string) : string :=
  match o with
  | Some s => if String.eqb s EmptyString then d else s
  | None => d
  end.

(** ** Values of a request body that the code tests before they are cast:
    a JSON boolean, number or string (numbers that occur are integers). *)
Inductive scalar :=
| JBool (b : bool)
| JNum (n : Z)
| JStr (s : string).

#[global] Instance scalar_eq_dec : EqDecision scalar.
Proof. solve_decision. Defined.

(** [if (v)] on such a value, absent ([undefined]) included. *)
Definition truthyValue (o : option scalar) : bool :=
  match o with
  | Some (JBool b) => b
  | Some (JNum n) => negb (n =? 0)
  | Some (JStr s) => negb (String.eqb s EmptyString)
  | None => false
  end.

(** [v || false] and [v !== false]. *)
Definition or_false (o : option scalar) : scalar :=
  match o with
  | Some v => if truthyValue o then v else JBool false
  | None => JBool false
  end.

Definition not_false (o : option scalar) : bool :=
  negb (bool_decide (o = Some (JBool false))).

(** The [isBoolean()] validator: the value, turned into a string, is one
    of ['true'], ['false'], ['1'], ['0']. *)
Definition isBoolean (v : scalar) : bool :=
  match v with
  | JBool _ => true
  | JNum n => (n =? 0) || (n =? 1)
  | JStr s => bool_decide (s ∈ ["true"; "false"; "1"; "0"]%string)
  end.

(** The cast of a value to the schema type [Boolean]; [None] is a
    CastError. *)
Definition castBoolean (v : scalar) : option bool :=
  match v with
  | JBool b => Some b
  | JNum n =>
      if n =? 1 then Some true else if n =? 0 then Some false else None
  | JStr s =>
      if bool_decide (s ∈ ["true"; "1"; "yes"]%string) then Some true
      else if bool_decide (s ∈ ["false"; "0"; "no"]%string) then Some false
      else None
  end.

(** ** Strings are sequences of characters with code below 256, one
    [ascii] per character.

    [String.prototype.trim] and the [trim()] sanitizer strip white space
    ([\s]): among these characters U+0009 to U+000D, U+0020 and the
    no-break space U+00A0. *)
Definition isSpace (c : ascii) : bool :=
  match nat_of_ascii c with
  | 9%nat | 10%nat | 11%nat | 12%nat | 13%nat | 32%nat | 160%nat => true
  | _ => false
  end.

Fixpoint trimStartL (l : list ascii) : list ascii :=
  match l with
  | c :: l' => if isSpace c then trimStartL l' else l
  | [] => []
  end.

Definition trim (s : string) : string :=
  string_of_list_ascii
    (rev (trimStartL (rev (trimStartL (list_ascii_of_string s))))).

(** The [isLength({min, max})] validator, on the string's length. *)
Definition isLength (lo hi : Z) (s : string) : bool :=
  (lo <=? Z.of_nat (String.length s)) && (Z.of_nat (String.length s) <=? hi).

(** [.optional()] validators skip an absent field. *)
Definition optional {A} (p : A -> bool) (o : option A) : bool :=
  match o with Some a => p a | None => true end.

(** ** ObjectIds.  A stored id is the string of its [toString()], 24
    lower-case hexadecimal digits.  A string of a request is cast to an
    ObjectId when it is 24 hexadecimal digits, of either case; any other
    string is a CastError ([None]).  This is the cast of the current
    driver (bson 6); earlier ones also read a string of 12 characters as 12
    raw bytes. *)
Definition isHexDigit (c : ascii) : bool :=
  let n := nat_of_ascii c in
  ((48 <=? n) && (n <=? 57) || (65 <=? n) && (n <=? 70)
   || (97 <=? n) && (n <=? 102))%nat.

Definition lowerHex (c : ascii) : ascii :=
  let n := nat_of_ascii c in
  if ((65 <=? n) && (n <=? 70))%nat then ascii_of_nat (n + 32) else c.

Definition castObjectId (s : string) : option string :=
  let l := list_ascii_of_string s in
  if ((length l =? 24)%nat && forallb isHexDigit l)%bool
  then Some (string_of_list_ascii (map lowerHex l))
  else None.

(** ** Insertion-ordered [Map]: [set] on a present key keeps its place. *)
Section OMap.
Context {K V : Type} `{EqDecision K}.

Fixpoint oget (k : K) (m : list (K * V)) : option V :=
  match m with
  | [] => None
  | (k', v) :: m' => if decide (k = k') then Some v else oget k m'
  end.

Fixpoint oset (k : K) (v : V) (m : list (K * V)) : list (K * V) :=
  match m with
  | [] => [(k, v)]
  | (k', v') :: m' =>
      if decide (k = k') then (k, v) :: m' else (k', v') :: oset k v m'
  end.

Definition ohas (k : K) (m : list (K * V)) : bool :=
  match oget k m with Some _ => true | None => false end.

Definition odelete (k : K) (m : list (K * V)) : list (K * V) :=
  filter (fun kv => kv.1 <> k) m.

Definition ovalues (m : list (K * V)) : list V := map snd m.
End OMap.

(** ** Insertion-ordered [Set]. *)
Section OSet.
Context {A : Type} `{EqDecision A}.

Definition sadd (x : A) (s : list A) : list A :=
  if decide (x ∈ s) then s else s ++ [x].

Definition sdelete (x : A) (s : list A) : list A :=
  filter (fun y => y <> x) s.
End OSet.

(** ** Query helpers of the document store.

[sortDesc key] is a stable sort by decreasing [key]
([.sort({ createdAt: -1 })]); the store itself promises no order among
equal keys. *)
Section Query.
Context {A : Type} (key : A -> Z).

Fixpoint insertDesc (a : A) (l : list A) : list A :=
  match l with
  | [] => [a]
  | b :: l' => if key b <=? key a then a :: l else b :: insertDesc a l'
  end.

Definition sortDesc (l : list A) : list A := foldr insertDesc [] l.

(** [.limit(n).skip(k)]: a negative skip is refused by the store, limit
    [0] means no limit and a negative limit counts as its absolute
    value. *)
Definition window (lim skip : Z) (l : list A) : option (list A) :=
  if skip <? 0 then None
  else
    let rest := drop (Z.to_nat skip) l in
    Some (if lim =? 0 then rest else take (Z.to_nat (Z.abs lim)) rest).
End Query.

(** [Math.ceil(total / limit)]; [None] when the quotient is not a number
    a JSON reply can carry ([limit] is [0]). *)
Definition ceilDiv (total lim : Z) : option Z :=
  if lim =? 0 then None else Some (- ((- total) / lim)).

End Js.

(* ===================================================================== *)
(** * models/VRSession.js *)
(* ===================================================================== *)

Module VRSession.

Record SharedObjectDoc := {
  so_id : string;
  so_type : string;
  so_createdBy : string
}.

Record Settings := {
  isPrivate : bool;
  requireInvite : bool;
  voiceChatEnabled : bool;
  handTrackingEnabled : bool;
  physicsEnabled : bool
}.

(** An entry of [currentUsers]. *)
Record Member := {
  user : string;
  joinedAt : Z;
  position : vec3;
  rotation : vec3;
  avatar : string
}.

(** An entry of [bannedUsers] (its [user] field is [bannedUser] here). *)
Record Ban := {
  bannedUser : string;
  bannedAt : Z;
  reason : option string
}.

Record t := {
  sessionId : string;
  name : string;
  description : option string;
  host : string;
  environment : string;
  maxUsers : Z;
  currentUsers : list Member;
  sharedObjects : list SharedObjectDoc;
  settings : Settings;
  inviteCode : option string;
  invitedUsers : list string;
  bannedUsers : list Ban;
  isActive : bool;
  endedAt : option Z;
  duration : option Z;
  (* timestamps: true *)
  createdAt : Z;
  updatedAt : Z
}.

#[global] Instance SharedObjectDoc_eq_dec : EqDecision SharedObjectDoc.
Proof. solve_decision. Defined.
#[global] Instance Settings_eq_dec : EqDecision Settings.
Proof. solve_decision. Defined.
#[global] Instance Member_eq_dec : EqDecision Member.
Proof. solve_decision. Defined.
#[global] Instance Ban_eq_dec : EqDecision Ban.
Proof. solve_decision. Defined.
#[global] Instance t_eq_dec : EqDecision t.
Proof. solve_decision. Defined.

(** Field assignments [this.f = v]. *)
Definition set_name v s :=
  Build_t (sessionId s) v (description s) (host s) (environment s)
    (maxUsers s) (currentUsers s) (sharedObjects s) (settings s)
    (inviteCode s) (invitedUsers s) (bannedUsers s) (isActive s)
    (endedAt s) (duration s) (createdAt s) (updatedAt s).
Definition set_description v s :=
  Build_t (sessionId s) (name s) v (host s) (environment s)
    (maxUsers s) (currentUsers s) (sharedObjects s) (settings s)
    (inviteCode s) (invitedUsers s) (bannedUsers s) (isActive s)
    (endedAt s) (duration s) (createdAt s) (updatedAt s).
Definition set_maxUsers v s :=
  Build_t (sessionId s) (name s) (description s) (host s) (environment s)
    v (currentUsers s) (sharedObjects s) (settings s)
    (inviteCode s) (invitedUsers s) (bannedUsers s) (isActive s)
    (endedAt s) (duration s) (createdAt s) (updatedAt s).
Definition set_currentUsers v s :=
  Build_t (sessionId s) (name s) (description s) (host s) (environment s)
    (maxUsers s) v (sharedObjects s) (settings s)
    (inviteCode s) (invitedUsers s) (bannedUsers s) (isActive s)
    (endedAt s) (duration s) (createdAt s) (updatedAt s).
Definition set_settings v s :=
  Build_t (sessionId s) (name s) (description s) (host s) (environment s)
    (maxUsers s) (currentUsers s) (sharedObjects s) v
    (inviteCode s) (invitedUsers s) (bannedUsers s) (isActive s)
    (endedAt s) (duration s) (createdAt s) (updatedAt s).
Definition set_inviteCode v s :=
  Build_t (sessionId s) (name s) (description s) (host s) (environment s)
    (maxUsers s) (currentUsers s) (sharedObjects s) (settings s)
    v (invitedUsers s) (bannedUsers s) (isActive s)
    (endedAt s) (duration s) (createdAt s) (updatedAt s).
Definition set_isActive v s :=
  Build_t (sessionId s) (name s) (description s) (host s) (environment s)
    (maxUsers s) (currentUsers s) (sharedObjects s) (settings s)
    (inviteCode s) (invitedUsers s) (bannedUsers s) v
    (endedAt s) (duration s) (createdAt s) (updatedAt s).
Definition set_endedAt v s :=
  Build_t (sessionId s) (name s) (description s) (host s) (environment s)
    (maxUsers s) (currentUsers s) (sharedObjects s) (settings s)
    (inviteCode s) (invitedUsers s) (bannedUsers s) (isActive s)
    v (duration s) (createdAt s) (updatedAt s).
Definition set_duration v s :=
  Build_t (sessionId s) (name s) (description s) (host s) (environment s)
    (maxUsers s) (currentUsers s) (sharedObjects s) (settings s)
    (inviteCode s) (invitedUsers s) (bannedUsers s) (isActive s)
    (endedAt s) v (createdAt s) (updatedAt s).
Definition set_updatedAt v s :=
  Build_t (sessionId s) (name s) (description s) (host s) (environment s)
    (maxUsers s) (currentUsers s) (sharedObjects s) (settings s)
    (inviteCode s) (invitedUsers s) (bannedUsers s) (isActive s)
    (endedAt s) (duration s) (createdAt s) v.

(** [generateInviteCode]: [code] is the six characters drawn from
    [Math.random()]. *)
Definition generateInviteCode (code : string) (s : t) : t * string :=
  (set_inviteCode (Some code) s, code).

(** [canUserJoin(userId)]; the Mongoose array [invitedUsers] compares
    ObjectIds by value in [includes]. *)
Definition canUserJoin (s : t) (userId : string) : bool :=
  if existsb (fun banned => String.eqb (bannedUser banned) userId)
       (bannedUsers s)
  then false
  else if Z.of_nat (length (currentUsers s)) >=? maxUsers s then false
  else if requireInvite (settings s)
          && negb (bool_decide (userId ∈ invitedUsers s))
  then false
  else true.

(** [userId] is on the banned list. *)
Definition isBanned (s : t) (userId : string) : Prop :=
  exists b, b ∈ bannedUsers s /\ bannedUser b = userId.

(** The validators of the schema that [save()] runs on the paths the
    routes write: [name] required with [maxlength 100], [description]
    [maxlength 500], [maxUsers] in [2..100], [environment] in its enum. *)
Definition environments : list string :=
  ["default"; "space"; "forest"; "ocean"; "city"; "custom"]%string.

Definition schemaValid (s : t) : bool :=
  negb (String.eqb (name s) EmptyString)
  && (Z.of_nat (String.length (name s)) <=? 100)
  && Js.optional (fun d => Z.of_nat (String.length d) <=? 500) (description s)
  && (2 <=? maxUsers s) && (maxUsers s <=? 100)
  && bool_decide (environment s ∈ environments).

End VRSession.

(* ===================================================================== *)
(** * The authenticated caller *)
(* ===================================================================== *)

Module Auth.

(** [req.user], as the authentication middleware attaches it. *)
Record User := {
  _id : string;
  username : string;
  defaultAvatar : option string   (* vrPreferences?.defaultAvatar *)
}.

End Auth.

(* ===================================================================== *)
(** * routes/vrSessions.js *)
(* ===================================================================== *)

(** The routes are functions from the collection to the collection and the
    reply.  What a route writes to the User collection after its own save
    ([currentVRSession], the [stats] counters) belongs to the identity
    service and is not represented. *)
Module VRSessionRoutes.
Import VRSession.
Import Auth.

(** A partial [settings] object of a request body. *)
Record SettingsPatch := {
  p_isPrivate : option bool;
  p_requireInvite : option bool;
  p_voiceChatEnabled : option bool;
  p_handTrackingEnabled : option bool;
  p_physicsEnabled : option bool
}.

Record ListQuery := {
  q_page : option Z;
  q_limit : option Z;
  q_environment : option string;
  q_isPrivate : option string
}.

(** The [settings] object of a creation body, its values as received:
    the route tests them before the document casts them. *)
Record SettingsInput := {
  i_isPrivate : option Js.scalar;
  i_requireInvite : option Js.scalar;
  i_voiceChatEnabled : option Js.scalar;
  i_handTrackingEnabled : option Js.scalar;
  i_physicsEnabled : option Js.scalar
}.

Record CreateBody := {
  c_name : option string;
  c_description : option string;
  c_environment : option string;
  c_maxUsers : option Z;
  c_settings : SettingsInput
}.

Record JoinBody := {
  j_inviteCode : option string;
  j_position : option vec3;
  j_avatar : option string
}.

Record UpdateBody := {
  u_name : option string;
  u_description : option string;
  u_maxUsers : option Z;
  u_settings : option SettingsPatch
}.

(** JSON bodies of the replies. *)
Inductive body :=
| Error (error : string)
| Errors (errors : list string)
| Message (message : string)
| Sessions (sessions : list t) (currentPage : Z) (totalPages : option Z)
    (totalSessions : Z) (hasMore : bool)
| Created (message : string) (session : t)
| Session (session : t)
| Joined (message : string) (sessionId name environment : string)
    (currentUsers : list Member) (settings : Settings)
| Updated (message : string) (session : t)
| InviteCode (message : string) (inviteCode : string).

Record reply := { status : Z; json : body }.

Definition notFound : reply :=
  {| status := 404; json := Error "VR session not found" |}.
Definition notFoundOrUnauthorized : reply :=
  {| status := 404; json := Error "VR session not found or unauthorized" |}.
Definition serverError : reply :=
  {| status := 500; json := Error "Internal server error" |}.
Definition cannotJoin : reply :=
  {| status := 403; json := Error "Cannot join this session" |}.
Definition invalidInviteCode : reply :=
  {| status := 403; json := Error "Invalid invite code" |}.
Definition alreadyInSession : reply :=
  {| status := 400; json := Error "User already in session" |}.
Definition accessDenied : reply :=
  {| status := 403; json := Error "Access denied to private session" |}.

(** [VRSession.findOne({ sessionId, isActive: true })]; the collection is
    keyed by its unique [sessionId]. *)
Definition findActive (db : gmap string t) (sid : string) : option t :=
  match db !! sid with
  | Some s => if isActive s then Some s else None
  | None => None
  end.

(** [VRSession.findOne({ sessionId, isActive: true, host: req.user._id })] *)
Definition findActiveHosted (db : gmap string t) (sid uid : string)
  : option t :=
  match findActive db sid with
  | Some s => if String.eqb (host s) uid then Some s else None
  | None => None
  end.

(** The unique sparse index on [inviteCode]: is [code] held by a document
    other than [sid]? *)
Definition inviteCodeTaken (db : gmap string t) (sid : string)
    (code : option string) : bool :=
  match code with
  | None => false
  | Some c =>
      existsb (fun kv => negb (String.eqb kv.1 sid)
                         && bool_decide (inviteCode kv.2 = Some c))
        (map_to_list db)
  end.

(** [session.save()] on the document fetched under [sid]: an unmodified
    document is not written; a modified one gets its [updatedAt] stamped; a
    new invite code already held by another document makes the write fail.
    The paths written by join, leave, end and invite-code carry no schema
    validator. *)
Definition save (now : Z) (sid : string) (old new : t) (db : gmap string t)
  : option (gmap string t) :=
  if decide (new = old) then Some db
  else if negb (bool_decide (inviteCode new = inviteCode old))
          && inviteCodeTaken db sid (inviteCode new) then None
  else Some (<[sid := set_updatedAt now new]> db).

(** The session as stored by [save]. *)
Definition saved (now : Z) (old new : t) : t :=
  if decide (new = old) then old else set_updatedAt now new.

(** *** GET / *)
Definition matchesList (user : option User) (q : ListQuery) (s : t) : bool :=
  isActive s
  && match q_environment q with
     | Some e =>
         if negb (String.eqb e EmptyString) && negb (String.eqb e "all")
         then String.eqb (environment s) e else true
     | None => true
     end
  && match user, q_isPrivate q with
     | None, _ => negb (isPrivate (settings s))
     | Some _, Some p => Bool.eqb (isPrivate (settings s)) (String.eqb p "true")
     | Some _, None => true
     end.

Definition listSessions (user : option User) (q : ListQuery)
    (db : gmap string t) : reply :=
  let page := default 1 (q_page q) in
  let limit := default 20 (q_limit q) in
  let skip := (page - 1) * limit in
  let found := List.filter (matchesList user q) (map snd (map_to_list db)) in
  match Js.window limit skip (Js.sortDesc createdAt found) with
  | None => serverError
  | Some sessions =>
      let totalSessions := Z.of_nat (length found) in
      {| status := 200;
         json := Sessions (map (set_inviteCode None) sessions) page
                   (Js.ceilDiv totalSessions limit) totalSessions
                   (skip + Z.of_nat (length sessions) <? totalSessions) |}
  end.

(** *** POST / *)
Definition validateCreate (b : CreateBody) : list string :=
  (if Js.isLength 3 100 (default EmptyString (c_name b)) then []
   else ["Session name must be between 3 and 100 characters"])
  ++ (if Js.optional (Js.isLength 0 500) (c_description b) then []
      else ["Description must be less than 500 characters"])
  ++ (if Js.optional (fun e => bool_decide (e ∈ environments))
           (c_environment b) then []
      else ["Invalid environment type"])
  ++ (if Js.optional (fun n => (2 <=? n) && (n <=? 100)) (c_maxUsers b)
      then [] else ["Max users must be between 2 and 100"])
  ++ (if Js.optional Js.isBoolean (i_isPrivate (c_settings b)) then []
      else ["isPrivate must be a boolean"])
  ++ (if Js.optional Js.isBoolean (i_requireInvite (c_settings b)) then []
      else ["requireInvite must be a boolean"]).

(** [new VRSession({ ... })] casts [settings.isPrivate || false] and
    [settings.requireInvite || false] to Boolean; a value that cannot be
    cast makes [save()] fail. *)
Definition settingsCast (i : SettingsInput) : bool :=
  bool_decide (is_Some (Js.castBoolean (Js.or_false (i_isPrivate i))))
  && bool_decide (is_Some (Js.castBoolean (Js.or_false (i_requireInvite i)))).

Definition hostMember (now : Z) (u : User) : Member :=
  {| user := _id u;
     joinedAt := now;
     position := {| vx := QArith_base.Qmake 0 1;
                    vy := QArith_base.Qmake 16 10;
                    vz := QArith_base.Qmake (-3) 1 |};
     rotation := {| vx := QArith_base.Qmake 0 1;
                    vy := QArith_base.Qmake 0 1;
                    vz := QArith_base.Qmake 0 1 |};
     avatar := Js.or_else (defaultAvatar u) "sphere" |}.

Definition newSession (now : Z) (uuid : string) (u : User) (b : CreateBody)
  : t :=
  {| sessionId := uuid;
     name := Js.trim (default EmptyString (c_name b));
     description := Js.trim <$> c_description b;
     host := _id u;
     environment := default "default" (c_environment b);
     maxUsers := default 20 (c_maxUsers b);
     currentUsers := [hostMember now u];
     sharedObjects := [];
     settings :=
       {| isPrivate :=
            default false
              (Js.castBoolean (Js.or_false (i_isPrivate (c_settings b))));
          requireInvite :=
            default false
              (Js.castBoolean (Js.or_false (i_requireInvite (c_settings b))));
          voiceChatEnabled := Js.not_false (i_voiceChatEnabled (c_settings b));
          handTrackingEnabled :=
            Js.not_false (i_handTrackingEnabled (c_settings b));
          physicsEnabled := Js.not_false (i_physicsEnabled (c_settings b)) |};
     inviteCode := None;
     invitedUsers := [];
     bannedUsers := [];
     isActive := true;
     endedAt := None;
     duration := None;
     createdAt := now;
     updatedAt := now |}.

Definition create (now : Z) (uuid code : string) (u : User) (b : CreateBody)
    (db : gmap string t) : gmap string t * reply :=
  match validateCreate b with
  | (_ :: _) as errors => (db, {| status := 400; json := Errors errors |})
  | [] =>
      let s0 := newSession now uuid u b in
      let s :=
        if Js.truthyValue (i_requireInvite (c_settings b))
           || Js.truthyValue (i_isPrivate (c_settings b))
        then (generateInviteCode code s0).1 else s0 in
      (* save() of a new document: the casts of the constructor and the
         schema validators, then the unique indexes on sessionId and
         inviteCode *)
      if settingsCast (c_settings b)
         && schemaValid s
         && bool_decide (db !! uuid = None)
         && negb (inviteCodeTaken db uuid (inviteCode s))
      then (<[uuid := s]> db,
            {| status := 201;
               json := Created "VR session created successfully" s |})
      else (db, serverError)
  end.

(** *** GET /:sessionId *)
Definition isHost (user : option User) (s : t) : bool :=
  match user with
  | Some u => String.eqb (host s) (_id u)
  | None => false
  end.

Definition fetch (user : option User) (sid : string) (db : gmap string t)
  : reply :=
  match findActive db sid with
  | None => notFound
  | Some s =>
      if isPrivate (settings s) && negb (isHost user s) then accessDenied
      else {| status := 200;
              json := Session (if isHost user s then s
                               else set_inviteCode None s) |}
  end.

(** *** POST /:sessionId/join — [rx], [rz] are the two [Math.random()]
    draws of the default position. *)
Definition joinMember (now : Z) (rx rz : Q) (u : User) (b : JoinBody)
  : Member :=
  {| user := _id u;
     joinedAt := now;
     position :=
       match j_position b with
       | Some p => p
       | None =>
           {| vx := QArith_base.Qminus
                      (QArith_base.Qmult rx (QArith_base.Qmake 4 1))
                      (QArith_base.Qmake 2 1);
              vy := QArith_base.Qmake 16 10;
              vz := QArith_base.Qminus
                      (QArith_base.Qmult rz (QArith_base.Qmake 4 1))
                      (QArith_base.Qmake 2 1) |}
       end;
     rotation := {| vx := QArith_base.Qmake 0 1;
                    vy := QArith_base.Qmake 0 1;
                    vz := QArith_base.Qmake 0 1 |};
     avatar := Js.or_else (j_avatar b) (Js.or_else (defaultAvatar u) "sphere")
  |}.

Definition join (now : Z) (rx rz : Q) (u : User) (sid : string) (b : JoinBody)
    (db : gmap string t) : gmap string t * reply :=
  match findActive db sid with
  | None => (db, notFound)
  | Some s =>
      if negb (canUserJoin s (_id u)) then (db, cannotJoin)
      else if requireInvite (settings s)
              && negb (bool_decide (inviteCode s = j_inviteCode b))
      then (db, invalidInviteCode)
      else if existsb (fun m => String.eqb (user m) (_id u)) (currentUsers s)
      then (db, alreadyInSession)
      else
        let s' :=
          set_currentUsers (currentUsers s ++ [joinMember now rx rz u b]) s in
        match save now sid s s' db with
        | None => (db, serverError)
        | Some db' =>
            (db',
             {| status := 200;
                json := Joined "Joined VR session successfully"
                          (sessionId s') (name s') (environment s')
                          (currentUsers s') (settings s') |})
        end
  end.

(** *** POST /:sessionId/leave *)
Definition afterLeave (now : Z) (uid : string) (s : t) : t :=
  let s1 := set_currentUsers
              (filter (fun m => user m <> uid) (currentUsers s)) s in
  if bool_decide (length (currentUsers s1) = 0%nat) then
    let s2 := set_isActive false s1 in
    let s3 := set_endedAt (Some now) s2 in
    set_duration (Some ((now - createdAt s3) / 1000)) s3
  else s1.

Definition leave (now : Z) (u : User) (sid : string) (db : gmap string t)
  : gmap string t * reply :=
  match findActive db sid with
  | None => (db, notFound)
  | Some s =>
      match save now sid s (afterLeave now (_id u) s) db with
      | None => (db, serverError)
      | Some db' =>
          (db', {| status := 200;
                   json := Message "Left VR session successfully" |})
      end
  end.

(** *** PUT /:sessionId *)
Definition validateUpdate (b : UpdateBody) : list string :=
  (if Js.optional (Js.isLength 3 100) (u_name b) then []
   else ["Session name must be between 3 and 100 characters"])
  ++ (if Js.optional (Js.isLength 0 500) (u_description b) then []
      else ["Description must be less than 500 characters"])
  ++ (if Js.optional (fun n => (2 <=? n) && (n <=? 100)) (u_maxUsers b)
      then [] else ["Max users must be between 2 and 100"]).

(** [{ ...session.settings, ...updates.settings }] *)
Definition mergeSettings (old : Settings) (p : SettingsPatch) : Settings :=
  {| isPrivate := default (isPrivate old) (p_isPrivate p);
     requireInvite := default (requireInvite old) (p_requireInvite p);
     voiceChatEnabled := default (voiceChatEnabled old) (p_voiceChatEnabled p);
     handTrackingEnabled :=
       default (handTrackingEnabled old) (p_handTrackingEnabled p);
     physicsEnabled := default (physicsEnabled old) (p_physicsEnabled p) |}.

(** The [allowedUpdates.forEach] loop, field by field ([name] and
    [description] arrive trimmed by the sanitizers). *)
Definition applyUpdates (b : UpdateBody) (s : t) : t :=
  let s1 := match u_name b with
            | Some n => set_name (Js.trim n) s
            | None => s
            end in
  let s2 := match u_description b with
            | Some d => set_description (Some (Js.trim d)) s1
            | None => s1
            end in
  let s3 := match u_maxUsers b with
            | Some n => set_maxUsers n s2
            | None => s2
            end in
  match u_settings b with
  | Some p => set_settings (mergeSettings (settings s3) p) s3
  | None => s3
  end.

Definition update (now : Z) (u : User) (sid : string) (b : UpdateBody)
    (db : gmap string t) : gmap string t * reply :=
  match validateUpdate b with
  | (_ :: _) as errors => (db, {| status := 400; json := Errors errors |})
  | [] =>
      match findActiveHosted db sid (_id u) with
      | None => (db, notFoundOrUnauthorized)
      | Some s =>
          let s' := applyUpdates b s in
          if negb (schemaValid s') then (db, serverError)
          else
            match save now sid s s' db with
            | None => (db, serverError)
            | Some db' =>
                (db', {| status := 200;
                         json := Updated "VR session updated successfully"
                                   (saved now s s') |})
            end
      end
  end.

(** *** DELETE /:sessionId *)
Definition afterEnd (now : Z) (s : t) : t :=
  let s1 := set_isActive false s in
  let s2 := set_endedAt (Some now) s1 in
  set_duration (Some ((now - createdAt s2) / 1000)) s2.

Definition endSession (now : Z) (u : User) (sid : string) (db : gmap string t)
  : gmap string t * reply :=
  match findActiveHosted db sid (_id u) with
  | None => (db, notFoundOrUnauthorized)
  | Some s =>
      match save now sid s (afterEnd now s) db with
      | None => (db, serverError)
      | Some db' =>
          (db', {| status := 200;
                   json := Message "VR session ended successfully" |})
      end
  end.

(** *** POST /:sessionId/invite-code *)
Definition regenerateInviteCode (now : Z) (code : string) (u : User)
    (sid : string) (db : gmap string t) : gmap string t * reply :=
  match findActiveHosted db sid (_id u) with
  | None => (db, notFoundOrUnauthorized)
  | Some s =>
      let '(s', newInviteCode) := generateInviteCode code s in
      match save now sid s s' db with
      | None => (db, serverError)
      | Some db' =>
          (db', {| status := 200;
                   json := InviteCode "New invite code generated"
                             newInviteCode |})
      end
  end.

(** ** The session store as a transition system: one request of the API,
    handled at clock reading [now]. *)
Inductive request :=
| ReqList (user : option User) (q : ListQuery)
| ReqCreate (uuid code : string) (user : User) (b : CreateBody)
| ReqFetch (user : option User) (sid : string)
| ReqJoin (rx rz : Q) (user : User) (sid : string) (b : JoinBody)
| ReqLeave (user : User) (sid : string)
| ReqUpdate (user : User) (sid : string) (b : UpdateBody)
| ReqEnd (user : User) (sid : string)
| ReqInviteCode (code : string) (user : User) (sid : string).

Definition handle (now : Z) (r : request) (db : gmap string t)
  : gmap string t * reply :=
  match r with
  | ReqList user q => (db, listSessions user q db)
  | ReqCreate uuid code user b => create now uuid code user b db
  | ReqFetch user sid => (db, fetch user sid db)
  | ReqJoin rx rz user sid b => join now rx rz user sid b db
  | ReqLeave user sid => leave now user sid db
  | ReqUpdate user sid b => update now user sid b db
  | ReqEnd user sid => endSession now user sid db
  | ReqInviteCode code user sid => regenerateInviteCode now code user sid db
  end.

(** The requests that address a session by its id, and the id they name. *)
Definition addresses (r : request) : option string :=
  match r with
  | ReqList _ _ | ReqCreate _ _ _ _ => None
  | ReqFetch _ sid | ReqJoin _ _ _ sid _ | ReqLeave _ sid
  | ReqUpdate _ sid _ | ReqEnd _ sid | ReqInviteCode _ _ sid => Some sid
  end.

(** A run of the store over a sequence of timed requests. *)
Definition run (trace : list (Z * request)) (db : gmap string t)
  : gmap string t :=
  foldl (fun d e => (handle e.1 e.2 d).1) db trace.

(** Number of steps of a run at which session [sid] goes from active to
    inactive. *)
Definition activeIn (db : gmap string t) (sid : string) : bool :=
  match db !! sid with Some s => isActive s | None => false end.

Definition inactiveIn (db : gmap string t) (sid : string) : bool :=
  match db !! sid with Some s => negb (isActive s) | None => false end.

Fixpoint deactivations (sid : string) (trace : list (Z * request))
    (db : gmap string t) : nat :=
  match trace with
  | [] => 0
  | e :: rest =>
      let db' := (handle e.1 e.2 db).1 in
      ((if activeIn db sid && inactiveIn db' sid then 1 else 0)
       + deactivations sid rest db')%nat
  end.

(** The keys a request may write: a fresh one, or that of an active
    session. *)
Definition writable (db : gmap string t) (k : string) : Prop :=
  db !! k = None \/ exists s, db !! k = Some s /\ isActive s = true.

End VRSessionRoutes.

(* ===================================================================== *)
(** * models/ChatMessage.js *)
(* ===================================================================== *)

Module ChatMessage.

Record Metadata := {
  vrPosition : option vec3;
  attachments : list string
}.

Record t := {
  _id : string;
  user : string;
  username : string;
  message : string;
  room : string;
  messageType : string;
  metadata : Metadata;
  editedAt : option Z;
  deletedAt : option Z;
  (* timestamps: true *)
  createdAt : Z;
  updatedAt : Z
}.

#[global] Instance Metadata_eq_dec : EqDecision Metadata.
Proof. solve_decision. Defined.
#[global] Instance t_eq_dec : EqDecision t.
Proof. solve_decision. Defined.

Definition set_message v m :=
  Build_t (_id m) (user m) (username m) v (room m) (messageType m)
    (metadata m) (editedAt m) (deletedAt m) (createdAt m) (updatedAt m).
Definition set_editedAt v m :=
  Build_t (_id m) (user m) (username m) (message m) (room m) (messageType m)
    (metadata m) v (deletedAt m) (createdAt m) (updatedAt m).
Definition set_deletedAt v m :=
  Build_t (_id m) (user m) (username m) (message m) (room m) (messageType m)
    (metadata m) (editedAt m) v (createdAt m) (updatedAt m).
Definition set_updatedAt v m :=
  Build_t (_id m) (user m) (username m) (message m) (room m) (messageType m)
    (metadata m) (editedAt m) (deletedAt m) (createdAt m) v.

Definition messageTypes : list string :=
  ["text"; "image"; "voice"; "system"]%string.

(** The schema validators [save()] runs: [username] and [message]
    required, [message] of [maxlength 1000], [messageType] in its enum. *)
Definition messageValid (text : string) : bool :=
  negb (String.eqb text EmptyString) && (Z.of_nat (String.length text) <=? 1000).

Definition schemaValid (m : t) : bool :=
  negb (String.eqb (username m) EmptyString)
  && messageValid (message m)
  && bool_decide (messageType m ∈ messageTypes).

End ChatMessage.

(* ===================================================================== *)
(** * routes/chat.js *)
(* ===================================================================== *)

Module ChatRoutes.
Import ChatMessage.

Record HistoryQuery := {
  h_page : option Z;
  h_limit : option Z
}.

Record SendBody := {
  s_message : option string;
  s_room : option string;
  s_messageType : option string;
  s_metadata : option Metadata
}.

(** One group of the [/rooms] aggregation. *)
Record RoomSummary := {
  r_id : string;              (* _id: '$room' *)
  lastMessage : Z;
  messageCount : Z;
  lastMessageText : string;
  lastUsername : string
}.

Inductive body :=
| Error (error : string)
| Errors (errors : list string)
| Message (message : string)
| History (messages : list t) (currentPage : Z) (totalPages : option Z)
    (totalMessages : Z) (hasMore : bool)
| Sent (message : string) (chatMessage : t)
| Edited (message : string) (chatMessage : t)
| Rooms (rooms : list RoomSummary).

Record reply := { status : Z; json : body }.

Definition serverError : reply :=
  {| status := 500; json := Error "Internal server error" |}.
Definition notFoundOrUnauthorized : reply :=
  {| status := 404; json := Error "Message not found or unauthorized" |}.
Definition tooOld : reply :=
  {| status := 400; json := Error "Message is too old to edit" |}.

Definition messageErrors : list string :=
  ["Message must be between 1 and 1000 characters"]%string.

(** The collection is the list of stored documents, oldest insertion
    first.  [countDocuments(filter)]: *)
Definition countDocuments (p : t -> bool) (db : list t) : Z :=
  Z.of_nat (length (List.filter p db)).

(** Every stored document, whatever its state. *)
Definition totalStored (db : list t) : Z := countDocuments (fun _ => true) db.

Definition notDeleted (m : t) : bool := bool_decide (deletedAt m = None).

(** The documents of room [r], deleted or not, and the visible ones. *)
Definition inRoom (r : string) (m : t) : bool := String.eqb (room m) r.

(** *** GET /history/:room — the filter [{ room, deletedAt: null }] *)
Definition inHistory (r : string) (m : t) : bool :=
  String.eqb (room m) r && notDeleted m.

Definition history (r : string) (q : HistoryQuery) (db : list t) : reply :=
  let page := default 1 (h_page q) in
  let limit := default 50 (h_limit q) in
  let skip := (page - 1) * limit in
  match Js.window limit skip
          (Js.sortDesc createdAt (List.filter (inHistory r) db)) with
  | None => serverError
  | Some messages =>
      let totalMessages := countDocuments (inHistory r) db in
      {| status := 200;
         json := History (rev messages) page
                   (Js.ceilDiv totalMessages limit) totalMessages
                   (skip + Z.of_nat (length messages) <? totalMessages) |}
  end.

(** The messages a history reply carries. *)
Definition historyMessages (r : reply) : list t :=
  match json r with
  | History messages _ _ _ _ => messages
  | _ => []
  end.

(** *** POST /send — [newId] is the ObjectId drawn for the document. *)
Definition validateSend (b : SendBody) : list string :=
  (if Js.isLength 1 1000 (default EmptyString (s_message b)) then []
   else messageErrors)
  ++ (if Js.optional (Js.isLength 1 50) (s_room b) then []
      else ["Room name must be between 1 and 50 characters"]).

Definition newMessage (now : Z) (newId : string) (u : Auth.User)
    (b : SendBody) : t :=
  {| _id := newId;
     user := Auth._id u;
     username := Auth.username u;
     message := Js.trim (default EmptyString (s_message b));
     room := default "global" (s_room b);
     messageType := default "text" (s_messageType b);
     metadata := default {| vrPosition := None; attachments := [] |}
                   (s_metadata b);
     editedAt := None;
     deletedAt := None;
     createdAt := now;
     updatedAt := now |}.

Definition send (now : Z) (newId : string) (u : Auth.User) (b : SendBody)
    (db : list t) : list t * reply :=
  match validateSend b with
  | (_ :: _) as errors => (db, {| status := 400; json := Errors errors |})
  | [] =>
      let chatMessage := newMessage now newId u b in
      if schemaValid chatMessage
         && negb (existsb (fun m => String.eqb (_id m) newId) db)
      then (db ++ [chatMessage],
            {| status := 201;
               json := Sent "Message sent successfully" chatMessage |})
      else (db, serverError)
  end.

(** [ChatMessage.findOne({ _id, user: req.user._id, deletedAt: null })]:
    the query casts [_id] to an ObjectId and throws on a string that is
    none ([None]); otherwise it gives the document, if any, and its place in
    the collection. *)
Definition isOwn (messageId uid : string) (m : t) : Prop :=
  _id m = messageId /\ user m = uid /\ deletedAt m = None.

Definition findOne (db : list t) (messageId uid : string)
  : option (option (nat * t)) :=
  match Js.castObjectId messageId with
  | Some oid => Some (list_find (isOwn oid uid) db)
  | None => None
  end.

(** The document the query finds. *)
Definition findOwn (db : list t) (messageId uid : string)
  : option (nat * t) :=
  match findOne db messageId uid with
  | Some found => found
  | None => None
  end.

(** [chatMessage.save()] on a fetched document. *)
Definition saved (now : Z) (old new : t) : t :=
  if decide (new = old) then old else set_updatedAt now new.

(** *** PUT /:messageId — [save()] validates the path written,
    [message]. *)
Definition validateEdit (msg : option string) : list string :=
  if Js.isLength 1 1000 (default EmptyString msg) then [] else messageErrors.

Definition edit (now : Z) (u : Auth.User) (messageId : string)
    (msg : option string) (db : list t) : list t * reply :=
  match validateEdit msg with
  | (_ :: _) as errors => (db, {| status := 400; json := Errors errors |})
  | [] =>
      match findOne db messageId (Auth._id u) with
      | None => (db, serverError)
      | Some None => (db, notFoundOrUnauthorized)
      | Some (Some (i, chatMessage)) =>
          let fifteenMinutesAgo := now - 15 * 60 * 1000 in
          if createdAt chatMessage <? fifteenMinutesAgo then (db, tooOld)
          else
            let m1 := set_message (Js.trim (default EmptyString msg)) chatMessage in
            let m2 := set_editedAt (Some now) m1 in
            if negb (messageValid (message m2)) then (db, serverError)
            else
              (<[i := saved now chatMessage m2]> db,
               {| status := 200;
                  json := Edited "Message updated successfully"
                            (saved now chatMessage m2) |})
      end
  end.

(** *** DELETE /:messageId *)
Definition delete (now : Z) (u : Auth.User) (messageId : string)
    (db : list t) : list t * reply :=
  match findOne db messageId (Auth._id u) with
  | None => (db, serverError)
  | Some None => (db, notFoundOrUnauthorized)
  | Some (Some (i, chatMessage)) =>
      (<[i := saved now chatMessage (set_deletedAt (Some now) chatMessage)]> db,
       {| status := 200; json := Message "Message deleted successfully" |})
  end.

(** *** GET /rooms — [$match], [$group] in document order, [$sort],
    [$limit]. *)
Definition addToGroup (groups : list (string * RoomSummary)) (m : t)
  : list (string * RoomSummary) :=
  match Js.oget (room m) groups with
  | None =>
      Js.oset (room m)
        {| r_id := room m;
           lastMessage := createdAt m;
           messageCount := 1;
           lastMessageText := message m;
           lastUsername := username m |} groups
  | Some g =>
      Js.oset (room m)
        {| r_id := room m;
           lastMessage := Z.max (lastMessage g) (createdAt m);
           messageCount := messageCount g + 1;
           lastMessageText := message m;
           lastUsername := username m |} groups
  end.

Definition groupByRoom (ms : list t) : list (string * RoomSummary) :=
  foldl addToGroup [] ms.

Definition aggregateRooms (db : list t) : list RoomSummary :=
  take 20 (Js.sortDesc lastMessage
             (Js.ovalues (groupByRoom (List.filter notDeleted db)))).

Definition rooms (db : list t) : reply :=
  {| status := 200; json := Rooms (aggregateRooms db) |}.

(** ** The chat store as a transition system. *)
Inductive request :=
| ReqHistory (r : string) (q : HistoryQuery)
| ReqSend (newId : string) (user : Auth.User) (b : SendBody)
| ReqEdit (user : Auth.User) (messageId : string) (msg : option string)
| ReqDelete (user : Auth.User) (messageId : string)
| ReqRooms.

Definition handle (now : Z) (r : request) (db : list t) : list t * reply :=
  match r with
  | ReqHistory room q => (db, history room q db)
  | ReqSend newId user b => send now newId user b db
  | ReqEdit user messageId msg => edit now user messageId msg db
  | ReqDelete user messageId => delete now user messageId db
  | ReqRooms => (db, rooms db)
  end.

End ChatRoutes.

(* ===================================================================== *)
(** * server.js — the Socket.IO relay *)
(* ===================================================================== *)

Module Relay.

(** A JSON value received from a client, or a [Date] made by the server. *)
#[warnings="-register-all"]
Inductive value :=
| VNull
| VBool (b : bool)
| VNum (n : Q)
| VStr (s : string)
| VDate (t : Z)
| VArr (items : list value)
| VObj (fields : list (string * value)).

(** The authenticated socket of a connection. *)
Module Socket.
Record t := { id : string; userId : string; username : string }.
End Socket.

(** An entry of [activeUsers]. *)
Module ActiveUser.
Record t := {
  socketId : string;
  username : string;
  joinedAt : Z;
  currentRoom : option string;
  vrPosition : option value;
  vrRotation : option value
}.
Definition set_currentRoom v u :=
  Build_t (socketId u) (username u) (joinedAt u) v (vrPosition u)
    (vrRotation u).
Definition set_pose p r u :=
  Build_t (socketId u) (username u) (joinedAt u) (currentRoom u) p r.
End ActiveUser.

(** An entry of [vrSessions]: [users] is a [Set], [sharedObjects] a [Map]
    from object id to a plain object (its own properties by name). *)
Module Room.
Record t := {
  id : string;
  users : list string;
  createdAt : Z;
  sharedObjects : list (string * gmap string value)
}.
Definition set_users v r := Build_t (id r) v (createdAt r) (sharedObjects r).
Definition set_sharedObjects v r := Build_t (id r) (users r) (createdAt r) v.
End Room.

(** An entry of a [chatRooms] log. *)
Module Msg.
Record t := {
  id : string;
  userId : string;
  username : string;
  message : option string;
  timestamp : Z;
  room : string
}.
End Msg.

Record state := {
  activeUsers : list (string * ActiveUser.t);
  vrSessions : gmap string Room.t;
  chatRooms : gmap string (list Msg.t);
  (* Socket.IO's own table: the rooms each socket id has joined *)
  joined : gmap string (gset string)
}.

Definition set_activeUsers v st :=
  Build_state v (vrSessions st) (chatRooms st) (joined st).
Definition set_vrSessions v st :=
  Build_state (activeUsers st) v (chatRooms st) (joined st).
Definition set_chatRooms v st :=
  Build_state (activeUsers st) (vrSessions st) v (joined st).
Definition set_joined v st :=
  Build_state (activeUsers st) (vrSessions st) (chatRooms st) v.

Definition initial : state :=
  {| activeUsers := []; vrSessions := ∅; chatRooms := ∅; joined := ∅ |}.

(** Where an emitted event goes: [io.emit], [socket.emit],
    [io.to(room).emit], [socket.to(room).emit]. *)
Inductive dest :=
| ToAll
| ToSocket (socketId : string)
| ToRoom (room : string)
| ToRoomExcept (room : string) (socketId : string).

Inductive event :=
| users_update (users : list ActiveUser.t)
| vr_session_joined (sessionId : string) (users : list string)
    (sharedObjects : list (gmap string value))
| user_joined_vr (userId username : string)
| user_left_vr (userId username : string)
| user_position_update (userId : string) (position rotation : option value)
| shared_object_created (sharedObject : gmap string value)
| shared_object_updated (id : option string)
    (updates : option (gmap string value))
| chat_message (message : Msg.t)
| chat_history (room : string) (messages : list Msg.t)
| voice_offer (offer : option value) (fromUserId : string)
| voice_answer (answer : option value) (fromUserId : string)
| voice_ice_candidate (candidate : option value) (fromUserId : string).

(** Payloads of the inbound events. *)
Record PositionData := {
  pd_position : option value;
  pd_rotation : option value
}.

Record ObjectData := {
  od_id : option string;
  od_type : option value;
  od_position : option value;
  od_rotation : option value;
  od_scale : option value;
  od_properties : option value
}.

Record UpdateData := {
  ud_id : option string;
  ud_updates : option (gmap string value)
}.

Record ChatData := {
  cd_message : option string;
  cd_room : option string
}.

Record VoiceData := {
  targetUserId : string;
  payload : option value
}.

(** [socket.join(room)] and [socket.leave(room)] *)
Definition socketJoin (sid room : string) (j : gmap string (gset string))
  : gmap string (gset string) :=
  <[sid := default ∅ (j !! sid) ∪ {[room]}]> j.

Definition socketLeave (sid room : string) (j : gmap string (gset string))
  : gmap string (gset string) :=
  <[sid := default ∅ (j !! sid) ∖ {[room]}]> j.

(** The user's room, when the guard
    [user && user.currentRoom && vrSessions.has(user.currentRoom)] holds. *)
Definition roomOf (socket : Socket.t) (st : state)
  : option (ActiveUser.t * string * Room.t) :=
  match Js.oget (Socket.userId socket) (activeUsers st) with
  | None => None
  | Some user =>
      match ActiveUser.currentRoom user with
      | None => None
      | Some r =>
          if Js.truthy (Some r) then
            match vrSessions st !! r with
            | Some session => Some (user, r, session)
            | None => None
            end
          else None
      end
  end.

(** *** io.on('connection') *)
Definition on_connection (now : Z) (socket : Socket.t) (st : state)
  : state * list (dest * event) :=
  let st1 :=
    set_activeUsers
      (Js.oset (Socket.userId socket)
         {| ActiveUser.socketId := Socket.id socket;
            ActiveUser.username := Socket.username socket;
            ActiveUser.joinedAt := now;
            ActiveUser.currentRoom := None;
            ActiveUser.vrPosition := None;
            ActiveUser.vrRotation := None |}
         (activeUsers st)) st in
  let st2 :=
    set_joined (<[Socket.id socket := {[Socket.id socket]}]> (joined st1))
      st1 in
  (st2, [(ToAll, users_update (Js.ovalues (activeUsers st2)))]).

(** *** join_vr_session *)
Definition on_join_vr_session (now : Z) (socket : Socket.t)
    (sessionId : string) (st : state) : state * list (dest * event) :=
  match Js.oget (Socket.userId socket) (activeUsers st) with
  | None => (st, [])
  | Some user =>
      (* Leave previous room if any *)
      let j1 :=
        match ActiveUser.currentRoom user with
        | Some prev =>
            if Js.truthy (Some prev)
            then socketLeave (Socket.id socket) prev (joined st)
            else joined st
        | None => joined st
        end in
      (* Join new VR session *)
      let j2 := socketJoin (Socket.id socket) sessionId j1 in
      let user' := ActiveUser.set_currentRoom (Some sessionId) user in
      (* Initialize or update VR session *)
      let session :=
        match vrSessions st !! sessionId with
        | Some s => s
        | None => {| Room.id := sessionId;
                     Room.users := [];
                     Room.createdAt := now;
                     Room.sharedObjects := [] |}
        end in
      let session' :=
        Room.set_users (Js.sadd (Socket.userId socket) (Room.users session))
          session in
      ({| activeUsers := Js.oset (Socket.userId socket) user' (activeUsers st);
          vrSessions := <[sessionId := session']> (vrSessions st);
          chatRooms := chatRooms st;
          joined := j2 |},
       [(ToSocket (Socket.id socket),
         vr_session_joined sessionId (Room.users session')
           (Js.ovalues (Room.sharedObjects session')));
        (ToRoomExcept sessionId (Socket.id socket),
         user_joined_vr (Socket.userId socket) (ActiveUser.username user))])
  end.

(** *** vr_position_update *)
Definition on_vr_position_update (socket : Socket.t) (data : PositionData)
    (st : state) : state * list (dest * event) :=
  match Js.oget (Socket.userId socket) (activeUsers st) with
  | None => (st, [])
  | Some user =>
      match ActiveUser.currentRoom user with
      | None => (st, [])
      | Some r =>
          if Js.truthy (Some r) then
            (set_activeUsers
               (Js.oset (Socket.userId socket)
                  (ActiveUser.set_pose (pd_position data) (pd_rotation data)
                     user)
                  (activeUsers st)) st,
             [(ToRoomExcept r (Socket.id socket),
               user_position_update (Socket.userId socket)
                 (pd_position data) (pd_rotation data))])
          else (st, [])
      end
  end.

(** *** create_shared_object — [uuid] is the identifier drawn when the
    client supplies none. *)
Definition withField (k : string) (o : option value) (m : gmap string value)
  : gmap string value :=
  match o with Some v => <[k := v]> m | None => m end.

Definition buildObject (now : Z) (objectId createdBy : string)
    (data : ObjectData) : gmap string value :=
  withField "type" (od_type data)
    (withField "position" (od_position data)
       (withField "rotation" (od_rotation data)
          (withField "scale" (od_scale data)
             (withField "properties" (od_properties data)
                (<["id" := VStr objectId]>
                   (<["createdBy" := VStr createdBy]>
                      (<["createdAt" := VDate now]> ∅))))))).

Definition on_create_shared_object (now : Z) (uuid : string)
    (socket : Socket.t) (data : ObjectData) (st : state)
  : state * list (dest * event) :=
  match roomOf socket st with
  | None => (st, [])
  | Some (user, r, session) =>
      let objectId := Js.or_else (od_id data) uuid in
      let sharedObject :=
        buildObject now objectId (Socket.userId socket) data in
      let session' :=
        Room.set_sharedObjects
          (Js.oset objectId sharedObject (Room.sharedObjects session))
          session in
      (set_vrSessions (<[r := session']> (vrSessions st)) st,
       [(ToRoom r, shared_object_created sharedObject)])
  end.

(** *** update_shared_object — [Object.assign(object, data.updates)] *)
Definition assign (object : gmap string value)
    (updates : option (gmap string value)) : gmap string value :=
  match updates with
  | Some u => u ∪ object
  | None => object
  end.

Definition on_update_shared_object (socket : Socket.t) (data : UpdateData)
    (st : state) : state * list (dest * event) :=
  match roomOf socket st with
  | None => (st, [])
  | Some (user, r, session) =>
      match ud_id data with
      | None => (st, [])
      | Some i =>
          match Js.oget i (Room.sharedObjects session) with
          | None => (st, [])
          | Some object =>
              let session' :=
                Room.set_sharedObjects
                  (Js.oset i (assign object (ud_updates data))
                     (Room.sharedObjects session))
                  session in
              (set_vrSessions (<[r := session']> (vrSessions st)) st,
               [(ToRoomExcept r (Socket.id socket),
                 shared_object_updated (ud_id data) (ud_updates data))])
          end
      end
  end.

(** *** send_chat_message *)
Definition keepLast100 (roomMessages : list Msg.t) : list Msg.t :=
  if (100 <? length roomMessages)%nat
  then drop (length roomMessages - 100) roomMessages
  else roomMessages.

Definition chatMessageOf (now : Z) (uuid : string) (socket : Socket.t)
    (user : ActiveUser.t) (data : ChatData) : Msg.t :=
  {| Msg.id := uuid;
     Msg.userId := Socket.userId socket;
     Msg.username := ActiveUser.username user;
     Msg.message := cd_message data;
     Msg.timestamp := now;
     Msg.room := Js.or_else (cd_room data) "global" |}.

Definition on_send_chat_message (now : Z) (uuid : string) (socket : Socket.t)
    (data : ChatData) (st : state) : state * list (dest * event) :=
  match Js.oget (Socket.userId socket) (activeUsers st) with
  | None => (st, [])
  | Some user =>
      let message := chatMessageOf now uuid socket user data in
      let pushed :=
        default [] (chatRooms st !! Msg.room message) ++ [message] in
      (set_chatRooms
         (<[Msg.room message := keepLast100 pushed]> (chatRooms st)) st,
       [(if String.eqb (Msg.room message) "global" then ToAll
         else ToRoom (Msg.room message),
         chat_message message)])
  end.

(** *** get_chat_history *)
Definition on_get_chat_history (socket : Socket.t) (room : option string)
    (st : state) : state * list (dest * event) :=
  let room := default "global"%string room in
  (st, [(ToSocket (Socket.id socket),
         chat_history room (default [] (chatRooms st !! room)))]).

(** *** voice_offer, voice_answer, voice_ice_candidate *)
Definition on_voice (mk : option value -> string -> event)
    (socket : Socket.t) (data : VoiceData) (st : state)
  : state * list (dest * event) :=
  (st, [(ToRoomExcept (targetUserId data) (Socket.id socket),
         mk (payload data) (Socket.userId socket))]).

(** *** disconnect — Socket.IO has taken the socket out of its rooms. *)
Definition on_disconnect (socket : Socket.t) (st : state)
  : state * list (dest * event) :=
  let '(sessions, notices) :=
    match roomOf socket st with
    | None => (vrSessions st, [])
    | Some (user, r, session) =>
        let remaining :=
          Js.sdelete (Socket.userId socket) (Room.users session) in
        if bool_decide (length remaining = 0%nat)
        then (delete r (vrSessions st), [])
        else (<[r := Room.set_users remaining session]> (vrSessions st),
              [(ToRoomExcept r (Socket.id socket),
                user_left_vr (Socket.userId socket)
                  (ActiveUser.username user))])
    end in
  let users := Js.odelete (Socket.userId socket) (activeUsers st) in
  ({| activeUsers := users;
      vrSessions := sessions;
      chatRooms := chatRooms st;
      joined := delete (Socket.id socket) (joined st) |},
   notices ++ [(ToAll, users_update (Js.ovalues users))]).

(** ** The relay as a transition system. *)
Inductive input :=
| Connection
| JoinVrSession (sessionId : string)
| VrPositionUpdate (data : PositionData)
| CreateSharedObject (uuid : string) (data : ObjectData)
| UpdateSharedObject (data : UpdateData)
| SendChatMessage (uuid : string) (data : ChatData)
| GetChatHistory (room : option string)
| VoiceOffer (data : VoiceData)
| VoiceAnswer (data : VoiceData)
| VoiceIceCandidate (data : VoiceData)
| Disconnect.

Definition step (now : Z) (socket : Socket.t) (i : input) (st : state)
  : state * list (dest * event) :=
  match i with
  | Connection => on_connection now socket st
  | JoinVrSession sessionId => on_join_vr_session now socket sessionId st
  | VrPositionUpdate data => on_vr_position_update socket data st
  | CreateSharedObject uuid data =>
      on_create_shared_object now uuid socket data st
  | UpdateSharedObject data => on_update_shared_object socket data st
  | SendChatMessage uuid data => on_send_chat_message now uuid socket data st
  | GetChatHistory room => on_get_chat_history socket room st
  | VoiceOffer data => on_voice voice_offer socket data st
  | VoiceAnswer data => on_voice voice_answer socket data st
  | VoiceIceCandidate data => on_voice voice_ice_candidate socket data st
  | Disconnect => on_disconnect socket st
  end.

(** A run: the state reached and everything emitted, in order. *)
Fixpoint run (trace : list (Z * Socket.t * input)) (st : state)
  : state * list (dest * event) :=
  match trace with
  | [] => (st, [])
  | (now, socket, i) :: rest =>
      let '(st1, out1) := step now socket i st in
      let '(st2, out2) := run rest st1 in
      (st2, out1 ++ out2)
  end.

(** The chat messages broadcast for [room], oldest first. *)
Definition broadcastTo (room : string) (out : list (dest * event))
  : list Msg.t :=
  omap (fun e => match e.2 with
                 | chat_message m =>
                     if String.eqb (Msg.room m) room then Some m else None
                 | _ => None
                 end) out.

(** The last [n] elements of a list. *)
Definition lastN {A} (n : nat) (l : list A) : list A :=
  drop (length l - n) l.

(** The in-memory log of a room ([chatRooms.get(room) || []]). *)
Definition logOf (st : state) (room : string) : list Msg.t :=
  default [] (chatRooms st !! room).

End Relay.

(* ===================================================================== *)
(** * The server: relay state and the two durable stores side by side *)
(* ===================================================================== *)

Module Server.

Record world := {
  relay : Relay.state;
  sessionDb : gmap string VRSession.t;
  chatDb : list ChatMessage.t
}.

Inductive action :=
| SocketEvent (socket : Relay.Socket.t) (i : Relay.input)
| SessionRequest (r : VRSessionRoutes.request)
| ChatRequest (r : ChatRoutes.request).

(** The Socket.IO handlers reach neither model; each route reaches its own
    collection only. *)
Definition act (now : Z) (a : action) (w : world) : world :=
  match a with
  | SocketEvent socket i =>
      {| relay := (Relay.step now socket i (relay w)).1;
         sessionDb := sessionDb w;
         chatDb := chatDb w |}
  | SessionRequest r =>
      {| relay := relay w;
         sessionDb := (VRSessionRoutes.handle now r (sessionDb w)).1;
         chatDb := chatDb w |}
  | ChatRequest r =>
      {| relay := relay w;
         sessionDb := sessionDb w;
         chatDb := (ChatRoutes.handle now r (chatDb w)).1 |}
  end.

(** A run of the whole server over a sequence of timed actions. *)
Definition run (trace : list (Z * action)) (w : world) : world :=
  foldl (fun w e => act e.1 e.2 w) w trace.

End Server.

(* ===================================================================== *)
(** * Sample data *)
(* ===================================================================== *)

Module Samples.
Import VRSession.

Definition alice : Auth.User :=
  {| Auth._id := "u1"; Auth.username := "alice"; Auth.defaultAvatar := None |}.
Definition bob : Auth.User :=
  {| Auth._id := "u2"; Auth.username := "bob"; Auth.defaultAvatar := None |}.
Definition carol : Auth.User :=
  {| Auth._id := "u3"; Auth.username := "carol"; Auth.defaultAvatar := None |}.

Definition origin : vec3 :=
  {| vx := QArith_base.Qmake 0 1;
     vy := QArith_base.Qmake 0 1;
     vz := QArith_base.Qmake 0 1 |}.

Definition member (uid : string) : Member :=
  {| user := uid; joinedAt := 0; position := origin; rotation := origin;
     avatar := "sphere" |}.

Definition openSettings : Settings :=
  {| isPrivate := false; requireInvite := false; voiceChatEnabled := true;
     handTrackingEnabled := true; physicsEnabled := true |}.

(** A session of alice's, created at time 0, with the given id, capacity,
    members and bans. *)
Definition session (sid : string) (capacity : Z) (members : list string)
    (banned : list string) (active : bool) : t :=
  {| sessionId := sid; name := "Lobby"; description := None; host := "u1";
     environment := "default"; maxUsers := capacity;
     currentUsers := map member members; sharedObjects := [];
     settings := openSettings; inviteCode := None; invitedUsers := [];
     bannedUsers :=
       map (fun uid => {| bannedUser := uid; bannedAt := 0; reason := None |})
         banned;
     isActive := active;
     endedAt := if active then None else Some 1000;
     duration := if active then None else Some 1;
     createdAt := 0; updatedAt := if active then 0 else 1000 |}.

(** S1 is full (capacity 2, two members); S2 has room but bans carol; S3 has
    alice as its only member; S4 has ended. *)
Definition sessions : gmap string t :=
  <["S1" := session "S1" 2 ["u1"; "u2"] [] true]>
    (<["S2" := session "S2" 20 ["u1"] ["u3"] true]>
       (<["S3" := session "S3" 20 ["u1"] [] true]>
          (<["S4" := session "S4" 20 [] [] false]> ∅))).

Definition noJoinBody : VRSessionRoutes.JoinBody :=
  {| VRSessionRoutes.j_inviteCode := None;
     VRSessionRoutes.j_position := None;
     VRSessionRoutes.j_avatar := None |}.

(** An update whose name is too short for the request validator. *)
Definition shortName : VRSessionRoutes.UpdateBody :=
  {| VRSessionRoutes.u_name := Some "ab"%string;
     VRSessionRoutes.u_description := None;
     VRSessionRoutes.u_maxUsers := None;
     VRSessionRoutes.u_settings := None |}.

(** The string of one no-break space, U+00A0. *)
Definition nbsp : string := String (ascii_of_nat 160) EmptyString.

(** The ObjectIds of four chat messages. *)
Definition m1 : string := "65a1f0c2b3d4e5f6a7b8c9d1".
Definition m2 : string := "65a1f0c2b3d4e5f6a7b8c9d2".
Definition m3 : string := "65a1f0c2b3d4e5f6a7b8c9d3".
Definition m4 : string := "65a1f0c2b3d4e5f6a7b8c9d4".

(** Three stored chat messages: m1 and m2 by alice in "global" (m2
    soft-deleted at 20), m3 by bob in "lobby". *)
Definition chatMessage (mid uid author r : string) (created : Z)
    (deleted : option Z) : ChatMessage.t :=
  {| ChatMessage._id := mid;
     ChatMessage.user := uid;
     ChatMessage.username := author;
     ChatMessage.message := "hello";
     ChatMessage.room := r;
     ChatMessage.messageType := "text";
     ChatMessage.metadata :=
       {| ChatMessage.vrPosition := None; ChatMessage.attachments := [] |};
     ChatMessage.editedAt := None;
     ChatMessage.deletedAt := deleted;
     ChatMessage.createdAt := created;
     ChatMessage.updatedAt := created |}.

Definition chat : list ChatMessage.t :=
  [chatMessage m1 "u1" "alice" "global" 0 None;
   chatMessage m2 "u1" "alice" "global" 10 (Some 20);
   chatMessage m3 "u2" "bob" "lobby" 30 None].

(** Two sockets, of alice and of bob. *)
Definition socketA : Relay.Socket.t :=
  {| Relay.Socket.id := "sockA"; Relay.Socket.userId := "u1";
     Relay.Socket.username := "alice" |}.
Definition socketB : Relay.Socket.t :=
  {| Relay.Socket.id := "sockB"; Relay.Socket.userId := "u2";
     Relay.Socket.username := "bob" |}.

(** alice connects, joins room "A", then joins room "B". *)
Definition twoJoins : list (Z * Relay.Socket.t * Relay.input) :=
  [(0, socketA, Relay.Connection);
   (1, socketA, Relay.JoinVrSession "A");
   (2, socketA, Relay.JoinVrSession "B")].

(** alice and bob connect and join room "A". *)
Definition bothInA : list (Z * Relay.Socket.t * Relay.input) :=
  [(0, socketA, Relay.Connection);
   (1, socketB, Relay.Connection);
   (2, socketA, Relay.JoinVrSession "A");
   (3, socketB, Relay.JoinVrSession "A")].

(** A box with client-supplied id "box1", and a sphere with the same id. *)
Definition box (kind : string) : Relay.ObjectData :=
  {| Relay.od_id := Some "box1"%string;
     Relay.od_type := Some (Relay.VStr kind);
     Relay.od_position := None;
     Relay.od_rotation := None;
     Relay.od_scale := None;
     Relay.od_properties := None |}.


(** alice and bob are in room "A" and alice has created "box1". *)
Definition withBox : Relay.state :=
  (Relay.run
     (bothInA
      ++ [(4, socketA, Relay.CreateSharedObject "uuid1" (box "box"))])
     Relay.initial).1.

Definition hello (r : option string) : Relay.ChatData :=
  {| Relay.cd_message := Some "hello"%string; Relay.cd_room := r |}.

(** alice connects and sends [n] messages to the global room, with ids
    numbered from 1. *)
Definition numbered (k : nat) : string := String (ascii_of_nat k) EmptyString.

Definition manyMessages (n : nat) : list (Z * Relay.Socket.t * Relay.input) :=
  (0, socketA, Relay.Connection)
  :: map (fun k => (Z.of_nat k, socketA,
                    Relay.SendChatMessage (numbered k) (hello None)))
       (seq 1 n).

(** alice connects, joins room "R1" and disconnects. *)
Definition inAndOut : list (Z * Relay.Socket.t * Relay.input) :=
  [(0, socketA, Relay.Connection);
   (1, socketA, Relay.JoinVrSession "R1");
   (2, socketA, Relay.Disconnect)].

(** alice creates a session of capacity 2 (its id is drawn as "S9"); bob
    joins; carol tries to. *)
Definition capacityTwo : VRSessionRoutes.CreateBody :=
  {| VRSessionRoutes.c_name := Some "Lobby"%string;
     VRSessionRoutes.c_description := None;
     VRSessionRoutes.c_environment := None;
     VRSessionRoutes.c_maxUsers := Some 2;
     VRSessionRoutes.c_settings :=
       {| VRSessionRoutes.i_isPrivate := None;
          VRSessionRoutes.i_requireInvite := None;
          VRSessionRoutes.i_voiceChatEnabled := None;
          VRSessionRoutes.i_handTrackingEnabled := None;
          VRSessionRoutes.i_physicsEnabled := None |} |}.

Definition threeArrive : list (Z * VRSessionRoutes.request) :=
  [(0, VRSessionRoutes.ReqCreate "S9" "ABC123" alice capacityTwo);
   (1, VRSessionRoutes.ReqJoin (vx origin) (vx origin) bob "S9" noJoinBody)].

(** A creation body whose [settings.isPrivate] is the string "false". *)
Definition privateAsText : VRSessionRoutes.CreateBody :=
  {| VRSessionRoutes.c_name := Some "Lobby"%string;
     VRSessionRoutes.c_description := None;
     VRSessionRoutes.c_environment := None;
     VRSessionRoutes.c_maxUsers := None;
     VRSessionRoutes.c_settings :=
       {| VRSessionRoutes.i_isPrivate := Some (Js.JStr "false");
          VRSessionRoutes.i_requireInvite := None;
          VRSessionRoutes.i_voiceChatEnabled := None;
          VRSessionRoutes.i_handTrackingEnabled := None;
          VRSessionRoutes.i_physicsEnabled := None |} |}.

(** alice creates "S9" at time 0, bob joins, alice leaves, and bob, the
    last member, leaves at 5000 ms; alice then creates "S8" and ends it
    at 9500 ms. *)
Definition comeAndGo : list (Z * VRSessionRoutes.request) :=
  [(0, VRSessionRoutes.ReqCreate "S9" "ABC123" alice capacityTwo);
   (1000, VRSessionRoutes.ReqJoin (vx origin) (vx origin) bob "S9"
            noJoinBody);
   (2000, VRSessionRoutes.ReqLeave alice "S9");
   (5000, VRSessionRoutes.ReqLeave bob "S9");
   (6000, VRSessionRoutes.ReqCreate "S8" "XYZ789" alice capacityTwo);
   (9500, VRSessionRoutes.ReqEnd alice "S8")].

(** alice connects and sends two messages to the global room. *)
Definition twoMessages : list (Z * Relay.Socket.t * Relay.input) :=
  [(0, socketA, Relay.Connection);
   (1, socketA, Relay.SendChatMessage "id1" (hello None));
   (2, socketA, Relay.SendChatMessage "id2" (hello (Some "global"%string)))].

End Samples.

(* ===================================================================== *)
(** * Invariants and accessors used to state further properties *)
(* ===================================================================== *)

Module Inv.

(** ** Session store *)

(** The user ids of the members of a session, in joining order. *)
Definition memberIds (s : VRSession.t) : list string :=
  map VRSession.user (VRSession.currentUsers s).

Definition membersDistinct (s : VRSession.t) : Prop := NoDup (memberIds s).

Definition activeHasMembers (s : VRSession.t) : Prop :=
  VRSession.isActive s = true -> VRSession.currentUsers s <> [].

Definition endedIsStamped (s : VRSession.t) : Prop :=
  VRSession.isActive s = false ->
  exists e,
    VRSession.endedAt s = Some e
    /\ VRSession.duration s = Some ((e - VRSession.createdAt s) / 1000).

(** The sessions a listing reply carries. *)
Definition listedSessions (r : VRSessionRoutes.reply) : list VRSession.t :=
  match VRSessionRoutes.json r with
  | VRSessionRoutes.Sessions sessions _ _ _ _ => sessions
  | _ => []
  end.

(** ** Chat store *)

Definition idsDistinct (db : list ChatMessage.t) : Prop :=
  NoDup (map ChatMessage._id db).

(** ** Relay *)

(** Every room of the table carries its key as id, has a member, lists no
    member twice and no object id twice. *)
Definition roomsWellFormed (st : Relay.state) : Prop :=
  forall r room,
    Relay.vrSessions st !! r = Some room ->
    Relay.Room.id room = r
    /\ Relay.Room.users room <> []
    /\ NoDup (Relay.Room.users room)
    /\ NoDup (Relay.Room.sharedObjects room).*1.

(** The room a roster entry points at is in the table and lists the
    user. *)
Definition currentRoomsExist (st : Relay.state) : Prop :=
  forall uid u r,
    Js.oget uid (Relay.activeUsers st) = Some u ->
    Relay.ActiveUser.currentRoom u = Some r ->
    exists room,
      Relay.vrSessions st !! r = Some room /\ uid ∈ Relay.Room.users room.

(** Every logged chat message is filed under its own, non-empty room
    tag. *)
Definition logsHoldTheirRoom (st : Relay.state) : Prop :=
  forall room m,
    m ∈ Relay.logOf st room ->
    Relay.Msg.room m = room /\ room <> EmptyString.

End Inv.

(* ===================================================================== *)
(** * Properties of the session store *)
(* ===================================================================== *)

Section SessionStore.
Import VRSession Auth VRSessionRoutes.

Lemma existsb_banned s userId :
  existsb (fun banned => String.eqb (bannedUser banned) userId)
    (bannedUsers s) = true <-> isBanned s userId.
Proof.
  unfold isBanned. rewrite existsb_exists. split.
  - intros (b & Hin & Heq). exists b. split.
    + by apply list_elem_of_In.
    + by apply String.eqb_eq.
  - intros (b & Hin & Heq). exists b. split.
    + by apply list_elem_of_In.
    + by apply String.eqb_eq.
Qed.

(** C1: [canUserJoin(userId)] returns true exactly when the user is not on
    the banned list, the member count is strictly below [maxUsers], and
    either the session does not require an invite or the user is on the
    invited list. *)
Theorem canUserJoin_iff (s : t) (userId : string) :
  canUserJoin s userId = true <->
    ~ isBanned s userId
    /\ Z.of_nat (length (currentUsers s)) < maxUsers s
    /\ (requireInvite (settings s) = false \/ userId ∈ invitedUsers s).
Proof.
  unfold canUserJoin.
  destruct (existsb _ _) eqn:Hban.
  { apply existsb_banned in Hban. split; [done | tauto]. }
  assert (~ isBanned s userId) as Hnb.
  { intros H. apply existsb_banned in H. congruence. }
  destruct (Z.geb_spec (Z.of_nat (length (currentUsers s))) (maxUsers s))
    as [Hfull | Hroom].
  { split; [done | lia]. }
  destruct (requireInvite (settings s)); simpl.
  - case_bool_decide as Hinv; simpl.
    + split; [intros _ | done]. repeat split; [done | lia | by right].
    + split; [done |]. intros (_ & _ & [? | ?]); done.
  - split; [intros _ | done]. repeat split; [done | lia | by left].
Qed.

(** A full session refuses everybody. *)
Lemma canUserJoin_full s userId :
  maxUsers s <= Z.of_nat (length (currentUsers s)) ->
  canUserJoin s userId = false.
Proof.
  intros Hfull. unfold canUserJoin.
  destruct (existsb _ _); [done |].
  destruct (Z.geb_spec (Z.of_nat (length (currentUsers s))) (maxUsers s));
    [done | lia].
Qed.

(** ** What a request can do to the collection *)

Lemma findActive_Some db sid s :
  findActive db sid = Some s -> db !! sid = Some s /\ isActive s = true.
Proof.
  unfold findActive. destruct (db !! sid) as [s0 |]; [| done].
  destruct (isActive s0) eqn:Ha; [| done]. by intros [= ->].
Qed.

Lemma findActive_inactive db sid s :
  db !! sid = Some s -> isActive s = false -> findActive db sid = None.
Proof. intros Hs Ha. unfold findActive. by rewrite Hs, Ha. Qed.

Lemma findActiveHosted_Some db sid uid s :
  findActiveHosted db sid uid = Some s ->
  db !! sid = Some s /\ isActive s = true.
Proof.
  unfold findActiveHosted. destruct (findActive db sid) as [s0 |] eqn:Hf;
    [| done].
  destruct (String.eqb _ _); [| done]. intros [= ->].
  by apply findActive_Some.
Qed.

Lemma findActiveHosted_inactive db sid uid s :
  db !! sid = Some s -> isActive s = false ->
  findActiveHosted db sid uid = None.
Proof.
  intros Hs Ha. unfold findActiveHosted.
  by rewrite (findActive_inactive _ _ _ Hs Ha).
Qed.

(** A write of [save] lands on the key it was given. *)
Lemma save_cases now sid old new db db' :
  save now sid old new db = Some db' ->
  db' = db \/ db' = <[sid := set_updatedAt now new]> db.
Proof.
  unfold save. destruct (decide (new = old)); [intros [= <-]; by left |].
  destruct (_ && _); [done |]. intros [= <-]. by right.
Qed.

(** The collection after a request is the collection before it, or differs
    from it at one key: a fresh one, or the key of an active session. *)
Ltac written_by_save s Hf :=
  let db' := fresh "db'" in
  let Hsave := fresh "Hsave" in
  destruct (save _ _ _ _ _) as [db' |] eqn:Hsave; [| by left];
  simpl; apply save_cases in Hsave as [-> | ->]; [by left |];
  right; eexists _, _; split; [done |]; right; by exists s.

Lemma handle_frame now r db :
  (handle now r db).1 = db
  \/ exists k v, (handle now r db).1 = <[k := v]> db /\ writable db k.
Proof.
  destruct r as [user q | uuid code user b | user sid | rx rz user sid b
                | user sid | user sid b | user sid | code user sid]; simpl.
  - by left.
  - unfold create. destruct (validateCreate b); [| by left].
    destruct (_ && _) eqn:Hok; [| by left].
    right. eexists uuid, _. split; [done |]. left.
    apply andb_prop in Hok as [Hok _]. apply andb_prop in Hok as [_ Hfresh].
    by apply bool_decide_eq_true in Hfresh.
  - by left.
  - unfold join. destruct (findActive db sid) as [s |] eqn:Hf; [| by left].
    apply findActive_Some in Hf.
    destruct (negb (canUserJoin _ _)); [by left |].
    destruct (_ && _); [by left |].
    destruct (existsb _ _); [by left |].
    written_by_save s Hf.
  - unfold leave. destruct (findActive db sid) as [s |] eqn:Hf; [| by left].
    apply findActive_Some in Hf.
    written_by_save s Hf.
  - unfold update. destruct (validateUpdate b); [| by left].
    destruct (findActiveHosted db sid (_id user)) as [s |] eqn:Hf; [| by left].
    apply findActiveHosted_Some in Hf.
    destruct (negb (schemaValid _)); [by left |].
    written_by_save s Hf.
  - unfold endSession.
    destruct (findActiveHosted db sid (_id user)) as [s |] eqn:Hf; [| by left].
    apply findActiveHosted_Some in Hf.
    written_by_save s Hf.
  - unfold regenerateInviteCode.
    destruct (findActiveHosted db sid (_id user)) as [s |] eqn:Hf; [| by left].
    apply findActiveHosted_Some in Hf. simpl.
    written_by_save s Hf.
Qed.

(** No request touches the record of an ended session. *)
Lemma handle_inactive_record now r db sid s :
  db !! sid = Some s -> isActive s = false ->
  (handle now r db).1 !! sid = Some s.
Proof.
  intros Hs Ha.
  destruct (handle_frame now r db) as [-> | (k & v & -> & Hw)]; [done |].
  destruct (decide (k = sid)) as [-> | Hne].
  - destruct Hw as [Hnone | (s' & Hs' & Ha')]; congruence.
  - by rewrite lookup_insert_ne.
Qed.

Lemma run_inactive_record trace db sid s :
  db !! sid = Some s -> isActive s = false ->
  run trace db !! sid = Some s.
Proof.
  revert db. induction trace as [| [now r] trace IH]; intros db Hs Ha;
    [done |].
  simpl. apply IH; [| done]. by apply handle_inactive_record.
Qed.

(** Neither does any action of the server as a whole. *)
Lemma server_run_inactive_record trace w sid s :
  Server.sessionDb w !! sid = Some s -> isActive s = false ->
  Server.sessionDb (Server.run trace w) !! sid = Some s.
Proof.
  revert w. induction trace as [| [now a] trace IH]; intros w Hs Ha;
    [done |].
  simpl. apply IH; [| done].
  destruct a as [socket i | r | r]; simpl; [done | | done].
  by apply handle_inactive_record.
Qed.

Lemma deactivations_inactive sid trace db :
  inactiveIn db sid = true -> deactivations sid trace db = 0%nat.
Proof.
  revert db. induction trace as [| [now r] trace IH]; intros db Hin;
    [done |].
  simpl. unfold inactiveIn in Hin.
  destruct (db !! sid) as [s |] eqn:Hs; [| done].
  apply negb_true_iff in Hin.
  assert ((handle now r db).1 !! sid = Some s) as Hs'
    by by apply handle_inactive_record.
  rewrite IH.
  - unfold activeIn. by rewrite Hs, Hin.
  - unfold inactiveIn. by rewrite Hs', Hin.
Qed.

Lemma deactivations_le_1 sid trace db :
  (deactivations sid trace db <= 1)%nat.
Proof.
  revert db. induction trace as [| [now r] trace IH]; intros db; simpl;
    [lia |].
  destruct (activeIn db sid && inactiveIn _ sid) eqn:Hflip.
  - apply andb_prop in Hflip as [_ Hin].
    rewrite (deactivations_inactive _ _ _ Hin). lia.
  - specialize (IH (handle now r db).1). lia.
Qed.

End SessionStore.

Section SessionClaims.
Import VRSession Auth VRSessionRoutes.

(** C1, at a sample: carol may join S3, which has room, no ban and no
    invite requirement. *)
Lemma canUserJoin_iff_witness :
  canUserJoin (Samples.session "S3" 20 ["u1"%string] [] true) "u3" = true.
Proof.
  apply canUserJoin_iff. split; [| split].
  - intros (b & Hb & _). by apply elem_of_nil in Hb.
  - simpl. lia.
  - by left.
Defined.

(** C6 as stated fails: the reply to a join of the full session S1 is the
    very reply given to the banned carol on S2, which has room; nothing in
    it speaks of capacity. *)
Lemma full_session_reply_is_generic :
  (join 5 Samples.origin.(vx) Samples.origin.(vx) Samples.carol "S1"
     Samples.noJoinBody Samples.sessions).2
  = {| status := 403; json := Error "Cannot join this session" |}
  /\ (join 5 Samples.origin.(vx) Samples.origin.(vx) Samples.carol "S2"
        Samples.noJoinBody Samples.sessions).2
     = (join 5 Samples.origin.(vx) Samples.origin.(vx) Samples.carol "S1"
          Samples.noJoinBody Samples.sessions).2
  /\ Z.of_nat (length (currentUsers (Samples.session "S2" 20 ["u1"%string]
                                       ["u3"%string] true)))
     < maxUsers (Samples.session "S2" 20 ["u1"%string] ["u3"%string] true).
Proof. vm_compute. repeat split. Qed.

(** C6, amended: a join of a session whose member count equals [maxUsers]
    always fails and writes nothing; on an active session the reply is the
    403 "Cannot join this session" that every refusal of [canUserJoin]
    produces (ban, capacity or missing invitation alike), on an ended one it
    is the 404. *)
Theorem join_full_session_refused
  (db : gmap string t) (sid : string) (s : t) (u : User) (b : JoinBody)
  (now : Z) (rx rz : Q)
  (Hs : db !! sid = Some s)
  (Hfull : Z.of_nat (length (currentUsers s)) = maxUsers s) :
  join now rx rz u sid b db
  = (db, if isActive s then cannotJoin else notFound)
  /\ (forall db2 sid2 s2,
        db2 !! sid2 = Some s2 -> isActive s2 = true ->
        canUserJoin s2 (_id u) = false ->
        join now rx rz u sid2 b db2 = (db2, cannotJoin)).
Proof.
  split.
  - unfold join, findActive. rewrite Hs.
    destruct (isActive s); [| done].
    rewrite canUserJoin_full by lia. done.
  - intros db2 sid2 s2 Hs2 Ha2 Hno. unfold join, findActive.
    by rewrite Hs2, Ha2, Hno.
Qed.

Lemma join_full_session_refused_witness :
  join 5 Samples.origin.(vx) Samples.origin.(vx) Samples.carol "S1"
    Samples.noJoinBody Samples.sessions
  = (Samples.sessions, cannotJoin).
Proof.
  refine (proj1 (join_full_session_refused Samples.sessions "S1"
                   (Samples.session "S1" 2 ["u1"; "u2"]%string [] true)
                   Samples.carol Samples.noJoinBody 5 _ _ _ _)).
  - reflexivity.
  - reflexivity.
Defined.

(** C10 as stated fails: an update of the ended session S4 whose body does
    not pass the request validators is answered 400, not 404. *)
Lemma ended_session_update_invalid_body :
  (handle 2000 (ReqUpdate Samples.alice "S4" Samples.shortName)
     Samples.sessions).2
  = {| status := 400;
       json := Errors
                 ["Session name must be between 3 and 100 characters"%string]
    |}.
Proof. vm_compute. reflexivity. Qed.

(** C10, amended: on a session whose [isActive] is false, fetch-by-id,
    join, leave, update, end and regenerate-invite-code leave the whole
    collection unchanged and answer 404, except that an update whose body
    fails the request validators is answered with the 400 validation
    reply. *)
Theorem ended_session_not_found
  (db : gmap string t) (sid : string) (s : t) (now : Z) (r : request)
  (Hs : db !! sid = Some s) (Hended : isActive s = false)
  (Haddr : addresses r = Some sid) :
  (handle now r db).1 = db
  /\ ((handle now r db).2 = notFound
      \/ (handle now r db).2 = notFoundOrUnauthorized
      \/ exists u b,
           r = ReqUpdate u sid b /\ validateUpdate b <> []
           /\ (handle now r db).2
              = {| status := 400; json := Errors (validateUpdate b) |}).
Proof.
  destruct r as [user q | uuid code user b | user sid' | rx rz user sid' b
                | user sid' | user sid' b | user sid' | code user sid'];
    simpl in Haddr; try done; injection Haddr as ->; simpl.
  - unfold fetch. rewrite (findActive_inactive _ _ _ Hs Hended). auto.
  - unfold join. rewrite (findActive_inactive _ _ _ Hs Hended). auto.
  - unfold leave. rewrite (findActive_inactive _ _ _ Hs Hended). auto.
  - unfold update. destruct (validateUpdate b) as [| e errs] eqn:Hv.
    + rewrite (findActiveHosted_inactive _ _ _ _ Hs Hended). auto.
    + split; [done |]. right. right. exists user, b.
      rewrite Hv. done.
  - unfold endSession.
    rewrite (findActiveHosted_inactive _ _ _ _ Hs Hended). auto.
  - unfold regenerateInviteCode.
    rewrite (findActiveHosted_inactive _ _ _ _ Hs Hended). auto.
Qed.

Lemma ended_session_not_found_witness :
  (handle 2000 (ReqLeave Samples.alice "S4") Samples.sessions).1
  = Samples.sessions.
Proof.
  refine (proj1 (ended_session_not_found Samples.sessions "S4"
                   (Samples.session "S4" 20 [] [] false) 2000
                   (ReqLeave Samples.alice "S4") _ _ _)).
  - reflexivity.
  - reflexivity.
  - reflexivity.
Defined.

End SessionClaims.

Section SessionLifecycle.
Import VRSession Auth VRSessionRoutes.

Lemma afterLeave_last now uid s :
  filter (fun m => user m <> uid) (currentUsers s) = [] ->
  afterLeave now uid s
  = set_duration (Some ((now - createdAt s) / 1000))
      (set_endedAt (Some now) (set_isActive false (set_currentUsers [] s))).
Proof. intros Hlast. unfold afterLeave. simpl. by rewrite Hlast. Qed.

(** The write of a leave that empties an active session. *)
Lemma leave_last_store now u sid s db :
  db !! sid = Some s -> isActive s = true ->
  filter (fun m => user m <> _id u) (currentUsers s) = [] ->
  (leave now u sid db).1
  = <[sid := set_updatedAt now (afterLeave now (_id u) s)]> db.
Proof.
  intros Hs Ha Hlast. unfold leave, findActive. rewrite Hs, Ha.
  unfold save. rewrite (afterLeave_last _ _ _ Hlast).
  destruct (decide _) as [Heq | _].
  { apply (f_equal isActive) in Heq. simpl in Heq. congruence. }
  simpl. rewrite bool_decide_eq_true_2 by done. done.
Qed.

(** C2 as stated fails on the unit: alice, the only member of S3 (created
    at time 0), leaves at 1500 ms; the session ends at 1500 but its duration
    is 1 (whole seconds), not [endedAt - createdAt = 1500]. *)
Lemma leave_duration_is_in_seconds :
  exists s',
    (leave 1500 Samples.alice "S3" Samples.sessions).1 !! "S3"%string = Some s'
    /\ isActive s' = false
    /\ endedAt s' = Some 1500
    /\ createdAt s' = 0
    /\ duration s' = Some 1
    /\ duration s' <> Some (1500 - 0).
Proof. eexists. vm_compute. repeat split. discriminate. Qed.

(** C2, amended: the leave that empties the member list of an active
    session sets [isActive] to false, stamps [endedAt] with the time of the
    request and sets [duration] to the whole seconds elapsed since creation,
    [floor((endedAt - createdAt) / 1000)]; from then on no run of requests
    to the session API, and no run of server actions of any kind, changes
    the record; that leave is the one deactivation of the session in any
    run that starts with it, and no run deactivates a session twice. *)
Theorem leave_last_member_deactivates_once
  (db : gmap string t) (sid : string) (s : t) (u : User) (now : Z)
  (Hs : db !! sid = Some s) (Hactive : isActive s = true)
  (Hlast : filter (fun m => user m <> _id u) (currentUsers s) = []) :
  (exists s',
      (leave now u sid db).1 !! sid = Some s'
      /\ isActive s' = false
      /\ endedAt s' = Some now
      /\ duration s' = Some ((now - createdAt s) / 1000)
      /\ createdAt s' = createdAt s
      /\ currentUsers s' = []
      /\ (forall trace, run trace (leave now u sid db).1 !! sid = Some s')
      /\ (forall trace w,
            Server.sessionDb w = (leave now u sid db).1 ->
            Server.sessionDb (Server.run trace w) !! sid = Some s'))
  /\ (forall trace,
        deactivations sid ((now, ReqLeave u sid) :: trace) db = 1%nat)
  /\ (forall trace db0, (deactivations sid trace db0 <= 1)%nat).
Proof.
  pose proof (leave_last_store now u sid s db Hs Hactive Hlast) as Hdb.
  assert ((leave now u sid db).1 !! sid
          = Some (set_updatedAt now (afterLeave now (_id u) s))) as Hs'.
  { rewrite Hdb. apply lookup_insert_eq. }
  assert (isActive (set_updatedAt now (afterLeave now (_id u) s)) = false)
    as Hoff.
  { by rewrite (afterLeave_last _ _ _ Hlast). }
  split; [| split].
  - eexists. split; [exact Hs' |].
    rewrite (afterLeave_last _ _ _ Hlast). simpl.
    repeat split; try done.
    + intros trace. apply run_inactive_record.
      * rewrite Hs'. by rewrite (afterLeave_last _ _ _ Hlast).
      * done.
    + intros trace w Hw. apply server_run_inactive_record.
      * rewrite Hw, Hs'. by rewrite (afterLeave_last _ _ _ Hlast).
      * done.
  - intros trace. simpl.
    rewrite deactivations_inactive.
    + unfold activeIn, inactiveIn. rewrite Hs, Hactive, Hs', Hoff. done.
    + unfold inactiveIn. by rewrite Hs', Hoff.
  - intros trace db0. apply deactivations_le_1.
Qed.

Lemma leave_last_member_deactivates_once_witness :
  deactivations "S3"
    [(1500, ReqLeave Samples.alice "S3");
     (1600, ReqJoin Samples.origin.(vx) Samples.origin.(vx) Samples.bob "S3"
              Samples.noJoinBody);
     (1700, ReqLeave Samples.bob "S3")]
    Samples.sessions = 1%nat.
Proof.
  refine (proj1 (proj2 (leave_last_member_deactivates_once Samples.sessions
                          "S3" (Samples.session "S3" 20 ["u1"%string] [] true)
                          Samples.alice 1500 _ _ _)) _).
  - reflexivity.
  - reflexivity.
  - reflexivity.
Defined.

End SessionLifecycle.

(* ===================================================================== *)
(** * Facts about the JavaScript containers *)
(* ===================================================================== *)

Section OMapFacts.
Context {K V : Type} `{EqDecision K}.
Implicit Types (m : list (K * V)) (k : K) (v : V).

Lemma oget_oset_eq k v m : Js.oget k (Js.oset k v m) = Some v.
Proof.
  induction m as [| [k' v'] m IH]; simpl.
  - by rewrite decide_True.
  - destruct (decide (k = k')) as [-> | Hne]; simpl.
    + by rewrite decide_True.
    + by rewrite decide_False.
Qed.

Lemma oget_oset_ne k k' v m :
  k <> k' -> Js.oget k' (Js.oset k v m) = Js.oget k' m.
Proof.
  intros Hne. induction m as [| [k0 v0] m IH]; simpl.
  - rewrite decide_False; [done | congruence].
  - destruct (decide (k = k0)) as [-> | Hne0]; simpl.
    + rewrite !decide_False; [done | congruence | congruence].
    + destruct (decide (k' = k0)); [done | apply IH].
Qed.

Lemma oset_keys_present k v m : k ∈ m.*1 -> (Js.oset k v m).*1 = m.*1.
Proof.
  induction m as [| [k0 v0] m IH]; intros Hin.
  - by apply elem_of_nil in Hin.
  - cbn [Js.oset]. destruct (decide (k = k0)) as [-> | Hne]; [done |].
    rewrite !fmap_cons. f_equal. apply IH.
    rewrite fmap_cons in Hin. apply elem_of_cons in Hin as [? | ?]; done.
Qed.

Lemma oset_keys_absent k v m : k ∉ m.*1 -> (Js.oset k v m).*1 = m.*1 ++ [k].
Proof.
  induction m as [| [k0 v0] m IH]; intros Hnin; [done |].
  cbn [Js.oset]. rewrite fmap_cons in Hnin.
  apply not_elem_of_cons in Hnin as [Hne Hnin].
  destruct (decide (k = k0)) as [-> | _]; [done |].
  rewrite !fmap_cons. simpl. f_equal. by apply IH.
Qed.

Lemma oset_NoDup k v m : NoDup m.*1 -> NoDup (Js.oset k v m).*1.
Proof.
  intros Hnd. destruct (decide (k ∈ m.*1)) as [Hin | Hnin].
  - by rewrite oset_keys_present.
  - rewrite oset_keys_absent by done.
    apply NoDup_app. repeat split; [done | | apply NoDup_singleton].
    intros x Hx Hx'. apply list_elem_of_singleton in Hx'. by subst.
Qed.

Lemma oget_elem_of k v m : NoDup m.*1 -> (k, v) ∈ m -> Js.oget k m = Some v.
Proof.
  induction m as [| [k0 v0] m IH]; intros Hnd Hin.
  - by apply elem_of_nil in Hin.
  - rewrite fmap_cons in Hnd. apply NoDup_cons in Hnd as [Hk0 Hnd].
    cbn [Js.oget].
    apply elem_of_cons in Hin as [[= -> ->] | Hin].
    + by rewrite decide_True.
    + rewrite decide_False; [by apply IH |].
      intros ->. apply Hk0. apply list_elem_of_fmap. by exists (k0, v).
Qed.

Lemma oget_Some_elem_of k v m : Js.oget k m = Some v -> (k, v) ∈ m.
Proof.
  induction m as [| [k0 v0] m IH]; simpl; [done |].
  destruct (decide (k = k0)) as [-> | Hne].
  - intros [= ->]. apply list_elem_of_here.
  - intros Hget. apply list_elem_of_further. by apply IH.
Qed.

Lemma oset_length_present k v m :
  is_Some (Js.oget k m) -> length (Js.oset k v m) = length m.
Proof.
  induction m as [| [k0 v0] m IH]; simpl.
  - by intros [? ?].
  - destruct (decide (k = k0)); simpl; [done |].
    intros Hsome. by rewrite IH.
Qed.

End OMapFacts.

Section QueryFacts.
Context {A : Type} (key : A -> Z).

Lemma insertDesc_Permutation (a : A) (l : list A) :
  Js.insertDesc key a l ≡ₚ a :: l.
Proof.
  induction l as [| b l IH]; simpl; [done |].
  destruct (key b <=? key a); [done |].
  rewrite IH. apply Permutation_swap.
Qed.

Lemma sortDesc_Permutation (l : list A) : Js.sortDesc key l ≡ₚ l.
Proof.
  induction l as [| a l IH]; simpl; [done |].
  rewrite insertDesc_Permutation. by rewrite IH.
Qed.

Lemma elem_of_window lim skip (l w : list A) (x : A) :
  Js.window lim skip l = Some w -> x ∈ w -> x ∈ l.
Proof.
  unfold Js.window. destruct (skip <? 0); [done |]. intros [= <-] Hx.
  destruct (lim =? 0).
  - by apply (subseteq_drop (Z.to_nat skip) l).
  - apply (subseteq_drop (Z.to_nat skip) l).
    by apply (subseteq_take (Z.to_nat (Z.abs lim))).
Qed.

End QueryFacts.

Lemma filter_filter_bool {A} (f g : A -> bool) (l : list A) :
  List.filter f (List.filter g l) = List.filter (fun x => f x && g x) l.
Proof.
  induction l as [| a l IH]; simpl; [done |].
  destruct (g a); simpl.
  - destruct (f a); simpl; by rewrite IH.
  - by rewrite andb_false_r.
Qed.

Lemma filter_split_length {A} (f : A -> bool) (l : list A) :
  length l
  = (length (List.filter f l)
     + length (List.filter (fun x => negb (f x)) l))%nat.
Proof.
  induction l as [| a l IH]; simpl; [done |].
  destruct (f a); simpl; lia.
Qed.

Lemma filter_true {A} (l : list A) : List.filter (fun _ => true) l = l.
Proof. induction l as [| a l IH]; simpl; [done | by rewrite IH]. Qed.

(* ===================================================================== *)
(** * Properties of the chat store *)
(* ===================================================================== *)

Section ChatStore.
Import ChatMessage ChatRoutes.

Lemma findOwn_findOne db messageId uid i m :
  findOwn db messageId uid = Some (i, m) ->
  findOne db messageId uid = Some (Some (i, m)).
Proof.
  unfold findOwn. destruct (findOne _ _ _) as [found |]; [by intros -> | done].
Qed.

Lemma findOwn_Some db messageId uid i m :
  findOwn db messageId uid = Some (i, m) ->
  db !! i = Some m /\ Js.castObjectId messageId = Some (_id m)
  /\ user m = uid /\ deletedAt m = None.
Proof.
  unfold findOwn, findOne. intros Hfind.
  destruct (Js.castObjectId messageId) as [oid |]; [| done].
  apply list_find_Some in Hfind as (Hi & (H1 & H2 & H3) & _).
  by rewrite H1.
Qed.

Lemma findOne_found db messageId uid i m :
  findOne db messageId uid = Some (Some (i, m)) ->
  findOwn db messageId uid = Some (i, m).
Proof. unfold findOwn. by intros ->. Qed.

(** What the query answers when no undeleted message of the user has the
    id the string is cast to. *)
Lemma findOne_None db messageId uid :
  (forall m, m ∈ db -> Js.castObjectId messageId = Some (_id m) ->
             user m = uid -> deletedAt m <> None) ->
  findOne db messageId uid
  = match Js.castObjectId messageId with
    | Some _ => Some None
    | None => None
    end.
Proof.
  intros Hnone. unfold findOne.
  destruct (Js.castObjectId messageId) as [oid |]; [| done].
  f_equal. apply list_find_None, Forall_forall.
  intros m Hm (Hid & Huser & Hdel). apply (Hnone m); [done | | done | done].
  by rewrite Hid.
Qed.

Lemma saved_cases now old new :
  saved now old new = new \/ saved now old new = set_updatedAt now new.
Proof.
  unfold saved. destruct (decide (new = old)) as [-> | _]; [by left | by right].
Qed.

Lemma saved_updatedAt now old new :
  updatedAt (saved now old new) = now \/ saved now old new = old.
Proof.
  unfold saved. destruct (decide (new = old)); [by right | by left].
Qed.

(** ** The edit window *)

Lemma edit_too_old now u messageId msg db i m :
  findOwn db messageId (Auth._id u) = Some (i, m) ->
  15 * 60 * 1000 < now - createdAt m ->
  (edit now u messageId msg db).1 = db
  /\ status (edit now u messageId msg db).2 = 400.
Proof.
  intros Hfound Hold. unfold edit.
  destruct (validateEdit msg); [| done].
  rewrite (findOwn_findOne _ _ _ _ _ Hfound).
  destruct (Z.ltb_spec (createdAt m) (now - 15 * 60 * 1000)); [done | lia].
Qed.

Lemma edit_in_window now u messageId msg db i m :
  findOwn db messageId (Auth._id u) = Some (i, m) ->
  now - createdAt m <= 15 * 60 * 1000 ->
  validateEdit msg = [] ->
  messageValid (Js.trim (default EmptyString msg)) = true ->
  edit now u messageId msg db
  = (<[i := saved now m
              (set_editedAt (Some now)
                 (set_message (Js.trim (default EmptyString msg)) m))]> db,
     {| status := 200;
        json := Edited "Message updated successfully"
                  (saved now m
                     (set_editedAt (Some now)
                        (set_message (Js.trim (default EmptyString msg)) m))) |}).
Proof.
  intros Hfound Hyoung Hreq Hschema. unfold edit.
  rewrite Hreq, (findOwn_findOne _ _ _ _ _ Hfound).
  destruct (Z.ltb_spec (createdAt m) (now - 15 * 60 * 1000)); [lia |].
  simpl. by rewrite Hschema.
Qed.

(** C4 as stated fails twice on m1 (created at 0, edited by its author
    alice at 60000 ms, one minute later): an edit to the empty body is
    refused with 400 although the message is younger than 15 minutes; and
    an accepted edit also moves [updatedAt] (0 before, 60000 after). *)
Lemma edit_young_message_refused_or_restamped :
  60000
  - createdAt (Samples.chatMessage Samples.m1 "u1" "alice" "global" 0 None)
  < 15 * 60 * 1000
  /\ findOwn Samples.chat Samples.m1 "u1"
     = Some (0%nat,
             Samples.chatMessage Samples.m1 "u1" "alice" "global" 0 None)
  /\ edit 60000 Samples.alice Samples.m1 (Some EmptyString) Samples.chat
     = (Samples.chat, {| status := 400; json := Errors messageErrors |})
  /\ exists m',
       (edit 60000 Samples.alice Samples.m1 (Some "hi"%string) Samples.chat).1
         !! 0%nat = Some m'
       /\ updatedAt m' = 60000
       /\ updatedAt
            (Samples.chatMessage Samples.m1 "u1" "alice" "global" 0 None)
          = 0.
Proof.
  split; [vm_compute; reflexivity |].
  split; [vm_compute; reflexivity |].
  split; [vm_compute; reflexivity |].
  eexists. vm_compute. repeat split.
Qed.

(** C4, amended: for a non-deleted message found for its author, an edit
    more than 15 minutes after creation always fails (status 400, nothing
    written); an edit within 15 minutes whose new body passes the request
    validator and, once trimmed, the schema validators of [message] succeeds:
    it sets the body to the trimmed text and the edit timestamp to the time
    of the request, refreshes [updatedAt] as every modifying save does, and
    leaves every other field of the message and every other message
    unchanged. *)
Theorem edit_window
  (db : list t) (u : Auth.User) (messageId : string) (msg : option string)
  (now : Z) (i : nat) (m : t)
  (Hfound : findOwn db messageId (Auth._id u) = Some (i, m)) :
  (15 * 60 * 1000 < now - createdAt m ->
     (edit now u messageId msg db).1 = db
     /\ status (edit now u messageId msg db).2 = 400)
  /\ (now - createdAt m < 15 * 60 * 1000 ->
      validateEdit msg = [] ->
      messageValid (Js.trim (default EmptyString msg)) = true ->
      exists m',
        edit now u messageId msg db
        = (<[i := m']> db,
           {| status := 200;
              json := Edited "Message updated successfully" m' |})
        /\ message m' = Js.trim (default EmptyString msg)
        /\ editedAt m' = Some now
        /\ (updatedAt m' = now \/ m' = m)
        /\ _id m' = _id m /\ user m' = user m /\ username m' = username m
        /\ room m' = room m /\ messageType m' = messageType m
        /\ metadata m' = metadata m /\ deletedAt m' = deletedAt m
        /\ createdAt m' = createdAt m
        /\ length (<[i := m']> db) = length db
        /\ forall j, j <> i -> <[i := m']> db !! j = db !! j).
Proof.
  split.
  - intros Hold. by apply (edit_too_old _ _ _ _ _ i m).
  - intros Hyoung Hreq Hschema.
    eexists. split.
    { apply edit_in_window; [done | lia | done | done]. }
    split; [| split; [| split]].
    + destruct (saved_cases now m
                  (set_editedAt (Some now)
                     (set_message (Js.trim (default EmptyString msg)) m)))
        as [-> | ->]; done.
    + destruct (saved_cases now m
                  (set_editedAt (Some now)
                     (set_message (Js.trim (default EmptyString msg)) m)))
        as [-> | ->]; done.
    + apply saved_updatedAt.
    + destruct (saved_cases now m
                  (set_editedAt (Some now)
                     (set_message (Js.trim (default EmptyString msg)) m)))
        as [-> | ->]; simpl; repeat split;
        try apply length_insert;
        intros j Hj; by apply list_lookup_insert_ne.
Qed.

Lemma edit_window_witness :
  exists m',
    edit 60000 Samples.alice Samples.m1 (Some "hi"%string) Samples.chat
    = (<[0%nat := m']> Samples.chat,
       {| status := 200; json := Edited "Message updated successfully" m' |})
    /\ message m' = "hi"%string
    /\ editedAt m' = Some 60000.
Proof.
  destruct (proj2 (edit_window Samples.chat Samples.alice Samples.m1
                     (Some "hi"%string) 60000 0%nat
                     (Samples.chatMessage Samples.m1 "u1" "alice" "global"
                        0 None)
                     eq_refl)
              ltac:(vm_compute; reflexivity) eq_refl eq_refl)
    as (m' & Hedit & Hmsg & Hedited & _).
  exists m'. repeat split; assumption.
Defined.

(** ** Soft deletion *)

Lemma countDocuments_cons p m db :
  countDocuments p (m :: db)
  = (if p m then 1 else 0) + countDocuments p db.
Proof.
  unfold countDocuments. simpl. destruct (p m); simpl; lia.
Qed.

Lemma countDocuments_nonneg p db : 0 <= countDocuments p db.
Proof. unfold countDocuments. lia. Qed.

Lemma countDocuments_visible r db :
  countDocuments (inRoom r) (List.filter notDeleted db)
  = countDocuments (inHistory r) db.
Proof. unfold countDocuments. by rewrite filter_filter_bool. Qed.

Lemma countDocuments_pos p db m :
  m ∈ db -> p m = true -> 0 < countDocuments p db.
Proof.
  intros Hin Hp. unfold countDocuments.
  assert (In m (List.filter p db)) as Hm.
  { apply filter_In. split; [by apply list_elem_of_In | done]. }
  destruct (List.filter p db); [done | simpl; lia].
Qed.

(** Every message of a history reply is a visible message of the room. *)
Lemma history_visible r q db m :
  m ∈ historyMessages (history r q db) ->
  m ∈ db /\ room m = r /\ deletedAt m = None.
Proof.
  unfold history, historyMessages.
  destruct (Js.window _ _ _) as [w |] eqn:Hw; simpl.
  - intros Hm. apply list_elem_of_In, in_rev, list_elem_of_In in Hm.
    apply (elem_of_window _ _ _ _ _ Hw) in Hm.
    rewrite sortDesc_Permutation in Hm.
    apply list_elem_of_In, filter_In in Hm as [Hin Hvis].
    unfold inHistory, notDeleted in Hvis.
    apply andb_prop in Hvis as [Hroom Hnd].
    apply String.eqb_eq in Hroom. apply bool_decide_eq_true in Hnd.
    split; [by apply list_elem_of_In | done].
  - intros Hm. by apply elem_of_nil in Hm.
Qed.

(** One more message for a group: its count goes up by one, the other
    groups are untouched, keys stay distinct. *)
Lemma addToGroup_same groups m :
  exists g,
    Js.oget (room m) (addToGroup groups m) = Some g
    /\ r_id g = room m
    /\ messageCount g
       = default 0 (messageCount <$> Js.oget (room m) groups) + 1.
Proof.
  unfold addToGroup. destruct (Js.oget (room m) groups) as [g0 |];
    eexists; (split; [apply oget_oset_eq |]); simpl; split; done.
Qed.

Lemma addToGroup_other groups m k :
  k <> room m -> Js.oget k (addToGroup groups m) = Js.oget k groups.
Proof.
  intros Hne. unfold addToGroup.
  destruct (Js.oget (room m) groups); by apply oget_oset_ne.
Qed.

Lemma addToGroup_NoDup groups m :
  NoDup groups.*1 -> NoDup (addToGroup groups m).*1.
Proof.
  intros Hnd. unfold addToGroup.
  destruct (Js.oget (room m) groups); by apply oset_NoDup.
Qed.

Lemma foldl_addToGroup ms : forall groups,
  NoDup groups.*1 ->
  (forall k g, Js.oget k groups = Some g -> r_id g = k) ->
  NoDup (foldl addToGroup groups ms).*1
  /\ forall k,
       match Js.oget k (foldl addToGroup groups ms) with
       | Some g =>
           r_id g = k
           /\ messageCount g
              = default 0 (messageCount <$> Js.oget k groups)
                + countDocuments (inRoom k) ms
           /\ (Js.oget k groups = None -> 0 < countDocuments (inRoom k) ms)
       | None =>
           Js.oget k groups = None /\ countDocuments (inRoom k) ms = 0
       end.
Proof.
  induction ms as [| m ms IH]; intros groups Hnd Hkeyed.
  - split; [done |]. intros k. simpl.
    destruct (Js.oget k groups) as [g |] eqn:Hg; simpl.
    + split; [by apply Hkeyed |]. split; [unfold countDocuments; simpl; lia |].
      done.
    + done.
  - simpl.
    destruct (addToGroup_same groups m) as (g1 & Hg1 & Hid1 & Hcount1).
    destruct (IH (addToGroup groups m)) as [Hnd' Hall].
    { by apply addToGroup_NoDup. }
    { intros k g Hg. destruct (decide (k = room m)) as [-> | Hne].
      - rewrite Hg1 in Hg. by injection Hg as <-.
      - rewrite addToGroup_other in Hg by done. by apply Hkeyed. }
    split; [done |]. intros k. specialize (Hall k).
    rewrite countDocuments_cons. unfold inRoom at 1 3 5.
    pose proof (countDocuments_nonneg (inRoom k) ms) as Hnn.
    destruct (decide (k = room m)) as [-> | Hne].
    + rewrite String.eqb_refl. rewrite Hg1 in Hall. simpl in Hall.
      destruct (Js.oget (room m) (foldl addToGroup (addToGroup groups m) ms))
        as [g |]; [| by destruct Hall].
      destruct Hall as (Hid & Hcount & _).
      split; [done |]. split; [lia | intros _; lia].
    + assert (String.eqb (room m) k = false) as ->.
      { apply String.eqb_neq. congruence. }
      rewrite addToGroup_other in Hall by done. simpl.
      destruct (Js.oget k (foldl addToGroup (addToGroup groups m) ms));
        [| done].
      destruct Hall as (Hid & Hcount & Hpos). done.
Qed.

(** The groups of the aggregation and their counts. *)
Lemma aggregateRooms_counts db g :
  g ∈ aggregateRooms db ->
  messageCount g = countDocuments (inHistory (r_id g)) db
  /\ 0 < messageCount g.
Proof.
  unfold aggregateRooms, groupByRoom. intros Hg.
  apply (subseteq_take 20) in Hg. rewrite sortDesc_Permutation in Hg.
  unfold Js.ovalues in Hg. apply list_elem_of_In, in_map_iff in Hg.
  destruct Hg as ([k g'] & Heq & Hin). simpl in Heq. subst g'.
  apply list_elem_of_In in Hin.
  destruct (foldl_addToGroup (List.filter notDeleted db) [])
    as [Hnd Hall]; [apply NoDup_nil_2 | done |].
  apply (oget_elem_of _ _ _ Hnd) in Hin.
  specialize (Hall k). rewrite Hin in Hall. simpl in Hall.
  destruct Hall as (Hid & Hcount & Hpos). subst k.
  rewrite countDocuments_visible in Hcount, Hpos.
  split; [lia |]. rewrite Hcount. specialize (Hpos eq_refl). lia.
Qed.

Lemma aggregateRooms_ignores_deleted db :
  aggregateRooms db = aggregateRooms (List.filter notDeleted db).
Proof.
  unfold aggregateRooms. rewrite filter_filter_bool.
  do 4 f_equal. apply filter_ext. intros m. by destruct (notDeleted m).
Qed.

Lemma totalStored_split db :
  totalStored db
  = countDocuments notDeleted db
    + countDocuments (fun m => negb (notDeleted m)) db.
Proof.
  unfold totalStored, countDocuments. rewrite filter_true.
  rewrite (filter_split_length notDeleted db) at 1. lia.
Qed.

Lemma delete_keeps_document now u messageId db :
  totalStored (delete now u messageId db).1 = totalStored db
  /\ forall i m,
       findOwn db messageId (Auth._id u) = Some (i, m) ->
       exists m',
         (delete now u messageId db).1 !! i = Some m'
         /\ Js.castObjectId messageId = Some (_id m')
         /\ _id m' = _id m /\ deletedAt m' = Some now.
Proof.
  unfold delete, totalStored, countDocuments. rewrite !filter_true.
  destruct (findOwn db messageId (Auth._id u)) as [[i m] |] eqn:Hfound.
  - rewrite (findOwn_findOne _ _ _ _ _ Hfound). simpl.
    split; [by rewrite length_insert |].
    intros i' m' [= <- <-]. apply findOwn_Some in Hfound as (Hi & Hid & _).
    eexists. split.
    + apply list_lookup_insert_eq. by eapply lookup_lt_Some.
    + unfold saved. destruct (decide _) as [Heq | _]; simpl; [| done].
      rewrite <- Heq. done.
  - split; [| intros i m [=]].
    unfold findOwn in Hfound.
    destruct (findOne db messageId (Auth._id u)) as [[found |] |];
      [done | done | done].
Qed.

(** C5: a stored message whose soft-delete timestamp is set appears in no
    page of any room's history and contributes to no group of the room
    listing (the groups are those of the undeleted messages, and each count
    is the number of undeleted messages of its room), yet it is one of the
    stored documents: the stored total counts deleted and undeleted
    messages alike, and soft-deleting a message keeps that total and keeps
    the document in the collection, flagged. *)
Theorem soft_deleted_hidden_but_stored
  (db : list t) (m : t) (deleted : Z)
  (Hstored : m ∈ db) (Hdeleted : deletedAt m = Some deleted) :
  (forall r q, m ∉ historyMessages (history r q db))
  /\ aggregateRooms db = aggregateRooms (List.filter notDeleted db)
  /\ (forall g, g ∈ aggregateRooms db ->
        messageCount g = countDocuments (inHistory (r_id g)) db
        /\ 0 < messageCount g)
  /\ totalStored db
     = countDocuments notDeleted db
       + countDocuments (fun x => negb (notDeleted x)) db
  /\ 0 < countDocuments (fun x => negb (notDeleted x)) db
  /\ (forall now u messageId,
        totalStored (delete now u messageId db).1 = totalStored db
        /\ forall i m0,
             findOwn db messageId (Auth._id u) = Some (i, m0) ->
             exists m',
               (delete now u messageId db).1 !! i = Some m'
               /\ Js.castObjectId messageId = Some (_id m')
               /\ _id m' = _id m0 /\ deletedAt m' = Some now).
Proof.
  split; [| split; [| split; [| split; [| split]]]].
  - intros r q Hin. apply history_visible in Hin as (_ & _ & Hnone).
    congruence.
  - apply aggregateRooms_ignores_deleted.
  - intros g. apply aggregateRooms_counts.
  - apply totalStored_split.
  - apply (countDocuments_pos _ _ m Hstored).
    unfold notDeleted. rewrite bool_decide_eq_false_2; [done | congruence].
  - intros now u messageId. apply delete_keeps_document.
Qed.

Lemma soft_deleted_hidden_but_stored_witness :
  (forall r q,
      Samples.chatMessage Samples.m2 "u1" "alice" "global" 10 (Some 20)
      ∉ historyMessages (history r q Samples.chat))
  /\ totalStored Samples.chat = 3
  /\ countDocuments notDeleted Samples.chat = 2.
Proof.
  split; [| split; reflexivity].
  refine (proj1 (soft_deleted_hidden_but_stored Samples.chat
                   (Samples.chatMessage Samples.m2 "u1" "alice" "global" 10
                      (Some 20))
                   20 _ _)).
  - apply list_elem_of_further, list_elem_of_here.
  - reflexivity.
Defined.

End ChatStore.

(* ===================================================================== *)
(** * Properties of the relay *)
(* ===================================================================== *)

Section RelayRooms.
Import Relay.

(** What [join_vr_session] does for a connected user: the room exists
    afterwards with the user among its members, the connection points at
    it, and every other room record is left as it was. *)
Lemma join_vr_session_effects now socket sessionId st user :
  Js.oget (Socket.userId socket) (activeUsers st) = Some user ->
  let st' := (on_join_vr_session now socket sessionId st).1 in
  (exists session',
      vrSessions st' !! sessionId = Some session'
      /\ Socket.userId socket ∈ Room.users session'
      /\ (vrSessions st !! sessionId = None ->
          session' = {| Room.id := sessionId;
                        Room.users := [Socket.userId socket];
                        Room.createdAt := now;
                        Room.sharedObjects := [] |}))
  /\ Js.oget (Socket.userId socket) (activeUsers st')
     = Some (ActiveUser.set_currentRoom (Some sessionId) user)
  /\ forall r, r <> sessionId -> vrSessions st' !! r = vrSessions st !! r.
Proof.
  intros Huser. unfold on_join_vr_session. rewrite Huser. simpl.
  split; [| split].
  - eexists. split; [apply lookup_insert_eq |]. split.
    + simpl. unfold Js.sadd. destruct (decide _) as [Hin | _]; [done |].
      apply elem_of_app. right. apply list_elem_of_here.
    + intros Hnone. rewrite Hnone. simpl. unfold Js.sadd.
      destruct (decide _) as [Hin | _]; [by apply elem_of_nil in Hin | done].
  - apply oget_oset_eq.
  - intros r Hne. by apply lookup_insert_ne.
Qed.

(** C3, at the failing input: alice connects, joins room "A" and then room
    "B".  Her socket has left the Socket.IO room "A" and her connection
    points at "B", whose member set holds her; but she is still in the
    member set of room "A", and room "A" is still in the table. *)
Theorem join_keeps_user_in_prior_room :
  let st := (run Samples.twoJoins initial).1 in
  Room.users <$> vrSessions st !! "A"%string = Some ["u1"%string]
  /\ Room.users <$> vrSessions st !! "B"%string = Some ["u1"%string]
  /\ ActiveUser.currentRoom <$> Js.oget "u1"%string (activeUsers st)
     = Some (Some "B"%string)
  /\ bool_decide ("A"%string ∈ default ∅ (joined st !! "sockA"%string))
     = false
  /\ bool_decide ("B"%string ∈ default ∅ (joined st !! "sockA"%string))
     = true.
Proof. vm_compute. repeat split. Qed.

(** The sibling path: on [disconnect] the user does leave the member set
    of the room the connection points at. *)
Lemma disconnect_removes_member socket st user r session :
  roomOf socket st = Some (user, r, session) ->
  match vrSessions (on_disconnect socket st).1 !! r with
  | Some session' => Socket.userId socket ∉ Room.users session'
  | None => True
  end.
Proof.
  intros Hroom. unfold on_disconnect. rewrite Hroom.
  case_bool_decide; simpl.
  - by rewrite lookup_delete_eq.
  - rewrite lookup_insert_eq. simpl. unfold Js.sdelete.
    intros Hin. apply list_elem_of_filter in Hin as [Hne _]. done.
Qed.

End RelayRooms.

Section RelayObjects.
Import Relay.

Lemma roomOf_Some socket st user r session :
  roomOf socket st = Some (user, r, session) ->
  Js.oget (Socket.userId socket) (activeUsers st) = Some user
  /\ ActiveUser.currentRoom user = Some r
  /\ vrSessions st !! r = Some session.
Proof.
  unfold roomOf. destruct (Js.oget _ _) as [user0 |]; [| done].
  destruct (ActiveUser.currentRoom user0) as [r0 |] eqn:Hr; [| done].
  destruct (Js.truthy (Some r0)); [| done].
  destruct (vrSessions st !! r0) as [session0 |] eqn:Hs; [| done].
  by intros [= -> -> ->].
Qed.

(** A write to the room table does not move anybody. *)
Lemma roomOf_after_write socket st user r session r' session' :
  roomOf socket st = Some (user, r, session) ->
  roomOf socket (set_vrSessions (<[r' := session']> (vrSessions st)) st)
  = Some (user, r, default session (<[r' := session']> (vrSessions st) !! r)).
Proof.
  unfold roomOf. simpl. destruct (Js.oget _ _) as [user0 |]; [| done].
  destruct (ActiveUser.currentRoom user0) as [r0 |] eqn:Hr; [| done].
  destruct (negb _); [| done].
  destruct (vrSessions st !! r0) as [session0 |] eqn:Hs; [| done].
  intros [= -> -> ->].
  destruct (decide (r' = r)) as [-> | Hne].
  - by rewrite lookup_insert_eq.
  - rewrite lookup_insert_ne by done. by rewrite Hs.
Qed.




Lemma withField_lookup_ne k k' o (m : gmap string value) :
  k <> k' -> withField k o m !! k' = m !! k'.
Proof.
  intros Hne. unfold withField. destruct o; [| done].
  by apply lookup_insert_ne.
Qed.

Lemma buildObject_createdBy now objectId createdBy data :
  buildObject now objectId createdBy data !! "createdBy"%string
  = Some (VStr createdBy).
Proof.
  unfold buildObject.
  rewrite !withField_lookup_ne by done.
  rewrite lookup_insert_ne by done. apply lookup_insert_eq.
Qed.

(** One [create_shared_object] by a user in a room: the object is stored
    under its id and sent to the whole room. *)
Lemma create_shared_object_stores now uuid socket data st user r session :
  roomOf socket st = Some (user, r, session) ->
  let objectId := Js.or_else (od_id data) uuid in
  let object := buildObject now objectId (Socket.userId socket) data in
  on_create_shared_object now uuid socket data st
  = (set_vrSessions
       (<[r := Room.set_sharedObjects
                 (Js.oset objectId object (Room.sharedObjects session))
                 session]> (vrSessions st)) st,
     [(ToRoom r, shared_object_created object)]).
Proof. intros Hroom. unfold on_create_shared_object. by rewrite Hroom. Qed.

Lemma or_else_truthy i d : i <> EmptyString -> Js.or_else (Some i) d = i.
Proof.
  intros Hi. unfold Js.or_else.
  destruct (String.eqb_spec i EmptyString); [done | done].
Qed.

(** C9: two users of one room create an object under the same
    client-supplied id, one after the other.  The second create is not
    refused: it is broadcast to the room like any other, and the room's map
    then holds, under that id, the object built by the second create, whose
    creator is the second caller; the map has not grown, and its other
    entries are as the first create left them. *)
Theorem create_shared_object_twice_overwrites
  (st : state) (socket1 socket2 : Socket.t) (data1 data2 : ObjectData)
  (now1 now2 : Z) (uuid1 uuid2 i r : string) (user1 user2 : ActiveUser.t)
  (session : Room.t)
  (Hid1 : od_id data1 = Some i) (Hid2 : od_id data2 = Some i)
  (Hi : i <> EmptyString)
  (Hroom1 : roomOf socket1 st = Some (user1, r, session))
  (Hroom2 : roomOf socket2 st = Some (user2, r, session)) :
  let st1 := (on_create_shared_object now1 uuid1 socket1 data1 st).1 in
  let second := on_create_shared_object now2 uuid2 socket2 data2 st1 in
  let object1 := buildObject now1 i (Socket.userId socket1) data1 in
  let object2 := buildObject now2 i (Socket.userId socket2) data2 in
  second.2 = [(ToRoom r, shared_object_created object2)]
  /\ object2 !! "createdBy"%string = Some (VStr (Socket.userId socket2))
  /\ exists session1 session2,
       vrSessions st1 !! r = Some session1
       /\ vrSessions second.1 !! r = Some session2
       /\ Js.oget i (Room.sharedObjects session1) = Some object1
       /\ Js.oget i (Room.sharedObjects session2) = Some object2
       /\ length (Room.sharedObjects session2)
          = length (Room.sharedObjects session1)
       /\ forall j, j <> i ->
            Js.oget j (Room.sharedObjects session2)
            = Js.oget j (Room.sharedObjects session1).
Proof.
  intros st1 second object1 object2.
  pose proof (create_shared_object_stores now1 uuid1 socket1 data1 st user1 r
                session Hroom1) as Hfirst.
  rewrite Hid1, (or_else_truthy _ _ Hi) in Hfirst. simpl in Hfirst.
  assert (roomOf socket2 st1
          = Some (user2, r,
                  Room.set_sharedObjects
                    (Js.oset i object1 (Room.sharedObjects session)) session))
    as Hroom2'.
  { subst st1. rewrite Hfirst. simpl.
    rewrite (roomOf_after_write _ _ _ _ _ _ _ Hroom2).
    by rewrite lookup_insert_eq. }
  pose proof (create_shared_object_stores now2 uuid2 socket2 data2 st1 user2 r
                _ Hroom2') as Hsecond.
  rewrite Hid2, (or_else_truthy _ _ Hi) in Hsecond. simpl in Hsecond.
  subst second. rewrite Hsecond. simpl.
  split; [done |]. split; [apply buildObject_createdBy |].
  eexists _, _. split.
  { subst st1. rewrite Hfirst. simpl. apply lookup_insert_eq. }
  split; [apply lookup_insert_eq |]. simpl.
  split; [apply oget_oset_eq |].
  split; [apply oget_oset_eq |].
  split.
  - apply oset_length_present. rewrite oget_oset_eq. by eexists.
  - intros j Hne. by apply oget_oset_ne.
Qed.

Lemma create_shared_object_twice_overwrites_witness :
  (on_create_shared_object 11 "uuid2" Samples.socketB (Samples.box "sphere")
     (on_create_shared_object 10 "uuid1" Samples.socketA (Samples.box "box")
        (run Samples.bothInA initial).1).1).2
  = [(ToRoom "A",
      shared_object_created
        (buildObject 11 "box1" "u2" (Samples.box "sphere")))].
Proof.
  refine (proj1 (create_shared_object_twice_overwrites
                   (run Samples.bothInA initial).1
                   Samples.socketA Samples.socketB
                   (Samples.box "box") (Samples.box "sphere")
                   10 11 "uuid1" "uuid2" "box1" "A" _ _ _ _ _ _ _ _)).
  - reflexivity.
  - reflexivity.
  - discriminate.
  - vm_compute. reflexivity.
  - vm_compute. reflexivity.
Defined.

End RelayObjects.

Section RelayChat.
Import Relay.

Lemma keepLast100_lastN (l : list Msg.t) : keepLast100 l = lastN 100 l.
Proof.
  unfold keepLast100, lastN.
  destruct (Nat.ltb_spec 100 (length l)) as [Hlong | Hshort]; [done |].
  by replace (length l - 100)%nat with 0%nat by lia.
Qed.

Lemma lastN_length {A} n (l : list A) : (length (lastN n l) <= n)%nat.
Proof. unfold lastN. rewrite length_drop. lia. Qed.

Lemma lastN_snoc {A} n (l : list A) x :
  lastN n (lastN n l ++ [x]) = lastN n (l ++ [x]).
Proof.
  unfold lastN. rewrite !length_app, length_drop. simpl.
  destruct n as [| n].
  - rewrite !drop_ge; [done | rewrite length_app; simpl; lia
                       | rewrite length_app, length_drop; simpl; lia].
  - rewrite !drop_app_le by (rewrite ?length_drop; lia).
    rewrite drop_drop. f_equal. f_equal. lia.
Qed.

Lemma broadcastTo_app room out1 out2 :
  broadcastTo room (out1 ++ out2)
  = broadcastTo room out1 ++ broadcastTo room out2.
Proof. unfold broadcastTo. apply omap_app. Qed.

(** What one event does to the logs, and what it broadcasts as chat. *)
Lemma step_chat now socket i st :
  (chatRooms (step now socket i st).1 = chatRooms st
   /\ forall room, broadcastTo room (step now socket i st).2 = [])
  \/ exists m,
       chatRooms (step now socket i st).1
       = <[Msg.room m := keepLast100 (logOf st (Msg.room m) ++ [m])]>
           (chatRooms st)
       /\ forall room,
            broadcastTo room (step now socket i st).2
            = if String.eqb (Msg.room m) room then [m] else [].
Proof.
  destruct i; simpl.
  - left. done.
  - left. unfold on_join_vr_session. destruct (Js.oget _ _); done.
  - left. unfold on_vr_position_update. destruct (Js.oget _ _) as [u |];
      [| done].
    destruct (ActiveUser.currentRoom u); [| done].
    destruct (Js.truthy _); done.
  - left. unfold on_create_shared_object.
    destruct (roomOf _ _) as [[[u r] s] |]; done.
  - left. unfold on_update_shared_object.
    destruct (roomOf _ _) as [[[u r] s] |]; [| done].
    destruct (ud_id data) as [k |]; [| done].
    destruct (Js.oget k _); done.
  - unfold on_send_chat_message.
    destruct (Js.oget _ _) as [u |]; [| by left].
    right. exists (chatMessageOf now uuid socket u data). split; [done |].
    intros room. unfold broadcastTo. simpl.
    by destruct (String.eqb _ room).
  - left. done.
  - left. done.
  - left. done.
  - left. done.
  - left. unfold on_disconnect.
    destruct (roomOf _ _) as [[[u r] s] |]; [| done].
    case_bool_decide; simpl; [done |]. done.
Qed.

Lemma step_log now socket i st (h : string -> list Msg.t) :
  (forall room, logOf st room = lastN 100 (h room)) ->
  forall room,
    logOf (step now socket i st).1 room
    = lastN 100 (h room ++ broadcastTo room (step now socket i st).2).
Proof.
  intros Hinv room.
  destruct (step_chat now socket i st) as [[Hsame Hnone] | (m & Hlog & Hout)].
  - unfold logOf. rewrite Hsame, Hnone, app_nil_r. apply Hinv.
  - unfold logOf at 1. rewrite Hlog, Hout.
    destruct (String.eqb_spec (Msg.room m) room) as [<- | Hne].
    + rewrite lookup_insert_eq. simpl.
      rewrite keepLast100_lastN, Hinv. apply lastN_snoc.
    + rewrite lookup_insert_ne by done. rewrite app_nil_r. apply Hinv.
Qed.

Lemma run_log trace : forall st (h : string -> list Msg.t),
  (forall room, logOf st room = lastN 100 (h room)) ->
  forall room,
    logOf (run trace st).1 room
    = lastN 100 (h room ++ broadcastTo room (run trace st).2).
Proof.
  induction trace as [| [[now socket] i] trace IH]; intros st h Hinv room.
  - simpl. rewrite app_nil_r. apply Hinv.
  - simpl.
    pose proof (step_log now socket i st h Hinv) as Hstep.
    destruct (step now socket i st) as [st1 out1] eqn:Hs. simpl in Hstep.
    specialize (IH st1 (fun room => h room ++ broadcastTo room out1) Hstep
                  room).
    destruct (run trace st1) as [st2 out2]. simpl in *.
    rewrite broadcastTo_app, app_assoc. apply IH.
Qed.

(** C7: a [send_chat_message] from a registered user leaves the target
    room's log equal to the last 100 of the old log followed by the new
    message, hence with at most 100 entries; over any run of the relay from
    its initial state, every room's log is exactly the last 100 chat
    messages appended (and broadcast) for that room, in order of arrival;
    and no relay event writes to the durable chat store (or to the session
    store). *)
Theorem chat_log_is_last_100 :
  (forall now uuid socket data st user,
      Js.oget (Socket.userId socket) (activeUsers st) = Some user ->
      let m := chatMessageOf now uuid socket user data in
      let st' := (on_send_chat_message now uuid socket data st).1 in
      logOf st' (Msg.room m) = lastN 100 (logOf st (Msg.room m) ++ [m])
      /\ (length (logOf st' (Msg.room m)) <= 100)%nat)
  /\ (forall trace room,
        logOf (run trace initial).1 room
        = lastN 100 (broadcastTo room (run trace initial).2)
        /\ (length (logOf (run trace initial).1 room) <= 100)%nat)
  /\ (forall now socket i w,
        Server.chatDb (Server.act now (Server.SocketEvent socket i) w)
        = Server.chatDb w
        /\ Server.sessionDb (Server.act now (Server.SocketEvent socket i) w)
           = Server.sessionDb w).
Proof.
  split; [| split].
  - intros now uuid socket data st user Huser m st'.
    assert (logOf st' (Msg.room m)
            = lastN 100 (logOf st (Msg.room m) ++ [m])) as Hlog.
    { subst st' m. unfold on_send_chat_message. rewrite Huser. simpl.
      unfold logOf at 1. simpl. rewrite lookup_insert_eq. simpl.
      apply keepLast100_lastN. }
    split; [done |]. rewrite Hlog. apply lastN_length.
  - intros trace room.
    assert (logOf (run trace initial).1 room
            = lastN 100 (broadcastTo room (run trace initial).2)) as Hlog.
    { apply (run_log trace initial (fun _ => [])). intros r.
      unfold logOf, initial. simpl. by rewrite lookup_empty. }
    split; [done |]. rewrite Hlog. apply lastN_length.
  - intros now socket i w. done.
Qed.

Lemma chat_log_is_last_100_witness :
  logOf (run Samples.twoMessages initial).1 "global"
  = lastN 100 (broadcastTo "global" (run Samples.twoMessages initial).2)
  /\ map Msg.id (logOf (run Samples.twoMessages initial).1 "global")
     = ["id1"; "id2"]%string.
Proof.
  split.
  - exact (proj1 (proj1 (proj2 chat_log_is_last_100) Samples.twoMessages
                    "global"%string)).
  - vm_compute. reflexivity.
Defined.

End RelayChat.

(* ===================================================================== *)
(** * The model on the sample data *)
(* ===================================================================== *)

Section OnSamples.

(** The no-break space is white space: [trim] strips it, and an edit whose
    body is one no-break space passes the length validator, is trimmed to
    the empty string and fails in [save()]. *)
Example trim_no_break_space :
  Js.trim (Samples.nbsp ++ "hi" ++ Samples.nbsp) = "hi"%string.
Proof. reflexivity. Qed.

Example edit_to_blank_fails :
  ChatRoutes.edit 60000 Samples.alice Samples.m1 (Some Samples.nbsp)
    Samples.chat
  = (Samples.chat, ChatRoutes.serverError).
Proof. vm_compute. reflexivity. Qed.

(** A malformed message id is a CastError, answered 500. *)
Example delete_malformed_id :
  ChatRoutes.delete 50 Samples.alice "zzz" Samples.chat
  = (Samples.chat, ChatRoutes.serverError).
Proof. vm_compute. reflexivity. Qed.

(** An id is looked up whatever the case of its digits. *)
Example delete_upper_case_id :
  (ChatRoutes.delete 50 Samples.alice "65A1F0C2B3D4E5F6A7B8C9D1"
     Samples.chat).2
  = {| ChatRoutes.status := 200;
       ChatRoutes.json := ChatRoutes.Message "Message deleted successfully" |}.
Proof. vm_compute. reflexivity. Qed.

Example trim_both_ends : Js.trim "  hi there  " = "hi there"%string.
Proof. reflexivity. Qed.

Example canUserJoin_samples :
  VRSession.canUserJoin (Samples.session "S1" 2 ["u1"; "u2"]%string [] true)
    "u3" = false
  /\ VRSession.canUserJoin
       (Samples.session "S2" 20 ["u1"%string] ["u3"%string] true) "u3" = false
  /\ VRSession.canUserJoin
       (Samples.session "S3" 20 ["u1"%string] [] true) "u3" = true.
Proof. repeat split. Qed.

(** The scenario of a session of capacity 2: the host is its first member,
    a second user joins, a third is refused with the 403 reply. *)
Example capacity_two_scenario :
  let db := VRSessionRoutes.run Samples.threeArrive ∅ in
  (map VRSession.user <$> (VRSession.currentUsers <$> db !! "S9"%string))
  = Some ["u1"; "u2"]%string
  /\ VRSessionRoutes.join 2 (vx Samples.origin) (vx Samples.origin)
       Samples.carol "S9" Samples.noJoinBody db
     = (db, VRSessionRoutes.cannotJoin).
Proof. vm_compute. split; reflexivity. Qed.

(** The history of "global" shows m1 and not the soft-deleted m2; the room
    listing counts one message in each room, newest room first. *)
Example history_and_rooms_samples :
  map ChatMessage._id
    (ChatRoutes.historyMessages
       (ChatRoutes.history "global"
          {| ChatRoutes.h_page := None; ChatRoutes.h_limit := None |}
          Samples.chat))
  = [Samples.m1]
  /\ map (fun g => (ChatRoutes.r_id g, ChatRoutes.messageCount g))
       (ChatRoutes.aggregateRooms Samples.chat)
     = [("lobby"%string, 1); ("global"%string, 1)]
  /\ ChatRoutes.totalStored Samples.chat = 3.
Proof. vm_compute. repeat split. Qed.

(** After 101 messages the log holds the last 100: the first is gone. *)
Example log_drops_the_oldest :
  map Relay.Msg.id
    (Relay.logOf (Relay.run (Samples.manyMessages 101) Relay.initial).1
       "global")
  = map Samples.numbered (seq 2 100).
Proof. vm_compute. reflexivity. Qed.

(** A room is removed from the table when its last member disconnects. *)
Example room_removed_on_disconnect :
  Relay.vrSessions (Relay.run Samples.inAndOut Relay.initial).1
    !! "R1"%string = None.
Proof. vm_compute. reflexivity. Qed.

Example sortDesc_is_stable :
  Js.sortDesc fst [(1, "a"); (2, "b"); (1, "c"); (2, "d")]%string
  = [(2, "b"); (2, "d"); (1, "a"); (1, "c")]%string.
Proof. reflexivity. Qed.

End OnSamples.

(* ===================================================================== *)
(** * Further properties of the session store *)
(* ===================================================================== *)

Section SessionPreservation.
Import VRSession Auth VRSessionRoutes.

Variable P : t -> Prop.
Hypothesis P_stamp : forall now s, P s -> P (set_updatedAt now s).
Hypothesis P_new : forall now uuid u b, P (newSession now uuid u b).
Hypothesis P_code : forall code s, P s -> P (set_inviteCode (Some code) s).
Hypothesis P_join :
  forall now rx rz u b s,
    P s -> isActive s = true -> canUserJoin s (_id u) = true ->
    existsb (fun m => String.eqb (user m) (_id u)) (currentUsers s) = false ->
    P (set_currentUsers (currentUsers s ++ [joinMember now rx rz u b]) s).
Hypothesis P_leave :
  forall now uid s, P s -> isActive s = true -> P (afterLeave now uid s).
Hypothesis P_update :
  forall b s, P s -> isActive s = true -> P (applyUpdates b s).
Hypothesis P_end :
  forall now s, P s -> isActive s = true -> P (afterEnd now s).

Ltac kept_by_save :=
  let db' := fresh "db'" in
  let Hsave := fresh "Hsave" in
  destruct (save _ _ _ _ _) as [db' |] eqn:Hsave; [| done];
  simpl; apply save_cases in Hsave as [-> | ->]; [done |];
  apply map_Forall_insert_2; [| done]; apply P_stamp.

(** A property of single sessions that every write of the routes keeps is
    kept by every request. *)
Lemma handle_preserves now r db :
  map_Forall (fun _ => P) db -> map_Forall (fun _ => P) (handle now r db).1.
Proof.
  intros Hall.
  destruct r as [user q | uuid code user b | user sid | rx rz user sid b
                | user sid | user sid b | user sid | code user sid]; simpl.
  - done.
  - unfold create. destruct (validateCreate b); [| done].
    destruct (_ && _); [| done]. simpl.
    apply map_Forall_insert_2; [| done].
    destruct (_ || _); simpl; [apply P_code |]; apply P_new.
  - done.
  - unfold join. destruct (findActive db sid) as [s |] eqn:Hf; [| done].
    apply findActive_Some in Hf as [Hs Ha].
    destruct (canUserJoin s (_id user)) eqn:Hc; [| done]. simpl.
    destruct (_ && _); [done |].
    destruct (existsb _ _) eqn:Hex; [done |].
    kept_by_save. apply P_join; try done. by apply (Hall sid).
  - unfold leave. destruct (findActive db sid) as [s |] eqn:Hf; [| done].
    apply findActive_Some in Hf as [Hs Ha].
    kept_by_save. apply P_leave; [by apply (Hall sid) | done].
  - unfold update. destruct (validateUpdate b); [| done].
    destruct (findActiveHosted db sid (_id user)) as [s |] eqn:Hf; [| done].
    apply findActiveHosted_Some in Hf as [Hs Ha].
    destruct (negb (schemaValid _)); [done |].
    kept_by_save. apply P_update; [by apply (Hall sid) | done].
  - unfold endSession.
    destruct (findActiveHosted db sid (_id user)) as [s |] eqn:Hf; [| done].
    apply findActiveHosted_Some in Hf as [Hs Ha].
    kept_by_save. apply P_end; [by apply (Hall sid) | done].
  - unfold regenerateInviteCode.
    destruct (findActiveHosted db sid (_id user)) as [s |] eqn:Hf; [| done].
    apply findActiveHosted_Some in Hf as [Hs Ha]. simpl.
    kept_by_save. apply P_code. by apply (Hall sid).
Qed.

Lemma run_preserves trace : forall db,
  map_Forall (fun _ => P) db -> map_Forall (fun _ => P) (run trace db).
Proof.
  induction trace as [| [now r] trace IH]; intros db Hall; [done |].
  simpl. apply IH. by apply handle_preserves.
Qed.

End SessionPreservation.

Section SessionInvariants.
Import VRSession Auth VRSessionRoutes.

Lemma applyUpdates_keeps b s :
  sessionId (applyUpdates b s) = sessionId s
  /\ host (applyUpdates b s) = host s
  /\ environment (applyUpdates b s) = environment s
  /\ currentUsers (applyUpdates b s) = currentUsers s
  /\ sharedObjects (applyUpdates b s) = sharedObjects s
  /\ inviteCode (applyUpdates b s) = inviteCode s
  /\ invitedUsers (applyUpdates b s) = invitedUsers s
  /\ bannedUsers (applyUpdates b s) = bannedUsers s
  /\ isActive (applyUpdates b s) = isActive s
  /\ endedAt (applyUpdates b s) = endedAt s
  /\ duration (applyUpdates b s) = duration s
  /\ createdAt (applyUpdates b s) = createdAt s
  /\ updatedAt (applyUpdates b s) = updatedAt s.
Proof.
  unfold applyUpdates.
  destruct (u_name b), (u_description b), (u_maxUsers b), (u_settings b);
    simpl; repeat split; done.
Qed.

Lemma existsb_member uid (l : list Member) :
  existsb (fun m => String.eqb (user m) uid) l = false <->
  uid ∉ map user l.
Proof.
  induction l as [| m l IH]; simpl.
  - split; [intros _; apply not_elem_of_nil | done].
  - rewrite orb_false_iff, IH, not_elem_of_cons.
    destruct (String.eqb_spec (user m) uid) as [Heq | Hne]; split;
      intros [? ?]; try done; split; try done; congruence.
Qed.

Lemma afterLeave_members now uid s :
  currentUsers (afterLeave now uid s)
  = filter (fun m => user m <> uid) (currentUsers s).
Proof. unfold afterLeave. simpl. by case_bool_decide. Qed.

Lemma afterLeave_keeps now uid s :
  filter (fun m => user m <> uid) (currentUsers s) <> [] ->
  afterLeave now uid s
  = set_currentUsers (filter (fun m => user m <> uid) (currentUsers s)) s.
Proof.
  intros Hrest. unfold afterLeave. simpl.
  rewrite bool_decide_eq_false_2; [done |].
  by destruct (filter _ _).
Qed.

Lemma canUserJoin_not_banned s uid :
  canUserJoin s uid = true -> ~ isBanned s uid.
Proof.
  unfold canUserJoin. destruct (existsb _ _) eqn:Hban; [done |].
  intros _ Hb. apply existsb_banned in Hb. congruence.
Qed.

Lemma canUserJoin_room s uid :
  canUserJoin s uid = true ->
  Z.of_nat (length (currentUsers s)) < maxUsers s.
Proof.
  unfold canUserJoin. destruct (existsb _ _); [done |].
  destruct (Z.geb_spec (Z.of_nat (length (currentUsers s))) (maxUsers s));
    [done | lia].
Qed.

Lemma canUserJoin_invited s uid :
  canUserJoin s uid = true ->
  requireInvite (settings s) = true -> uid ∈ invitedUsers s.
Proof.
  unfold canUserJoin. destruct (existsb _ _); [done |].
  destruct (_ >=? _); [done |]. intros Hc Hreq. rewrite Hreq in Hc.
  simpl in Hc. by case_bool_decide.
Qed.

(** X1: member lists never hold a user twice: when no stored session lists
    a user twice, none does after any sequence of route requests. *)
Theorem session_members_stay_distinct
  (trace : list (Z * request)) (db : gmap string t)
  (Hdb : map_Forall (fun _ => Inv.membersDistinct) db) :
  map_Forall (fun _ => Inv.membersDistinct) (run trace db).
Proof.
  revert Hdb. apply run_preserves; unfold Inv.membersDistinct, Inv.memberIds.
  - done.
  - intros. simpl. apply NoDup_singleton.
  - done.
  - intros now rx rz u b s Hnd _ _ Hex. simpl.
    rewrite map_app. simpl. apply NoDup_app. split; [done |]. split.
    + intros x Hx Hx'. apply list_elem_of_singleton in Hx'. subst x.
      by apply existsb_member in Hex.
    + apply NoDup_singleton.
  - intros now uid s Hnd _. rewrite afterLeave_members.
    apply (sublist_NoDup _ (map user (currentUsers s))); [exact Hnd |].
    apply (fmap_sublist user). apply sublist_filter.
  - intros b s Hnd _.
    destruct (applyUpdates_keeps b s) as (_ & _ & _ & -> & _). done.
  - done.
Qed.

Lemma session_members_stay_distinct_witness :
  map_Forall (fun _ => Inv.membersDistinct) (run Samples.threeArrive ∅).
Proof.
  apply (session_members_stay_distinct Samples.threeArrive ∅).
  apply map_Forall_empty.
Defined.

(** X2: an active session always has a member: when every stored active
    session has one, so does every active session after any sequence of
    route requests; the leave of the last member ends the session. *)
Theorem active_sessions_have_members
  (trace : list (Z * request)) (db : gmap string t)
  (Hdb : map_Forall (fun _ => Inv.activeHasMembers) db) :
  map_Forall (fun _ => Inv.activeHasMembers) (run trace db).
Proof.
  revert Hdb. apply run_preserves; unfold Inv.activeHasMembers.
  - done.
  - done.
  - done.
  - intros now rx rz u b s _ _ _ _ _. simpl. by destruct (currentUsers s).
  - intros now uid s _ _. unfold afterLeave. simpl.
    case_bool_decide as Hempty; simpl; [done |].
    intros _ Hnil. by rewrite Hnil in Hempty.
  - intros b s Hs _.
    destruct (applyUpdates_keeps b s)
      as (_ & _ & _ & -> & _ & _ & _ & _ & -> & _). done.
  - done.
Qed.

Lemma active_sessions_have_members_witness :
  map_Forall (fun _ => Inv.activeHasMembers) (run Samples.threeArrive ∅).
Proof.
  apply (active_sessions_have_members Samples.threeArrive ∅).
  apply map_Forall_empty.
Defined.

(** X3: an ended session carries its end time and the duration computed
    from it: when this holds of the stored sessions, it holds after any
    sequence of route requests. *)
Theorem ended_sessions_are_stamped
  (trace : list (Z * request)) (db : gmap string t)
  (Hdb : map_Forall (fun _ => Inv.endedIsStamped) db) :
  map_Forall (fun _ => Inv.endedIsStamped) (run trace db).
Proof.
  revert Hdb. apply run_preserves; unfold Inv.endedIsStamped.
  - done.
  - done.
  - done.
  - intros now rx rz u b s _ Ha _ _. simpl. congruence.
  - intros now uid s _ Ha. unfold afterLeave. simpl.
    case_bool_decide; simpl; [| congruence]. intros _. by eexists.
  - intros b s _ Ha.
    destruct (applyUpdates_keeps b s)
      as (_ & _ & _ & _ & _ & _ & _ & _ & -> & _). congruence.
  - intros now s _ _ _. simpl. by eexists.
Qed.

Lemma ended_sessions_are_stamped_witness :
  exists s9 s8,
    run Samples.comeAndGo ∅ !! "S9"%string = Some s9
    /\ isActive s9 = false
    /\ endedAt s9 = Some 5000 /\ duration s9 = Some 5
    /\ run Samples.comeAndGo ∅ !! "S8"%string = Some s8
    /\ isActive s8 = false
    /\ endedAt s8 = Some 9500 /\ duration s8 = Some 3.
Proof.
  pose proof (ended_sessions_are_stamped Samples.comeAndGo ∅
                (map_Forall_empty _)) as Hall.
  assert (exists s9,
             run Samples.comeAndGo (∅ : gmap string t) !! "S9"%string
             = Some s9 /\ isActive s9 = false
             /\ endedAt s9 = Some 5000 /\ createdAt s9 = 0)
    as (s9 & H9 & Hended9 & Hat9 & Hfrom9).
  { eexists. split; [vm_compute; reflexivity | done]. }
  assert (exists s8,
             run Samples.comeAndGo (∅ : gmap string t) !! "S8"%string
             = Some s8 /\ isActive s8 = false
             /\ endedAt s8 = Some 9500 /\ createdAt s8 = 6000)
    as (s8 & H8 & Hended8 & Hat8 & Hfrom8).
  { eexists. split; [vm_compute; reflexivity | done]. }
  destruct (Hall "S9"%string s9 H9 Hended9) as (e9 & He9 & Hd9).
  destruct (Hall "S8"%string s8 H8 Hended8) as (e8 & He8 & Hd8).
  assert (e9 = 5000) as -> by congruence.
  assert (e8 = 9500) as -> by congruence.
  rewrite Hfrom9 in Hd9. rewrite Hfrom8 in Hd8.
  exists s9, s8. repeat split; assumption.
Defined.

(** X4: a user on a session's ban list who is not a member never becomes
    one: when no stored session has a banned member, none has after any
    sequence of route requests. *)
Theorem banned_users_stay_out
  (trace : list (Z * request)) (db : gmap string t)
  (Hdb : map_Forall
           (fun _ s => forall uid, isBanned s uid -> uid ∉ Inv.memberIds s)
           db) :
  map_Forall (fun _ s => forall uid, isBanned s uid -> uid ∉ Inv.memberIds s)
    (run trace db).
Proof.
  revert Hdb.
  apply (run_preserves
           (fun s => forall uid, isBanned s uid -> uid ∉ Inv.memberIds s));
    unfold Inv.memberIds, isBanned.
  - done.
  - intros now uuid u b uid (x & Hx & _). simpl in Hx.
    by apply elem_of_nil in Hx.
  - done.
  - intros now rx rz u b s Hout _ Hc Hex uid Hban. simpl in *.
    rewrite map_app. simpl. intros Hin. apply elem_of_app in Hin as [Hin | Hin].
    + by apply (Hout uid).
    + apply list_elem_of_singleton in Hin. subst uid.
      by apply (canUserJoin_not_banned _ _ Hc).
  - intros now uid s Hout _ uid' Hban. rewrite afterLeave_members.
    assert (exists b0, b0 ∈ bannedUsers s /\ bannedUser b0 = uid') as Hban'.
    { unfold afterLeave in Hban. simpl in Hban.
      by case_bool_decide; simpl in Hban. }
    intros Hin. apply (Hout uid' Hban').
    apply (elem_of_sublist _ _ _ Hin).
    apply (fmap_sublist user). apply sublist_filter.
  - intros b s Hout _ uid.
    destruct (applyUpdates_keeps b s)
      as (_ & _ & _ & -> & _ & _ & _ & -> & _). apply Hout.
  - done.
Qed.

Lemma banned_users_stay_out_witness :
  map_Forall (fun _ s => forall uid, isBanned s uid -> uid ∉ Inv.memberIds s)
    (run [(7, ReqJoin Samples.origin.(vx) Samples.origin.(vx) Samples.carol
                "S2" Samples.noJoinBody)]
       (<["S2"%string := Samples.session "S2" 20 ["u1"%string]
                           ["u3"%string] true]> ∅)).
Proof.
  apply banned_users_stay_out.
  apply map_Forall_insert_2; [| apply map_Forall_empty].
  intros uid (b0 & Hb0 & Hid). simpl in Hb0.
  apply list_elem_of_singleton in Hb0. subst b0. simpl in Hid. subst uid.
  unfold Inv.memberIds. simpl. intros Hin.
  apply list_elem_of_singleton in Hin. discriminate.
Defined.

End SessionInvariants.

Section SessionRoutesMore.
Import VRSession Auth VRSessionRoutes.

Lemma filter_keeps_all {A} (Q : A -> Prop) `{forall x, Decision (Q x)}
    (l : list A) :
  Forall Q l -> filter Q l = l.
Proof.
  induction 1 as [| x l Hx Hl IH]; [done |].
  rewrite filter_cons_True by done. by rewrite IH.
Qed.

Lemma save_modified now sid old new db :
  new <> old -> inviteCode new = inviteCode old ->
  save now sid old new db = Some (<[sid := set_updatedAt now new]> db).
Proof.
  intros Hne Hcode. unfold save. rewrite decide_False by done.
  by rewrite bool_decide_eq_true_2.
Qed.

Lemma join_appends now rx rz u sid b db s :
  db !! sid = Some s -> isActive s = true ->
  canUserJoin s (_id u) = true ->
  (requireInvite (settings s) = true -> inviteCode s = j_inviteCode b) ->
  _id u ∉ Inv.memberIds s ->
  (join now rx rz u sid b db).1
  = <[sid := set_updatedAt now
               (set_currentUsers
                  (currentUsers s ++ [joinMember now rx rz u b]) s)]> db
  /\ status (join now rx rz u sid b db).2 = 200.
Proof.
  intros Hs Ha Hc Hcode Hnew. unfold join, findActive. rewrite Hs, Ha, Hc.
  simpl.
  assert (requireInvite (settings s)
          && negb (bool_decide (inviteCode s = j_inviteCode b)) = false)
    as ->.
  { destruct (requireInvite (settings s)); [| done]. simpl.
    by rewrite bool_decide_eq_true_2 by auto. }
  apply existsb_member in Hnew. rewrite Hnew.
  rewrite save_modified; [done | | done].
  intros Heq. apply (f_equal (fun x => length (currentUsers x))) in Heq.
  simpl in Heq. rewrite length_app in Heq. simpl in Heq. lia.
Qed.

Lemma join_ok_inv now rx rz u sid b db s :
  db !! sid = Some s ->
  status (join now rx rz u sid b db).2 = 200 ->
  isActive s = true
  /\ canUserJoin s (_id u) = true
  /\ (requireInvite (settings s) = true -> inviteCode s = j_inviteCode b)
  /\ _id u ∉ Inv.memberIds s.
Proof.
  intros Hs. unfold join, findActive. rewrite Hs.
  destruct (isActive s); [| done].
  destruct (canUserJoin s (_id u)); [| done]. simpl.
  destruct (requireInvite (settings s)); simpl.
  - case_bool_decide as Hcode; simpl; [| done].
    destruct (existsb _ _) eqn:Hex; [done |]. intros _.
    repeat split; try done. by apply existsb_member.
  - destruct (existsb _ _) eqn:Hex; [done |]. intros _.
    repeat split; try done. by apply existsb_member.
Qed.



(** X6: a successful join adds the caller as the last member and nothing
    else: the stored session is the old one with the caller's entry (the
    caller's id, the time of the join, the position and avatar of the
    request or their defaults) appended to [currentUsers] and with
    [updatedAt] refreshed, so the entries of the earlier members and every
    other field are as before; the member count stays within [maxUsers];
    the other sessions are untouched. *)
Theorem join_adds_one_member
  (db : gmap string t) (sid : string) (s : t) (u : User) (b : JoinBody)
  (now : Z) (rx rz : Q) (Hs : db !! sid = Some s)
  (Hok : status (join now rx rz u sid b db).2 = 200) :
  exists s',
    (join now rx rz u sid b db).1 = <[sid := s']> db
    /\ s' = set_updatedAt now
              (set_currentUsers
                 (currentUsers s ++ [joinMember now rx rz u b]) s)
    /\ currentUsers s' = currentUsers s ++ [joinMember now rx rz u b]
    /\ user (joinMember now rx rz u b) = _id u
    /\ joinedAt (joinMember now rx rz u b) = now
    /\ Inv.memberIds s' = Inv.memberIds s ++ [_id u]
    /\ Z.of_nat (length (currentUsers s')) <= maxUsers s'
    /\ forall k, k <> sid -> (join now rx rz u sid b db).1 !! k = db !! k.
Proof.
  apply (join_ok_inv _ _ _ _ _ _ _ _ Hs) in Hok
    as (Ha & Hc & Hcode & Hnew).
  destruct (join_appends now rx rz u sid b db s Hs Ha Hc Hcode Hnew)
    as [Hdb _].
  eexists. split; [exact Hdb |]. rewrite Hdb.
  do 4 (split; [done |]). split; [| split].
  - unfold Inv.memberIds. simpl. by rewrite map_app.
  - simpl. rewrite length_app. simpl.
    pose proof (canUserJoin_room _ _ Hc). lia.
  - intros k Hk. by rewrite lookup_insert_ne.
Qed.

Lemma join_adds_one_member_witness :
  exists s',
    (join 5 Samples.origin.(vx) Samples.origin.(vx) Samples.carol "S3"
       Samples.noJoinBody Samples.sessions).1
    = <["S3"%string := s']> Samples.sessions
    /\ currentUsers s'
       = [Samples.member "u1";
          joinMember 5 Samples.origin.(vx) Samples.origin.(vx)
            Samples.carol Samples.noJoinBody]
    /\ Inv.memberIds s' = ["u1"; "u3"]%string.
Proof.
  destruct (join_adds_one_member Samples.sessions "S3"
              (Samples.session "S3" 20 ["u1"%string] [] true)
              Samples.carol Samples.noJoinBody 5 Samples.origin.(vx)
              Samples.origin.(vx) eq_refl eq_refl)
    as (s' & Hdb & _ & Hmembers & _ & _ & Hids & _).
  exists s'. split; [exact Hdb |]. split; [exact Hmembers | exact Hids].
Defined.

(** X7: joining and then leaving gives the session back: when a user who
    joined successfully leaves a session that had members before, the
    stored record is the original one with a fresh [updatedAt]. *)
Theorem join_then_leave_restores
  (db : gmap string t) (sid : string) (s : t) (u : User) (b : JoinBody)
  (now1 now2 : Z) (rx rz : Q) (Hs : db !! sid = Some s)
  (Hmembers : currentUsers s <> [])
  (Hok : status (join now1 rx rz u sid b db).2 = 200) :
  (leave now2 u sid (join now1 rx rz u sid b db).1).1
  = <[sid := set_updatedAt now2 s]> db.
Proof.
  apply (join_ok_inv _ _ _ _ _ _ _ _ Hs) in Hok
    as (Ha & Hc & Hcode & Hnew).
  destruct (join_appends now1 rx rz u sid b db s Hs Ha Hc Hcode Hnew)
    as [-> _].
  unfold leave, findActive. rewrite lookup_insert_eq. simpl. rewrite Ha.
  assert (filter (fun m => user m <> _id u)
            (currentUsers s ++ [joinMember now1 rx rz u b])
          = currentUsers s) as Hfilter.
  { rewrite filter_app. simpl.
    rewrite (filter_cons_False (fun m => user m <> _id u)); [| simpl; tauto].
    rewrite filter_nil, app_nil_r. apply filter_keeps_all.
    apply Forall_forall. intros m Hm Heq. apply Hnew.
    unfold Inv.memberIds. apply list_elem_of_fmap. by exists m. }
  rewrite afterLeave_keeps; simpl; rewrite Hfilter; [| done].
  rewrite save_modified.
  - simpl. rewrite insert_insert_eq. by destruct s.
  - intros Heq. apply (f_equal (fun x => length (currentUsers x))) in Heq.
    simpl in Heq. rewrite length_app in Heq. simpl in Heq. lia.
  - done.
Qed.

Lemma join_then_leave_restores_witness :
  (leave 9 Samples.carol "S3"
     (join 5 Samples.origin.(vx) Samples.origin.(vx) Samples.carol "S3"
        Samples.noJoinBody Samples.sessions).1).1
  = <["S3"%string :=
        set_updatedAt 9 (Samples.session "S3" 20 ["u1"%string] [] true)]>
      Samples.sessions.
Proof.
  apply (join_then_leave_restores Samples.sessions "S3"
           (Samples.session "S3" 20 ["u1"%string] [] true)).
  - reflexivity.
  - discriminate.
  - reflexivity.
Defined.

End SessionRoutesMore.

Section SessionVisibility.
Import VRSession Auth VRSessionRoutes.

(** X8: what fetch-by-id shows: only an active session, a private one only
    to its host, and an invite code only to the host. *)
Theorem fetch_shows_codes_to_host_only
  (user : option User) (sid : string) (db : gmap string t) (s' : t)
  (Hshown : json (fetch user sid db) = Session s') :
  exists s,
    db !! sid = Some s
    /\ isActive s = true
    /\ (isPrivate (settings s) = true -> isHost user s = true)
    /\ (isHost user s = true -> s' = s)
    /\ (isHost user s = false -> s' = set_inviteCode None s).
Proof.
  unfold fetch in Hshown.
  destruct (findActive db sid) as [s |] eqn:Hf; [| done].
  apply findActive_Some in Hf as [Hs Ha]. exists s.
  destruct (isPrivate (settings s)) eqn:Hp, (isHost user s) eqn:Hh;
    simpl in Hshown; try done; injection Hshown as <-; done.
Qed.

Lemma fetch_shows_codes_to_host_only_witness :
  exists s,
    Samples.sessions !! "S3"%string = Some s
    /\ isActive s = true
    /\ (isHost (Some Samples.bob) s = false ->
        set_inviteCode None (Samples.session "S3" 20 ["u1"%string] [] true)
        = set_inviteCode None s).
Proof.
  destruct (fetch_shows_codes_to_host_only (Some Samples.bob) "S3"
              Samples.sessions
              (set_inviteCode None
                 (Samples.session "S3" 20 ["u1"%string] [] true))
              eq_refl)
    as (s & Hs & Ha & _ & _ & Hhidden).
  exists s. repeat split; assumption.
Defined.

(** X9: what the listing shows: stored active sessions with their invite
    codes removed, public ones only to an anonymous caller, and no more of
    them than the limit asks for. *)
Theorem list_shows_active_without_codes
  (user : option User) (q : ListQuery) (db : gmap string t) (s' : t)
  (Hlisted : s' ∈ Inv.listedSessions (listSessions user q db)) :
  inviteCode s' = None
  /\ isActive s' = true
  /\ (user = None -> isPrivate (settings s') = false)
  /\ (exists k s, db !! k = Some s /\ s' = set_inviteCode None s)
  /\ (0 < default 20 (q_limit q) ->
      Z.of_nat (length (Inv.listedSessions (listSessions user q db)))
      <= default 20 (q_limit q)).
Proof.
  unfold listSessions, Inv.listedSessions in *.
  destruct (Js.window _ _ _) as [w |] eqn:Hw; simpl in *;
    [| by apply elem_of_nil in Hlisted].
  apply list_elem_of_fmap in Hlisted as (s & -> & Hs).
  apply (elem_of_window _ _ _ _ _ Hw) in Hs.
  rewrite sortDesc_Permutation in Hs.
  apply list_elem_of_In, filter_In in Hs as [Hin Hmatch].
  apply list_elem_of_In, list_elem_of_fmap in Hin as ([k s0] & -> & Hk).
  apply elem_of_map_to_list in Hk. simpl in *.
  unfold matchesList in Hmatch.
  apply andb_prop in Hmatch as [Hmatch Hpriv].
  apply andb_prop in Hmatch as [Ha _].
  split; [done |]. split; [done |]. split; [| split].
  - intros ->. by apply negb_true_iff in Hpriv.
  - by exists k, s0.
  - intros Hlim. rewrite length_map.
    unfold Js.window in Hw. destruct (_ <? 0); [done |].
    injection Hw as <-.
    destruct (Z.eqb_spec (default 20 (q_limit q)) 0); [lia |].
    rewrite length_take. lia.
Qed.

Lemma list_shows_active_without_codes_witness :
  inviteCode (set_inviteCode None
                (Samples.session "S3" 20 ["u1"%string] [] true)) = None
  /\ isActive (set_inviteCode None
                 (Samples.session "S3" 20 ["u1"%string] [] true)) = true.
Proof.
  destruct (list_shows_active_without_codes None
              {| q_page := None; q_limit := None; q_environment := None;
                 q_isPrivate := None |}
              (<["S3"%string :=
                   Samples.session "S3" 20 ["u1"%string] [] true]> ∅)
              (set_inviteCode None
                 (Samples.session "S3" 20 ["u1"%string] [] true)))
    as (Hcode & Ha & _).
  - vm_compute. apply list_elem_of_here.
  - split; assumption.
Defined.

(** X10: an update is the host's alone and touches the whitelisted fields
    only: whoever asks and whatever the body holds, the stored session keeps
    its id, host, environment, members, shared objects, invite code,
    invitations, bans, its activity, end stamps and creation time; and a
    caller who is not the host changes nothing at all. *)
Theorem update_touches_whitelist_only
  (db : gmap string t) (sid : string) (s : t) (u : User) (b : UpdateBody)
  (now : Z) (Hs : db !! sid = Some s) :
  (exists s',
      (update now u sid b db).1 !! sid = Some s'
      /\ sessionId s' = sessionId s /\ host s' = host s
      /\ environment s' = environment s
      /\ currentUsers s' = currentUsers s
      /\ sharedObjects s' = sharedObjects s
      /\ inviteCode s' = inviteCode s
      /\ invitedUsers s' = invitedUsers s /\ bannedUsers s' = bannedUsers s
      /\ isActive s' = isActive s /\ endedAt s' = endedAt s
      /\ duration s' = duration s /\ createdAt s' = createdAt s)
  /\ (forall k, k <> sid -> (update now u sid b db).1 !! k = db !! k)
  /\ (host s <> _id u ->
      (update now u sid b db).1 = db
      /\ status (update now u sid b db).2 <> 200).
Proof.
  split; [| split].
  - unfold update. destruct (validateUpdate b); [| by exists s].
    destruct (findActiveHosted db sid (_id u)) as [s0 |] eqn:Hf;
      [| by exists s].
    apply findActiveHosted_Some in Hf as [Hs0 Ha].
    assert (s0 = s) as -> by congruence.
    destruct (negb (schemaValid _)); [by exists s |].
    destruct (save _ _ _ _ _) as [db' |] eqn:Hsave; [| by exists s]. simpl.
    apply save_cases in Hsave as [-> | ->]; [by exists s |].
    eexists. split; [apply lookup_insert_eq |]. simpl.
    destruct (applyUpdates_keeps b s)
      as (-> & -> & -> & -> & -> & -> & -> & -> & -> & -> & -> & -> & _).
    done.
  - intros k Hk. unfold update. destruct (validateUpdate b); [| done].
    destruct (findActiveHosted db sid (_id u)) as [s0 |]; [| done].
    destruct (negb (schemaValid _)); [done |].
    destruct (save _ _ _ _ _) as [db' |] eqn:Hsave; [| done]. simpl.
    apply save_cases in Hsave as [-> | ->]; [done |].
    by rewrite lookup_insert_ne.
  - intros Hhost. unfold update. destruct (validateUpdate b); [| done].
    unfold findActiveHosted, findActive. rewrite Hs.
    destruct (isActive s); [| done].
    destruct (String.eqb_spec (host s) (_id u)); done.
Qed.

Lemma update_touches_whitelist_only_witness :
  (update 9 Samples.bob "S3"
     {| u_name := Some "Renamed"%string; u_description := None;
        u_maxUsers := Some 5; u_settings := None |}
     Samples.sessions).1 = Samples.sessions.
Proof.
  refine (proj1 (proj2 (proj2 (update_touches_whitelist_only Samples.sessions
                                 "S3"
                                 (Samples.session "S3" 20 ["u1"%string] []
                                    true)
                                 Samples.bob _ 9 eq_refl)) _)).
  discriminate.
Defined.

(** X11: ending a session is the host's alone: the host's request turns an
    active session inactive, stamps the end and the duration in whole
    seconds and keeps the member list as it was; anybody else's request is
    answered 404 and changes nothing. *)
Theorem end_session_is_hosts
  (db : gmap string t) (sid : string) (s : t) (u : User) (now : Z)
  (Hs : db !! sid = Some s) (Hactive : isActive s = true) :
  (host s = _id u ->
   exists s',
     endSession now u sid db
     = (<[sid := s']> db,
        {| status := 200; json := Message "VR session ended successfully" |})
     /\ isActive s' = false /\ endedAt s' = Some now
     /\ duration s' = Some ((now - createdAt s) / 1000)
     /\ currentUsers s' = currentUsers s
     /\ inviteCode s' = inviteCode s)
  /\ (host s <> _id u ->
      endSession now u sid db = (db, notFoundOrUnauthorized)).
Proof.
  unfold endSession, findActiveHosted, findActive. rewrite Hs, Hactive.
  split; intros Hhost.
  - rewrite Hhost, String.eqb_refl.
    rewrite save_modified; [by eexists | | done].
    intros Heq. apply (f_equal isActive) in Heq. simpl in Heq. congruence.
  - by destruct (String.eqb_spec (host s) (_id u)).
Qed.

Lemma end_session_is_hosts_witness :
  endSession 9 Samples.bob "S3" Samples.sessions
  = (Samples.sessions, notFoundOrUnauthorized).
Proof.
  refine (proj2 (end_session_is_hosts Samples.sessions "S3"
                   (Samples.session "S3" 20 ["u1"%string] [] true)
                   Samples.bob 9 eq_refl eq_refl) _).
  discriminate.
Defined.

Lemma castBoolean_or_false_true o :
  Js.castBoolean (Js.or_false o) = Some true -> Js.truthyValue o = true.
Proof.
  unfold Js.or_false. destruct o as [v |]; [| done].
  by destruct (Js.truthyValue (Some v)).
Qed.

(** X12: a creation answered 201 stores one new session under the drawn
    id, which was free, with the creator as host and only member, active
    and created now; its [isPrivate] and [requireInvite] flags are the
    Boolean casts of the body's values.  It carries the drawn invite code
    exactly when one of the two values is truthy as received.  So a private
    or invite-only session always carries a code; and so does a public one
    whose body gave ['false'] or ['0'] as a string, which the validator
    accepts, the test takes for true and the cast stores as [false].  The
    sessions already stored are untouched, and a creation that is not
    answered 201 stores nothing. *)
Theorem create_registers_host
  (db : gmap string t) (uuid code : string) (u : User) (b : CreateBody)
  (now : Z) :
  (status (create now uuid code u b db).2 = 201 ->
   db !! uuid = None
   /\ exists s,
        (create now uuid code u b db).1 = <[uuid := s]> db
        /\ host s = _id u /\ Inv.memberIds s = [_id u]
        /\ isActive s = true /\ createdAt s = now
        /\ Js.castBoolean (Js.or_false (i_isPrivate (c_settings b)))
           = Some (isPrivate (settings s))
        /\ Js.castBoolean (Js.or_false (i_requireInvite (c_settings b)))
           = Some (requireInvite (settings s))
        /\ inviteCode s
           = (if Js.truthyValue (i_requireInvite (c_settings b))
                 || Js.truthyValue (i_isPrivate (c_settings b))
              then Some code else None)
        /\ (isPrivate (settings s) || requireInvite (settings s) = true ->
            inviteCode s = Some code)
        /\ (forall text,
              text = "false"%string \/ text = "0"%string ->
              i_isPrivate (c_settings b) = Some (Js.JStr text) ->
              isPrivate (settings s) = false
              /\ inviteCode s = Some code))
  /\ (status (create now uuid code u b db).2 <> 201 ->
      (create now uuid code u b db).1 = db).
Proof.
  unfold create. destruct (validateCreate b); [| done].
  destruct (_ && _) eqn:Hok; [| done]. simpl. split; [| done]. intros _.
  apply andb_prop in Hok as [Hok _]. apply andb_prop in Hok as [Hok Hfresh].
  apply andb_prop in Hok as [Hcast _].
  apply bool_decide_eq_true in Hfresh. split; [done |].
  unfold settingsCast in Hcast. apply andb_prop in Hcast as [Hp Hr].
  apply bool_decide_eq_true in Hp as [p Hp].
  apply bool_decide_eq_true in Hr as [r Hr].
  eexists. split; [reflexivity |].
  assert (p || r = true ->
          Js.truthyValue (i_requireInvite (c_settings b))
          || Js.truthyValue (i_isPrivate (c_settings b)) = true) as Htruthy.
  { intros Hpr. apply orb_true_iff. apply orb_prop in Hpr as [-> | ->].
    - right. by apply castBoolean_or_false_true.
    - left. by apply castBoolean_or_false_true. }
  destruct (Js.truthyValue (i_requireInvite (c_settings b))
            || Js.truthyValue (i_isPrivate (c_settings b))) eqn:Hgen;
    simpl; rewrite Hp, Hr; simpl.
  - do 7 (split; [done |]). split; [done |].
    intros text Htext Hraw. rewrite Hraw in Hp. split; [| done].
    by destruct Htext as [-> | ->]; injection Hp as <-.
  - do 7 (split; [done |]). split.
    + intros Hpr. by specialize (Htruthy Hpr).
    + intros text Htext Hraw. rewrite Hraw in Hgen.
      apply orb_false_iff in Hgen as [_ Hgen].
      by destruct Htext as [-> | ->].
Qed.

Lemma create_registers_host_witness :
  exists s,
    (create 0 "S9" "ABC123" Samples.alice Samples.privateAsText ∅).1
    = <["S9"%string := s]> ∅
    /\ host s = "u1"%string /\ Inv.memberIds s = ["u1"%string]
    /\ isPrivate (settings s) = false
    /\ inviteCode s = Some "ABC123"%string.
Proof.
  assert (status (create 0 "S9" "ABC123" Samples.alice Samples.privateAsText
                    (∅ : gmap string t)).2 = 201) as Hok
    by (vm_compute; reflexivity).
  destruct (proj1 (create_registers_host _ _ _ _ _ _) Hok)
    as (_ & s & Hdb & Hhost & Hids & _ & _ & _ & _ & _ & _ & Htext).
  destruct (Htext "false"%string (or_introl eq_refl) eq_refl)
    as [Hpublic Hcode].
  exists s. repeat split; assumption.
Defined.

End SessionVisibility.

Section InviteCodes.
Import VRSession Auth VRSessionRoutes.

(** X14: the host's new invite code replaces the old one, unless another
    session holds it, in which case the request fails and nothing is
    written; once replaced, a join of an invite-only session that carries
    any other code (the previous one included) does not succeed. *)
Theorem regenerate_replaces_code
  (db : gmap string t) (sid : string) (s : t) (u : User) (code : string)
  (now : Z)
  (Hs : db !! sid = Some s) (Hactive : isActive s = true)
  (Hhost : host s = _id u) :
  (inviteCodeTaken db sid (Some code) = false ->
   status (regenerateInviteCode now code u sid db).2 = 200
   /\ json (regenerateInviteCode now code u sid db).2
      = InviteCode "New invite code generated" code
   /\ (exists s',
         (regenerateInviteCode now code u sid db).1 !! sid = Some s'
         /\ inviteCode s' = Some code
         /\ currentUsers s' = currentUsers s
         /\ isActive s' = true
         /\ settings s' = settings s)
   /\ (requireInvite (settings s) = true ->
       forall now' rx rz u' b,
         j_inviteCode b <> Some code ->
         status (join now' rx rz u' sid b
                   (regenerateInviteCode now code u sid db).1).2 <> 200))
  /\ (inviteCodeTaken db sid (Some code) = true ->
      inviteCode s <> Some code ->
      regenerateInviteCode now code u sid db = (db, serverError)).
Proof.
  assert (findActiveHosted db sid (_id u) = Some s) as Hf.
  { unfold findActiveHosted, findActive.
    by rewrite Hs, Hactive, Hhost, String.eqb_refl. }
  split.
  - intros Hfree.
    assert (exists s',
              regenerateInviteCode now code u sid db
              = (<[sid := s']> db,
                 {| status := 200;
                    json := InviteCode "New invite code generated" code |})
              /\ inviteCode s' = Some code
              /\ currentUsers s' = currentUsers s
              /\ isActive s' = true
              /\ settings s' = settings s) as (s' & Hrun & Hrest).
    { unfold regenerateInviteCode. rewrite Hf. simpl. unfold save.
      destruct (decide (set_inviteCode (Some code) s = s)) as [Heq | Hne].
      - exists s. rewrite (insert_id db sid s Hs). split; [done |].
        rewrite <- Heq at 1. done.
      - change (inviteCode (set_inviteCode (Some code) s)) with (Some code).
        rewrite Hfree, andb_false_r. eexists. split; [done |]. done. }
    rewrite Hrun. simpl. split; [done |]. split; [done |].
    split; [exists s'; by rewrite lookup_insert_eq |].
    intros Hreq now' rx rz u' b Hcode Hok.
    apply (join_ok_inv _ _ _ _ _ _ _ s') in Hok;
      [| by rewrite lookup_insert_eq].
    destruct Hok as (_ & _ & Hmatch & _).
    destruct Hrest as (Hc & _ & _ & Hset). rewrite Hset, Hc in Hmatch.
    by specialize (Hmatch Hreq).
  - intros Htaken Hold. unfold regenerateInviteCode. rewrite Hf. simpl.
    unfold save. rewrite decide_False.
    + change (inviteCode (set_inviteCode (Some code) s)) with (Some code).
      rewrite bool_decide_eq_false_2; [by rewrite Htaken | congruence].
    + intros Heq. apply (f_equal inviteCode) in Heq. simpl in Heq. congruence.
Qed.

Lemma regenerate_replaces_code_witness :
  status (regenerateInviteCode 9 "NEWCOD" Samples.alice "S3"
            Samples.sessions).2 = 200.
Proof.
  refine (proj1 (proj1 (regenerate_replaces_code Samples.sessions "S3"
                          (Samples.session "S3" 20 ["u1"%string] [] true)
                          Samples.alice "NEWCOD" 9 eq_refl eq_refl eq_refl)
                   _)).
  vm_compute. reflexivity.
Defined.

End InviteCodes.

(* ===================================================================== *)
(** * Further properties of the chat store *)
(* ===================================================================== *)

Section SortFacts.
Context {A : Type} (key : A -> Z).

Lemma insertDesc_sorted (a : A) (l : list A) :
  StronglySorted (fun x y => key y <= key x) l ->
  StronglySorted (fun x y => key y <= key x) (Js.insertDesc key a l).
Proof.
  induction 1 as [| b l Hl IH Hb]; simpl.
  - by repeat constructor.
  - destruct (Z.leb_spec (key b) (key a)) as [Hle | Hgt].
    + constructor; [by constructor |]. constructor; [done |].
      eapply Forall_impl; [exact Hb |]. simpl. intros y Hy. lia.
    + constructor; [done |].
      rewrite insertDesc_Permutation. constructor; [lia | done].
Qed.

Lemma sortDesc_sorted (l : list A) :
  StronglySorted (fun x y => key y <= key x) (Js.sortDesc key l).
Proof.
  induction l as [| a l IH]; simpl; [constructor |].
  by apply insertDesc_sorted.
Qed.

Lemma window_sorted (R : A -> A -> Prop) lim skip (l w : list A) :
  Js.window lim skip l = Some w -> StronglySorted R l -> StronglySorted R w.
Proof.
  unfold Js.window. destruct (skip <? 0); [done |]. intros [= <-] Hl.
  assert (StronglySorted R (drop (Z.to_nat skip) l)) as Hd.
  { rewrite <- (take_drop (Z.to_nat skip) l) in Hl.
    by apply StronglySorted_app_1_r in Hl. }
  destruct (lim =? 0); [done |].
  rewrite <- (take_drop (Z.to_nat (Z.abs lim)) (drop _ l)) in Hd.
  by apply StronglySorted_app_1_l in Hd.
Qed.

Lemma rev_sorted (R : A -> A -> Prop) (l : list A) :
  StronglySorted R l -> StronglySorted (fun x y => R y x) (rev l).
Proof.
  induction 1 as [| a l Hl IH Ha]; simpl; [constructor |].
  apply StronglySorted_app_2; [| done | by repeat constructor].
  intros x y Hx Hy. apply list_elem_of_singleton in Hy. subst y.
  apply list_elem_of_In, in_rev, list_elem_of_In in Hx.
  by apply (proj1 (Forall_forall _ _) Ha).
Qed.

Lemma window_length lim skip (l w : list A) :
  Js.window lim skip l = Some w -> lim <> 0 ->
  Z.of_nat (length w) <= Z.abs lim.
Proof.
  unfold Js.window. destruct (skip <? 0); [done |]. intros [= <-] Hlim.
  destruct (Z.eqb_spec lim 0); [done |]. rewrite length_take. lia.
Qed.

End SortFacts.

Section ChatMore.
Import ChatMessage ChatRoutes.

(** X15: a page of history is in chronological order, holds no more
    messages than the limit asks for, and reports as total the number of
    undeleted messages of the room. *)
Theorem history_page_is_chronological
  (r : string) (q : HistoryQuery) (db : list t) :
  StronglySorted (fun x y => createdAt x <= createdAt y)
    (historyMessages (history r q db))
  /\ (0 < default 50 (h_limit q) ->
      Z.of_nat (length (historyMessages (history r q db)))
      <= default 50 (h_limit q))
  /\ (forall ms p tp total more,
        json (history r q db) = History ms p tp total more ->
        total = countDocuments (inHistory r) db
        /\ more = ((default 1 (h_page q) - 1) * default 50 (h_limit q)
                   + Z.of_nat (length ms) <? total)).
Proof.
  unfold history, historyMessages.
  destruct (Js.window _ _ _) as [w |] eqn:Hw; simpl.
  - split; [| split].
    + apply (rev_sorted (fun x y => createdAt y <= createdAt x)).
      apply (window_sorted _ _ _ _ _ Hw). apply sortDesc_sorted.
    + intros Hlim. rewrite length_rev.
      pose proof (window_length _ _ _ _ Hw) as Hlen. lia.
    + intros ms p tp total more [= <- <- <- <- <-]. by rewrite length_rev.
  - split; [constructor |]. split; [simpl; lia | done].
Qed.

Lemma history_page_is_chronological_witness :
  Z.of_nat (length (historyMessages
                      (history "global"
                         {| h_page := None; h_limit := Some 2 |}
                         Samples.chat))) <= 2.
Proof.
  refine (proj1 (proj2 (history_page_is_chronological "global"
                          {| h_page := None; h_limit := Some 2 |}
                          Samples.chat)) _).
  reflexivity.
Defined.

Lemma send_cases now newId u b db :
  send now newId u b db
  = (db ++ [newMessage now newId u b],
     {| status := 201;
        json := Sent "Message sent successfully" (newMessage now newId u b) |})
  \/ (send now newId u b db).1 = db /\ status (send now newId u b db).2 <> 201.
Proof.
  unfold send. destruct (validateSend b); [| by right].
  destruct (_ && _); [by left | by right].
Qed.

(** X16: a send that is answered 201 appends one undeleted message of the
    caller to the room named in the body ("global" when none is), so that
    the room's visible count grows by one and no other room's changes; any
    other send leaves the collection as it was. *)
Theorem send_adds_one_visible
  (db : list t) (u : Auth.User) (b : SendBody) (newId : string) (now : Z) :
  (status (send now newId u b db).2 = 201 ->
   exists m,
     (send now newId u b db).1 = db ++ [m]
     /\ _id m = newId /\ user m = Auth._id u
     /\ room m = default "global"%string (s_room b)
     /\ deletedAt m = None /\ editedAt m = None /\ createdAt m = now
     /\ (forall r,
           countDocuments (inHistory r) (db ++ [m])
           = countDocuments (inHistory r) db
             + (if String.eqb (room m) r then 1 else 0))
     /\ forall x, x ∈ db -> _id x <> newId)
  /\ (status (send now newId u b db).2 <> 201 ->
      (send now newId u b db).1 = db).
Proof.
  split.
  - intros Hok. exists (newMessage now newId u b).
    assert ((send now newId u b db).1 = db ++ [newMessage now newId u b]
            /\ existsb (fun m => String.eqb (_id m) newId) db = false)
      as [Hdb Hfresh].
    { revert Hok. unfold send. destruct (validateSend b); [| done].
      destruct (schemaValid _); simpl; [| done].
      destruct (existsb _ _); simpl; done. }
    split; [done |]. repeat split.
    + intros r. unfold countDocuments. rewrite List.filter_app, length_app.
      simpl. unfold inHistory at 2. simpl.
      destruct (String.eqb _ r); simpl; lia.
    + intros x Hx Hid.
      assert (existsb (fun m => String.eqb (_id m) newId) db = true)
        as Hex; [| congruence].
      apply existsb_exists. exists x. split; [by apply list_elem_of_In |].
      by apply String.eqb_eq.
  - destruct (send_cases now newId u b db) as [-> | [Hdb _]]; done.
Qed.

Lemma send_adds_one_visible_witness :
  exists m,
    (send 40 Samples.m4 Samples.carol
       {| s_message := Some "hi all"%string; s_room := None;
          s_messageType := None; s_metadata := None |}
       Samples.chat).1 = Samples.chat ++ [m]
    /\ room m = "global"%string /\ user m = "u3"%string.
Proof.
  destruct (proj1 (send_adds_one_visible Samples.chat Samples.carol
                     {| s_message := Some "hi all"%string; s_room := None;
                        s_messageType := None; s_metadata := None |}
                     Samples.m4 40) eq_refl)
    as (m & Hdb & _ & Huser & Hroom & _).
  exists m. repeat split; assumption.
Defined.

(** Edits and deletions rewrite one document in place and keep who wrote
    it, where and when. *)
Lemma handle_chat_cases now r db :
  (handle now r db).1 = db
  \/ (exists m, (handle now r db).1 = db ++ [m]
                /\ forall x, x ∈ db -> _id x <> _id m)
  \/ exists i m m',
       db !! i = Some m /\ (handle now r db).1 = <[i := m']> db
       /\ _id m' = _id m /\ user m' = user m /\ room m' = room m
       /\ createdAt m' = createdAt m /\ username m' = username m.
Proof.
  destruct r as [room q | newId user b | user messageId msg
                | user messageId |]; simpl.
  - by left.
  - unfold send. destruct (validateSend b); [| by left].
    destruct (schemaValid _); simpl; [| by left].
    destruct (existsb _ _) eqn:Hex; simpl; [by left |].
    right. left. eexists. split; [done |]. simpl. intros x Hx Hid.
    assert (existsb (fun m => String.eqb (_id m) newId) db = true)
      as Hex'; [| congruence].
    apply existsb_exists. exists x. split; [by apply list_elem_of_In |].
    by apply String.eqb_eq.
  - unfold edit. destruct (validateEdit msg); [| by left].
    destruct (findOne db messageId (Auth._id user)) as [[[i m] |] |] eqn:Hf;
      [| by left | by left].
    apply findOne_found, findOwn_Some in Hf as (Hi & _).
    destruct (_ <? _); [by left |]. destruct (negb _); [by left |].
    right. right. eexists i, m, _. split; [done |]. split; [done |].
    destruct (saved_cases now m
                (set_editedAt (Some now)
                   (set_message (Js.trim (default EmptyString msg)) m)))
      as [-> | ->]; done.
  - unfold delete.
    destruct (findOne db messageId (Auth._id user)) as [[[i m] |] |] eqn:Hf;
      [| by left | by left].
    apply findOne_found, findOwn_Some in Hf as (Hi & _).
    right. right. eexists i, m, _. split; [done |]. split; [done |].
    destruct (saved_cases now m (set_deletedAt (Some now) m)) as [-> | ->];
      done.
  - by left.
Qed.

Lemma insert_same_ids (db : list t) i m m' :
  db !! i = Some m -> _id m' = _id m ->
  map _id (<[i := m']> db) = map _id db.
Proof.
  intros Hi Hid. rewrite <- (list_insert_id (map _id db) i (_id m)).
  - rewrite <- Hid. apply list_fmap_insert.
  - by rewrite list_lookup_fmap, Hi.
Qed.

(** X17: message ids stay distinct, and no request removes a document or
    changes the id, author, room or creation time of one. *)
Theorem chat_documents_persist
  (now : Z) (r : request) (db : list t) (Hids : Inv.idsDistinct db) :
  Inv.idsDistinct (handle now r db).1
  /\ (length db <= length (handle now r db).1)%nat
  /\ forall i m,
       db !! i = Some m ->
       exists m',
         (handle now r db).1 !! i = Some m'
         /\ _id m' = _id m /\ user m' = user m /\ room m' = room m
         /\ createdAt m' = createdAt m.
Proof.
  unfold Inv.idsDistinct in *.
  destruct (handle_chat_cases now r db)
    as [-> | [(m & -> & Hfresh) | (i & m & m' & Hi & -> & Hid & Hrest)]].
  - split; [done |]. split; [done |]. intros i m Hi. by exists m.
  - split; [| split].
    + rewrite map_app. simpl. apply NoDup_app. split; [done |].
      split; [| apply NoDup_singleton].
      intros x Hx Hx'. apply list_elem_of_singleton in Hx'. subst x.
      apply list_elem_of_fmap in Hx as (y & Hy & Hin).
      by apply (Hfresh y Hin).
    + rewrite length_app. lia.
    + intros i x Hi. exists x. split; [by apply lookup_app_l_Some | done].
  - split; [| split].
    + by rewrite (insert_same_ids db i m m').
    + by rewrite length_insert.
    + intros j x Hj. destruct (decide (j = i)) as [-> | Hne].
      * exists m'. assert (x = m) as -> by congruence.
        split; [| by destruct Hrest as (? & ? & ? & ?)].
        apply list_lookup_insert_eq. by eapply lookup_lt_Some.
      * exists x. by rewrite list_lookup_insert_ne.
Qed.

Lemma chat_documents_persist_witness :
  Inv.idsDistinct
    (handle 50 (ReqDelete Samples.alice Samples.m1) Samples.chat).1.
Proof.
  refine (proj1 (chat_documents_persist 50
                   (ReqDelete Samples.alice Samples.m1) Samples.chat _)).
  unfold Inv.idsDistinct. simpl. compute_done.
Defined.

End ChatMore.

Section ChatAuthorship.
Import ChatMessage ChatRoutes.

Lemma distinct_ids_same_index (db : list t) i j m x :
  Inv.idsDistinct db -> db !! i = Some m -> db !! j = Some x ->
  _id x = _id m -> j = i.
Proof.
  intros Hnd Hi Hj Hid.
  apply (NoDup_lookup (map _id db) j i (_id m) Hnd).
  - by rewrite list_lookup_fmap, Hj, <- Hid.
  - by rewrite list_lookup_fmap, Hi.
Qed.

Lemma findOwn_None db messageId uid :
  (forall m, m ∈ db -> Js.castObjectId messageId = Some (_id m) ->
             user m = uid -> deletedAt m <> None) ->
  findOwn db messageId uid = None.
Proof.
  intros Hnone. unfold findOwn. rewrite (findOne_None _ _ _ Hnone).
  by destruct (Js.castObjectId messageId).
Qed.

(** X18: only the author reaches a message: when no undeleted message
    with the id the request names belongs to the caller, a delete and an
    edit write nothing and are not answered 200; the delete is answered 404
    when the string of the request is an ObjectId, and 500 (the CastError
    of the query, caught) when it is none. *)
Theorem only_the_author_edits_or_deletes
  (db : list t) (u : Auth.User) (messageId : string)
  (Hother : forall m, m ∈ db -> Js.castObjectId messageId = Some (_id m) ->
                      user m = Auth._id u -> deletedAt m <> None) :
  (forall now,
      delete now u messageId db
      = (db, match Js.castObjectId messageId with
             | Some _ => notFoundOrUnauthorized
             | None => serverError
             end))
  /\ (forall now msg,
        (edit now u messageId msg db).1 = db
        /\ status (edit now u messageId msg db).2 <> 200).
Proof.
  pose proof (findOne_None db messageId (Auth._id u) Hother) as Hnone.
  split.
  - intros now. unfold delete. rewrite Hnone.
    by destruct (Js.castObjectId messageId).
  - intros now msg. unfold edit. destruct (validateEdit msg); [| done].
    rewrite Hnone. by destruct (Js.castObjectId messageId).
Qed.

Lemma only_the_author_edits_or_deletes_witness :
  delete 50 Samples.bob Samples.m1 Samples.chat
  = (Samples.chat, notFoundOrUnauthorized)
  /\ delete 50 Samples.alice "zzz" Samples.chat
     = (Samples.chat, serverError).
Proof.
  split.
  - refine (proj1 (only_the_author_edits_or_deletes Samples.chat Samples.bob
                     Samples.m1 _) 50).
    intros m Hm Hid Huser. unfold Samples.chat in Hm.
    rewrite !elem_of_cons, elem_of_nil in Hm.
    destruct Hm as [-> | [-> | [-> | []]]]; discriminate.
  - refine (proj1 (only_the_author_edits_or_deletes Samples.chat
                     Samples.alice "zzz" _) 50).
    intros m Hm Hid. discriminate Hid.
Defined.

(** X19: a soft deletion is final: once a message has been deleted, and
    ids being distinct, nobody finds it again, so every later delete is
    answered 404 and every later edit is refused, without a write. *)
Theorem deleted_message_is_out_of_reach
  (db : list t) (u : Auth.User) (messageId : string) (now : Z)
  (i : nat) (m : t)
  (Hids : Inv.idsDistinct db)
  (Hfound : findOwn db messageId (Auth._id u) = Some (i, m)) :
  let db' := (delete now u messageId db).1 in
  status (delete now u messageId db).2 = 200
  /\ (forall uid, findOwn db' messageId uid = None)
  /\ (forall now' u', delete now' u' messageId db'
                      = (db', notFoundOrUnauthorized))
  /\ (forall now' u' msg,
        (edit now' u' messageId msg db').1 = db'
        /\ status (edit now' u' messageId msg db').2 <> 200).
Proof.
  intros db'.
  assert (db' = <[i := set_updatedAt now (set_deletedAt (Some now) m)]> db
          /\ status (delete now u messageId db).2 = 200) as [Hdb' Hok].
  { subst db'. unfold delete. rewrite (findOwn_findOne _ _ _ _ _ Hfound).
    simpl. split; [| done].
    unfold saved. rewrite decide_False; [done |].
    apply findOwn_Some in Hfound as (_ & _ & _ & Hdel).
    intros Heq. apply (f_equal deletedAt) in Heq. simpl in Heq. congruence. }
  pose proof Hfound as Hfound'.
  apply findOwn_Some in Hfound' as (Hi & Hid & _ & _).
  assert (forall uid, findOwn db' messageId uid = None) as Hgone.
  { intros uid. apply findOwn_None. intros x Hx Hxid _.
    rewrite Hdb' in Hx. apply list_elem_of_lookup in Hx as [j Hj].
    apply list_lookup_insert_Some in Hj as [(<- & <- & _) | (Hne & Hj)].
    - done.
    - exfalso. apply Hne. symmetry.
      apply (distinct_ids_same_index db i j m x); congruence. }
  assert (forall uid, findOne db' messageId uid = Some None) as Hnone.
  { intros uid. specialize (Hgone uid). unfold findOwn in Hgone.
    unfold findOne in *. rewrite Hid in *. by rewrite Hgone. }
  split; [done |]. split; [done |]. split.
  - intros now' u'. unfold delete. by rewrite Hnone.
  - intros now' u' msg. unfold edit. destruct (validateEdit msg); [| done].
    by rewrite Hnone.
Qed.

Lemma deleted_message_is_out_of_reach_witness :
  delete 60 Samples.alice Samples.m1
    (delete 50 Samples.alice Samples.m1 Samples.chat).1
  = ((delete 50 Samples.alice Samples.m1 Samples.chat).1,
     notFoundOrUnauthorized).
Proof.
  refine (proj1 (proj2 (proj2 (deleted_message_is_out_of_reach Samples.chat
                                 Samples.alice Samples.m1 50 0%nat
                                 (Samples.chatMessage Samples.m1 "u1" "alice"
                                    "global" 0 None) _ eq_refl)))
            60 Samples.alice).
  unfold Inv.idsDistinct. simpl. compute_done.
Defined.

(** The groups of the aggregation, message after message. *)
Lemma groupByRoom_snoc ms m :
  groupByRoom (ms ++ [m]) = addToGroup (groupByRoom ms) m.
Proof. unfold groupByRoom. by rewrite foldl_app. Qed.

Lemma groupByRoom_summary ms :
  NoDup (groupByRoom ms).*1
  /\ forall k,
       match Js.oget k (groupByRoom ms) with
       | Some g =>
           r_id g = k
           /\ (exists m,
                 last (List.filter (inRoom k) ms) = Some m
                 /\ lastMessageText g = message m
                 /\ lastUsername g = username m)
           /\ (forall m, m ∈ ms -> inRoom k m = true ->
                         createdAt m <= lastMessage g)
           /\ (exists m, m ∈ ms /\ inRoom k m = true
                         /\ createdAt m = lastMessage g)
       | None => List.filter (inRoom k) ms = []
       end.
Proof.
  induction ms as [| m ms [Hnd IH]] using rev_ind.
  - split; [apply NoDup_nil_2 | done].
  - rewrite groupByRoom_snoc. split; [by apply addToGroup_NoDup |].
    intros k. specialize (IH k). rewrite List.filter_app. simpl.
    destruct (String.eqb_spec (room m) k) as [<- | Hne].
    + assert (inRoom (room m) m = true) as -> by apply String.eqb_refl.
      unfold addToGroup.
      destruct (Js.oget (room m) (groupByRoom ms)) as [g |] eqn:Hg;
        rewrite oget_oset_eq; simpl.
      * destruct IH as (_ & _ & Hmax & (m0 & Hm0 & Hin0 & Hc0)).
        split; [done |]. split; [exists m; by rewrite last_snoc |]. split.
        -- intros x Hx Hroom. apply elem_of_app in Hx as [Hx | Hx].
           ++ specialize (Hmax x Hx Hroom). lia.
           ++ apply list_elem_of_singleton in Hx. subst x. lia.
        -- destruct (Z.max_spec (lastMessage g) (createdAt m))
             as [[_ ->] | [_ ->]].
           ++ exists m. split; [| split; [apply String.eqb_refl | done]].
              apply elem_of_app. right. apply list_elem_of_here.
           ++ exists m0. split; [| by split]. apply elem_of_app. by left.
      * split; [done |]. split; [exists m; by rewrite last_snoc |]. split.
        -- intros x Hx Hroom. apply elem_of_app in Hx as [Hx | Hx].
           ++ exfalso.
              assert (In x (List.filter (inRoom (room m)) ms)) as Hin.
              { apply filter_In. split; [by apply list_elem_of_In | done]. }
              by rewrite IH in Hin.
           ++ apply list_elem_of_singleton in Hx. subst x. lia.
        -- exists m. split; [| split; [apply String.eqb_refl | done]].
           apply elem_of_app. right. apply list_elem_of_here.
    + assert (inRoom k m = false) as -> by by apply String.eqb_neq.
      rewrite addToGroup_other by congruence. rewrite app_nil_r.
      destruct (Js.oget k (groupByRoom ms)) as [g |]; [| done].
      destruct IH as (Hid & Hlast & Hmax & (m0 & Hin0 & Hrest)).
      split; [done |]. split; [done |]. split.
      * intros x Hx Hroom. apply elem_of_app in Hx as [Hx | Hx];
          [by apply Hmax |].
        apply list_elem_of_singleton in Hx. subst x.
        unfold inRoom in Hroom. apply String.eqb_eq in Hroom. done.
      * exists m0. split; [| exact Hrest]. apply elem_of_app. by left.
Qed.

Lemma aggregateRooms_groups db g :
  g ∈ aggregateRooms db ->
  Js.oget (r_id g) (groupByRoom (List.filter notDeleted db)) = Some g.
Proof.
  unfold aggregateRooms. intros Hg.
  apply (subseteq_take 20) in Hg. rewrite sortDesc_Permutation in Hg.
  unfold Js.ovalues in Hg. apply list_elem_of_In, in_map_iff in Hg.
  destruct Hg as ([k g'] & Heq & Hin). simpl in Heq. subst g'.
  apply list_elem_of_In in Hin.
  destruct (groupByRoom_summary (List.filter notDeleted db)) as [Hnd Hall].
  apply (oget_elem_of _ _ _ Hnd) in Hin.
  specialize (Hall k). rewrite Hin in Hall.
  destruct Hall as (<- & _). done.
Qed.

(** X20: each room of the listing is summarised by its undeleted messages:
    the preview and the author name are taken from one and the same
    undeleted message of the room, and [lastMessage] is the latest creation
    time among the room's undeleted messages. *)
Theorem rooms_listing_summarises_visible
  (db : list t) (g : RoomSummary) (Hg : g ∈ aggregateRooms db) :
  (exists m,
      m ∈ db /\ inHistory (r_id g) m = true
      /\ lastMessageText g = message m
      /\ lastUsername g = username m)
  /\ (forall m, m ∈ db -> inHistory (r_id g) m = true ->
                createdAt m <= lastMessage g)
  /\ (exists m, m ∈ db /\ inHistory (r_id g) m = true
                /\ createdAt m = lastMessage g).
Proof.
  apply aggregateRooms_groups in Hg.
  destruct (groupByRoom_summary (List.filter notDeleted db)) as [_ Hall].
  specialize (Hall (r_id g)). rewrite Hg in Hall.
  destruct Hall as (_ & (m & Hlast & Htext & Hname) & Hmax
                    & (m0 & Hin0 & Hroom0 & Hc0)).
  rewrite filter_filter_bool in Hlast.
  assert (forall x, x ∈ List.filter notDeleted db <->
                    x ∈ db /\ notDeleted x = true) as Hfilter.
  { intros x. rewrite !list_elem_of_In. apply filter_In. }
  split; [| split].
  - exists m. apply last_Some in Hlast as [l' Hl'].
    assert (In m (List.filter (fun x => inRoom (r_id g) x && notDeleted x)
                    db)) as Hm.
    { rewrite Hl'. apply in_or_app. right. by left. }
    apply filter_In in Hm as [Hm Hvis].
    split; [by apply list_elem_of_In |]. done.
  - intros x Hx Hvis. unfold inHistory in Hvis.
    apply andb_prop in Hvis as [Hroom Hnd].
    apply Hmax; [by apply Hfilter | done].
  - apply Hfilter in Hin0 as [Hin0 Hnd0]. exists m0.
    split; [done |]. split; [| done]. unfold inHistory.
    unfold inRoom in Hroom0. by rewrite Hroom0, Hnd0.
Qed.

Lemma rooms_listing_summarises_visible_witness :
  exists m,
    m ∈ Samples.chat /\ inHistory "global" m = true
    /\ "hello"%string = message m.
Proof.
  destruct (proj1 (rooms_listing_summarises_visible Samples.chat
                     {| r_id := "global"; lastMessage := 0;
                        messageCount := 1; lastMessageText := "hello";
                        lastUsername := "alice" |}
                     ltac:(vm_compute;
                           apply list_elem_of_further, list_elem_of_here)))
    as (m & Hin & Hvis & Htext & _).
  exists m. repeat split; assumption.
Defined.

(** X21: the room listing holds at most 20 rooms, no room twice, the most
    recently active first. *)
Theorem rooms_listing_shape (db : list t) :
  (length (aggregateRooms db) <= 20)%nat
  /\ NoDup (map r_id (aggregateRooms db))
  /\ StronglySorted (fun x y => lastMessage y <= lastMessage x)
       (aggregateRooms db).
Proof.
  split; [| split].
  - unfold aggregateRooms. rewrite length_take. lia.
  - destruct (groupByRoom_summary (List.filter notDeleted db)) as [Hnd Hall].
    apply (sublist_NoDup _
             (map r_id (Js.sortDesc lastMessage
                          (Js.ovalues (groupByRoom
                                         (List.filter notDeleted db)))))).
    + rewrite sortDesc_Permutation.
      assert (map r_id (Js.ovalues (groupByRoom (List.filter notDeleted db)))
              = (groupByRoom (List.filter notDeleted db)).*1) as ->; [| done].
      unfold Js.ovalues. rewrite map_map. apply map_ext_in.
      intros [k g] Hin. simpl. apply list_elem_of_In in Hin.
      apply (oget_elem_of _ _ _ Hnd) in Hin.
      specialize (Hall k). rewrite Hin in Hall. by destruct Hall.
    + unfold aggregateRooms. apply (fmap_sublist r_id). apply sublist_take.
  - unfold aggregateRooms.
    pose proof (sortDesc_sorted lastMessage
                  (Js.ovalues (groupByRoom (List.filter notDeleted db))))
      as Hsorted.
    rewrite <- (take_drop 20 (Js.sortDesc _ _)) in Hsorted.
    by apply StronglySorted_app_1_l in Hsorted.
Qed.

End ChatAuthorship.

(* ===================================================================== *)
(** * Further properties of the relay *)
(* ===================================================================== *)

Section SetFacts.
Context {A : Type} `{EqDecision A}.

Lemma elem_of_sadd (x y : A) (s : list A) :
  y ∈ Js.sadd x s <-> y = x \/ y ∈ s.
Proof.
  unfold Js.sadd. destruct (decide (x ∈ s)) as [Hin | Hnin].
  - split; [by right | intros [-> | ?]; done].
  - rewrite elem_of_app, list_elem_of_singleton. tauto.
Qed.

Lemma sadd_NoDup (x : A) (s : list A) : NoDup s -> NoDup (Js.sadd x s).
Proof.
  intros Hnd. unfold Js.sadd. destruct (decide (x ∈ s)); [done |].
  apply NoDup_app. repeat split; [done | | apply NoDup_singleton].
  intros y Hy Hy'. apply list_elem_of_singleton in Hy'. by subst.
Qed.

Lemma sadd_nonempty (x : A) (s : list A) : Js.sadd x s <> [].
Proof.
  intros Hnil.
  assert (x ∈ Js.sadd x s) as Hx by (apply elem_of_sadd; by left).
  rewrite Hnil in Hx. by apply elem_of_nil in Hx.
Qed.

Lemma elem_of_sdelete (x y : A) (s : list A) :
  y ∈ Js.sdelete x s <-> y <> x /\ y ∈ s.
Proof. exact (list_elem_of_filter (fun z => z <> x) s y). Qed.

Lemma sdelete_NoDup (x : A) (s : list A) : NoDup s -> NoDup (Js.sdelete x s).
Proof. intros Hnd. unfold Js.sdelete. by apply NoDup_filter. Qed.

End SetFacts.

Section MapDeleteFacts.
Context {K V : Type} `{EqDecision K}.

Lemma oget_odelete_eq (k : K) (m : list (K * V)) :
  Js.oget k (Js.odelete k m) = None.
Proof.
  unfold Js.odelete. induction m as [| [k0 v0] m IH]; [done |].
  destruct (decide (k0 = k)) as [-> | Hne].
  - rewrite filter_cons_False; [done | simpl; tauto].
  - rewrite filter_cons_True by done. simpl.
    rewrite decide_False by congruence. done.
Qed.

Lemma oget_odelete_ne (k k' : K) (m : list (K * V)) :
  k <> k' -> Js.oget k' (Js.odelete k m) = Js.oget k' m.
Proof.
  intros Hne. unfold Js.odelete. induction m as [| [k0 v0] m IH]; [done |].
  destruct (decide (k0 = k)) as [-> | Hne0].
  - rewrite filter_cons_False; [| simpl; tauto]. simpl.
    rewrite decide_False by congruence. done.
  - rewrite filter_cons_True by done. simpl.
    destruct (decide (k' = k0)); [done | apply IH].
Qed.

Lemma elem_of_ovalues (k : K) (v : V) (m : list (K * V)) :
  Js.oget k m = Some v -> v ∈ Js.ovalues m.
Proof.
  intros Hget. apply oget_Some_elem_of in Hget. unfold Js.ovalues.
  apply list_elem_of_fmap. by exists (k, v).
Qed.

End MapDeleteFacts.

Section RelayInvariants.
Import Relay.

Lemma step_rooms_well_formed now socket i st :
  Inv.roomsWellFormed st -> Inv.roomsWellFormed (step now socket i st).1.
Proof.
  unfold Inv.roomsWellFormed. intros Hwf.
  destruct i; simpl; try done.
  - unfold on_join_vr_session.
    destruct (Js.oget _ _) as [user |]; [| done]. simpl.
    intros r room Hr.
    destruct (decide (r = sessionId)) as [-> | Hne].
    + rewrite lookup_insert_eq in Hr. injection Hr as <-. simpl.
      destruct (vrSessions st !! sessionId) as [s |] eqn:Hs.
      * destruct (Hwf _ _ Hs) as (Hid & _ & Hnd & Hobj).
        repeat split; [done | apply sadd_nonempty | by apply sadd_NoDup
                       | done].
      * simpl. repeat split;
          [apply sadd_nonempty | apply sadd_NoDup, NoDup_nil_2
           | apply NoDup_nil_2].
    + rewrite lookup_insert_ne in Hr by done. by apply Hwf.
  - unfold on_vr_position_update.
    destruct (Js.oget _ _) as [user |]; [| done].
    destruct (ActiveUser.currentRoom user); [| done].
    destruct (Js.truthy _); done.
  - unfold on_create_shared_object.
    destruct (roomOf socket st) as [[[user r0] session] |] eqn:Hroom;
      [| done].
    apply roomOf_Some in Hroom as (_ & _ & Hs). simpl.
    intros r room Hr. destruct (decide (r = r0)) as [-> | Hne].
    + rewrite lookup_insert_eq in Hr. injection Hr as <-. simpl.
      destruct (Hwf _ _ Hs) as (Hid & Hne & Hnd & Hobj).
      repeat split; try done. by apply oset_NoDup.
    + rewrite lookup_insert_ne in Hr by done. by apply Hwf.
  - unfold on_update_shared_object.
    destruct (roomOf socket st) as [[[user r0] session] |] eqn:Hroom;
      [| done].
    apply roomOf_Some in Hroom as (_ & _ & Hs).
    destruct (ud_id data) as [k |]; [| done].
    destruct (Js.oget k _); [| done]. simpl.
    intros r room Hr. destruct (decide (r = r0)) as [-> | Hne].
    + rewrite lookup_insert_eq in Hr. injection Hr as <-. simpl.
      destruct (Hwf _ _ Hs) as (Hid & Hne & Hnd & Hobj).
      repeat split; try done. by apply oset_NoDup.
    + rewrite lookup_insert_ne in Hr by done. by apply Hwf.
  - unfold on_send_chat_message.
    destruct (Js.oget _ _) as [user |]; done.
  - unfold on_disconnect.
    destruct (roomOf socket st) as [[[user r0] session] |] eqn:Hroom;
      [| done].
    apply roomOf_Some in Hroom as (_ & _ & Hs).
    case_bool_decide as Hempty; simpl; intros r room Hr.
    + destruct (decide (r = r0)) as [-> | Hne].
      * by rewrite lookup_delete_eq in Hr.
      * rewrite lookup_delete_ne in Hr by done. by apply Hwf.
    + destruct (decide (r = r0)) as [-> | Hne].
      * rewrite lookup_insert_eq in Hr. injection Hr as <-. simpl.
        destruct (Hwf _ _ Hs) as (Hid & _ & Hnd & Hobj).
        repeat split; try done.
        -- intros Hnil. by rewrite Hnil in Hempty.
        -- by apply sdelete_NoDup.
      * rewrite lookup_insert_ne in Hr by done. by apply Hwf.
Qed.

(** X22: over any run of the relay the room table stays well formed: each
    room carries its key as id, has at least one member, lists no member
    twice and holds no two objects under one id. *)
Theorem relay_rooms_stay_well_formed
  (trace : list (Z * Socket.t * input)) (st : state)
  (Hst : Inv.roomsWellFormed st) :
  Inv.roomsWellFormed (run trace st).1.
Proof.
  revert st Hst. induction trace as [| [[now socket] i] trace IH];
    intros st Hst; [done |].
  simpl. pose proof (step_rooms_well_formed now socket i st Hst) as Hstep.
  destruct (step now socket i st) as [st1 out1]. simpl in Hstep.
  specialize (IH st1 Hstep). by destruct (run trace st1).
Qed.

Lemma relay_rooms_stay_well_formed_witness :
  Inv.roomsWellFormed Samples.withBox.
Proof.
  apply (relay_rooms_stay_well_formed _ initial).
  intros r room Hr. simpl in Hr. by rewrite lookup_empty in Hr.
Defined.

Lemma step_current_rooms_exist now socket i st :
  Inv.currentRoomsExist st -> Inv.currentRoomsExist (step now socket i st).1.
Proof.
  unfold Inv.currentRoomsExist. intros Hex.
  destruct i; simpl; try done.
  - intros uid u r Hu Hr.
    destruct (decide (uid = Socket.userId socket)) as [-> | Hne].
    + rewrite oget_oset_eq in Hu. by injection Hu as <-.
    + rewrite oget_oset_ne in Hu by done. by apply (Hex uid u r).
  - unfold on_join_vr_session.
    destruct (Js.oget (Socket.userId socket) (activeUsers st))
      as [user |]; [| done]. simpl.
    intros uid u r Hu Hr.
    destruct (decide (uid = Socket.userId socket)) as [-> | Hne].
    + rewrite oget_oset_eq in Hu. injection Hu as <-. simpl in Hr.
      injection Hr as <-. eexists. split; [apply lookup_insert_eq |].
      simpl. apply elem_of_sadd. by left.
    + rewrite oget_oset_ne in Hu by done.
      destruct (Hex uid u r Hu Hr) as (room & Hroom & Hin).
      destruct (decide (r = sessionId)) as [-> | Hner].
      * eexists. split; [apply lookup_insert_eq |]. simpl.
        rewrite Hroom. apply elem_of_sadd. by right.
      * exists room. by rewrite lookup_insert_ne.
  - unfold on_vr_position_update.
    destruct (Js.oget (Socket.userId socket) (activeUsers st))
      as [user |] eqn:Huser; [| done].
    destruct (ActiveUser.currentRoom user) as [r0 |] eqn:Hr0; [| done].
    destruct (Js.truthy _); [| done]. simpl.
    intros uid u r Hu Hr.
    destruct (decide (uid = Socket.userId socket)) as [-> | Hne].
    + rewrite oget_oset_eq in Hu. injection Hu as <-. simpl in Hr.
      by apply (Hex _ user r).
    + rewrite oget_oset_ne in Hu by done. by apply (Hex uid u r).
  - unfold on_create_shared_object.
    destruct (roomOf socket st) as [[[user r0] session] |] eqn:Hroom;
      [| done].
    apply roomOf_Some in Hroom as (_ & _ & Hs). simpl.
    intros uid u r Hu Hr. destruct (Hex uid u r Hu Hr) as (room & Hroom & Hin).
    destruct (decide (r = r0)) as [-> | Hne].
    + eexists. split; [apply lookup_insert_eq |]. simpl. congruence.
    + exists room. by rewrite lookup_insert_ne.
  - unfold on_update_shared_object.
    destruct (roomOf socket st) as [[[user r0] session] |] eqn:Hroom;
      [| done].
    apply roomOf_Some in Hroom as (_ & _ & Hs).
    destruct (ud_id data) as [k |]; [| done].
    destruct (Js.oget k _); [| done]. simpl.
    intros uid u r Hu Hr. destruct (Hex uid u r Hu Hr) as (room & Hroom & Hin).
    destruct (decide (r = r0)) as [-> | Hne].
    + eexists. split; [apply lookup_insert_eq |]. simpl. congruence.
    + exists room. by rewrite lookup_insert_ne.
  - unfold on_send_chat_message.
    destruct (Js.oget _ _) as [user |]; done.
  - unfold on_disconnect.
    destruct (roomOf socket st) as [[[user r0] session] |] eqn:Hroom.
    + apply roomOf_Some in Hroom as (_ & _ & Hs).
      case_bool_decide as Hempty; simpl; intros uid u r Hu Hr.
      * destruct (decide (uid = Socket.userId socket)) as [-> | Hne];
          [by rewrite oget_odelete_eq in Hu |].
        rewrite oget_odelete_ne in Hu by done.
        destruct (Hex uid u r Hu Hr) as (room & Hroom & Hin).
        destruct (decide (r = r0)) as [-> | Hner].
        -- exfalso. assert (uid ∈ Js.sdelete (Socket.userId socket)
                                    (Room.users session)) as Hleft.
           { apply elem_of_sdelete. split; [done | congruence]. }
           destruct (Js.sdelete _ _); [by apply elem_of_nil in Hleft | done].
        -- exists room. by rewrite lookup_delete_ne.
      * destruct (decide (uid = Socket.userId socket)) as [-> | Hne];
          [by rewrite oget_odelete_eq in Hu |].
        rewrite oget_odelete_ne in Hu by done.
        destruct (Hex uid u r Hu Hr) as (room & Hroom & Hin).
        destruct (decide (r = r0)) as [-> | Hner].
        -- eexists. split; [apply lookup_insert_eq |]. simpl.
           apply elem_of_sdelete. split; [done | congruence].
        -- exists room. by rewrite lookup_insert_ne.
    + simpl. intros uid u r Hu Hr.
      destruct (decide (uid = Socket.userId socket)) as [-> | Hne];
        [by rewrite oget_odelete_eq in Hu |].
      rewrite oget_odelete_ne in Hu by done. by apply (Hex uid u r).
Qed.

(** X23: over any run of the relay, the room a roster entry points at is in
    the room table and lists that user among its members. *)
Theorem current_room_always_exists
  (trace : list (Z * Socket.t * input)) (st : state)
  (Hst : Inv.currentRoomsExist st) :
  Inv.currentRoomsExist (run trace st).1.
Proof.
  revert st Hst. induction trace as [| [[now socket] i] trace IH];
    intros st Hst; [done |].
  simpl. pose proof (step_current_rooms_exist now socket i st Hst) as Hstep.
  destruct (step now socket i st) as [st1 out1]. simpl in Hstep.
  specialize (IH st1 Hstep). by destruct (run trace st1).
Qed.

Lemma current_room_always_exists_witness :
  Inv.currentRoomsExist (run Samples.twoJoins initial).1.
Proof.
  apply (current_room_always_exists _ initial).
  intros uid u r Hu. done.
Defined.

End RelayInvariants.

Section RelayEvents.
Import Relay.

(** X24: a disconnect takes the user off the roster and forgets the socket;
    the room the connection pointed at is removed from the table when the
    user was its only member, and otherwise keeps its other members and
    objects and is told that the user left; the roster goes to everybody
    last. *)
Theorem disconnect_cleans_up
  (socket : Socket.t) (st : state) (user : ActiveUser.t) (r : string)
  (session : Room.t)
  (Hroom : roomOf socket st = Some (user, r, session)) :
  let st' := (on_disconnect socket st).1 in
  let out := (on_disconnect socket st).2 in
  Js.oget (Socket.userId socket) (activeUsers st') = None
  /\ joined st' !! Socket.id socket = None
  /\ last out = Some (ToAll, users_update (Js.ovalues (activeUsers st')))
  /\ ((forall x, x ∈ Room.users session -> x = Socket.userId socket) ->
      vrSessions st' !! r = None
      /\ out = [(ToAll, users_update (Js.ovalues (activeUsers st')))])
  /\ (forall other,
        other ∈ Room.users session -> other <> Socket.userId socket ->
        vrSessions st' !! r
        = Some (Room.set_users
                  (Js.sdelete (Socket.userId socket) (Room.users session))
                  session)
        /\ other ∈ Js.sdelete (Socket.userId socket) (Room.users session)
        /\ out = [(ToRoomExcept r (Socket.id socket),
                   user_left_vr (Socket.userId socket)
                     (ActiveUser.username user));
                  (ToAll, users_update (Js.ovalues (activeUsers st')))])
  /\ forall r', r' <> r -> vrSessions st' !! r' = vrSessions st !! r'.
Proof.
  unfold on_disconnect. rewrite Hroom.
  case_bool_decide as Hempty; simpl.
  - split; [apply oget_odelete_eq |]. split; [apply lookup_delete_eq |].
    split; [done |]. split; [| split].
    + intros _. split; [apply lookup_delete_eq | done].
    + intros other Hin Hne. exfalso.
      assert (other ∈ Js.sdelete (Socket.userId socket) (Room.users session))
        as Hleft by (by apply elem_of_sdelete).
      destruct (Js.sdelete _ _); [by apply elem_of_nil in Hleft | done].
    + intros r' Hne. by apply lookup_delete_ne.
  - split; [apply oget_odelete_eq |]. split; [apply lookup_delete_eq |].
    split; [done |]. split; [| split].
    + intros Halone. exfalso. apply Hempty.
      destruct (Js.sdelete _ _) as [| y l] eqn:Hrest; [done |].
      assert (y ∈ Js.sdelete (Socket.userId socket) (Room.users session))
        as Hy by (rewrite Hrest; apply list_elem_of_here).
      apply elem_of_sdelete in Hy as [Hne Hin]. by apply Halone in Hin.
    + intros other Hin Hne. split; [apply lookup_insert_eq |].
      split; [by apply elem_of_sdelete | done].
    + intros r' Hne. by apply lookup_insert_ne.
Qed.

Lemma disconnect_cleans_up_witness :
  vrSessions (on_disconnect Samples.socketA
                (run [(0, Samples.socketA, Connection);
                      (1, Samples.socketA, JoinVrSession "R1")]
                   initial).1).1 !! "R1"%string = None.
Proof.
  refine (proj1 (proj1 (proj2 (proj2 (proj2
            (disconnect_cleans_up Samples.socketA _ _ "R1" _ _)))) _)).
  - vm_compute. reflexivity.
  - simpl. intros x Hx. by apply list_elem_of_singleton in Hx.
Defined.

(** X25: a position update from a user whose connection points at a room
    stores the pose in that user's roster entry and nowhere else, and is
    relayed to the room without the sender; from a user without a room, or
    not on the roster, it does nothing. *)
Theorem position_update_reaches_room_only
  (socket : Socket.t) (data : PositionData) (st : state) :
  match Js.oget (Socket.userId socket) (activeUsers st) with
  | Some user =>
      match ActiveUser.currentRoom user with
      | Some r =>
          if String.eqb r EmptyString
          then on_vr_position_update socket data st = (st, [])
          else
            exists st',
              on_vr_position_update socket data st
              = (st', [(ToRoomExcept r (Socket.id socket),
                        user_position_update (Socket.userId socket)
                          (pd_position data) (pd_rotation data))])
              /\ Js.oget (Socket.userId socket) (activeUsers st')
                 = Some (ActiveUser.set_pose (pd_position data)
                           (pd_rotation data) user)
              /\ (forall uid, uid <> Socket.userId socket ->
                    Js.oget uid (activeUsers st')
                    = Js.oget uid (activeUsers st))
              /\ length (activeUsers st') = length (activeUsers st)
              /\ vrSessions st' = vrSessions st
              /\ chatRooms st' = chatRooms st
              /\ joined st' = joined st
      | None => on_vr_position_update socket data st = (st, [])
      end
  | None => on_vr_position_update socket data st = (st, [])
  end.
Proof.
  unfold on_vr_position_update.
  destruct (Js.oget (Socket.userId socket) (activeUsers st))
    as [user |] eqn:Huser; [| done].
  destruct (ActiveUser.currentRoom user) as [r |]; [| done].
  unfold Js.truthy. destruct (String.eqb r EmptyString); simpl; [done |].
  eexists. split; [reflexivity |]. simpl.
  split; [apply oget_oset_eq |]. split.
  - intros uid Hne. apply oget_oset_ne. congruence.
  - split; [| done]. apply oset_length_present. by rewrite Huser.
Qed.

(** X26: what was sent can be read back: after a [send_chat_message] from a
    registered user, [get_chat_history] for the message's room answers the
    asking socket alone, changes nothing, and returns a log of at most 100
    messages that ends with the message just sent. *)
Theorem chat_history_returns_the_sent_message
  (now : Z) (uuid : string) (socket reader : Socket.t) (data : ChatData)
  (st : state) (user : ActiveUser.t)
  (Huser : Js.oget (Socket.userId socket) (activeUsers st) = Some user) :
  let m := chatMessageOf now uuid socket user data in
  let st' := (on_send_chat_message now uuid socket data st).1 in
  exists log,
    on_get_chat_history reader (Some (Msg.room m)) st'
    = (st', [(ToSocket (Socket.id reader), chat_history (Msg.room m) log)])
    /\ last log = Some m
    /\ (length log <= 100)%nat
    /\ Msg.room m <> EmptyString
    /\ (cd_room data = None \/ cd_room data = Some EmptyString ->
        Msg.room m = "global"%string).
Proof.
  intros m st'. exists (lastN 100 (logOf st (Msg.room m) ++ [m])).
  assert (logOf st' (Msg.room m) = lastN 100 (logOf st (Msg.room m) ++ [m]))
    as Hlog.
  { subst st' m. unfold on_send_chat_message. rewrite Huser. simpl.
    unfold logOf at 1. simpl. rewrite lookup_insert_eq. simpl.
    apply keepLast100_lastN. }
  split; [| split; [| split; [| split]]].
  - rewrite <- Hlog. reflexivity.
  - unfold lastN. rewrite length_app. simpl.
    rewrite drop_app_le by lia. apply last_snoc.
  - apply lastN_length.
  - subst m. simpl. unfold Js.or_else.
    destruct (cd_room data) as [r |]; [| done].
    destruct (String.eqb_spec r EmptyString); done.
  - subst m. simpl. by intros [-> | ->].
Qed.

Lemma chat_history_returns_the_sent_message_witness :
  exists log,
    on_get_chat_history Samples.socketB (Some "global"%string)
      (on_send_chat_message 5 "id5" Samples.socketA (Samples.hello None)
         (run Samples.bothInA initial).1).1
    = ((on_send_chat_message 5 "id5" Samples.socketA (Samples.hello None)
          (run Samples.bothInA initial).1).1,
       [(ToSocket "sockB", chat_history "global" log)])
    /\ (Msg.id <$> last log) = Some "id5"%string.
Proof.
  destruct (chat_history_returns_the_sent_message 5 "id5" Samples.socketA
              Samples.socketB (Samples.hello None)
              (run Samples.bothInA initial).1
              {| ActiveUser.socketId := "sockA";
                 ActiveUser.username := "alice";
                 ActiveUser.joinedAt := 0;
                 ActiveUser.currentRoom := Some "A"%string;
                 ActiveUser.vrPosition := None;
                 ActiveUser.vrRotation := None |}
              ltac:(vm_compute; reflexivity))
    as (log & Hget & Hlast & _).
  exists log. split; [exact Hget |]. by rewrite Hlast.
Defined.

(** X27: whoever joins a room is sent what the room holds: the confirmation
    goes to the joining socket, names the joiner and every earlier member,
    and carries every object of the room, among them one created just
    before by another user; the others in the room get the join notice. *)
Theorem joiner_receives_room_snapshot
  (st : state) (creator joiner : Socket.t) (data : ObjectData)
  (now1 now2 : Z) (uuid r : string) (user1 user2 : ActiveUser.t)
  (session : Room.t)
  (Hroom : roomOf creator st = Some (user1, r, session))
  (Hjoiner : Js.oget (Socket.userId joiner) (activeUsers st) = Some user2) :
  let st1 := (on_create_shared_object now1 uuid creator data st).1 in
  let object :=
    buildObject now1 (Js.or_else (od_id data) uuid) (Socket.userId creator)
      data in
  exists users objects,
    (on_join_vr_session now2 joiner r st1).2
    = [(ToSocket (Socket.id joiner), vr_session_joined r users objects);
       (ToRoomExcept r (Socket.id joiner),
        user_joined_vr (Socket.userId joiner) (ActiveUser.username user2))]
    /\ object ∈ objects
    /\ (forall i o, i <> Js.or_else (od_id data) uuid ->
          Js.oget i (Room.sharedObjects session) = Some o -> o ∈ objects)
    /\ Socket.userId joiner ∈ users
    /\ forall member, member ∈ Room.users session -> member ∈ users.
Proof.
  intros st1 object.
  assert (st1 = set_vrSessions
                  (<[r := Room.set_sharedObjects
                            (Js.oset (Js.or_else (od_id data) uuid) object
                               (Room.sharedObjects session)) session]>
                     (vrSessions st)) st) as Hst1.
  { subst st1. by rewrite (create_shared_object_stores _ _ _ _ _ _ _ _ Hroom). }
  unfold on_join_vr_session. rewrite Hst1. simpl. rewrite Hjoiner.
  rewrite lookup_insert_eq. simpl. eexists _, _. split; [reflexivity |].
  split; [| split; [| split]].
  - apply (elem_of_ovalues (Js.or_else (od_id data) uuid)).
    apply oget_oset_eq.
  - intros i o Hne Hget. apply (elem_of_ovalues i).
    rewrite oget_oset_ne by congruence. done.
  - apply elem_of_sadd. by left.
  - intros member Hin. apply elem_of_sadd. by right.
Qed.

Lemma joiner_receives_room_snapshot_witness :
  exists users objects,
    (on_join_vr_session 6 Samples.socketB "A"
       (on_create_shared_object 5 "uuid1" Samples.socketA
          (Samples.box "box")
          (run [(0, Samples.socketA, Connection);
                (1, Samples.socketB, Connection);
                (2, Samples.socketA, JoinVrSession "A")] initial).1).1).2
    = [(ToSocket "sockB", vr_session_joined "A" users objects);
       (ToRoomExcept "A" "sockB", user_joined_vr "u2" "bob")]
    /\ buildObject 5 "box1" "u1" (Samples.box "box") ∈ objects.
Proof.
  destruct (joiner_receives_room_snapshot
              (run [(0, Samples.socketA, Connection);
                    (1, Samples.socketB, Connection);
                    (2, Samples.socketA, JoinVrSession "A")] initial).1
              Samples.socketA Samples.socketB (Samples.box "box") 5 6
              "uuid1" "A" _ _ _
              ltac:(vm_compute; reflexivity) ltac:(vm_compute; reflexivity))
    as (users & objects & Hout & Hobj & _).
  exists users, objects. split; [exact Hout | exact Hobj].
Defined.

Ltac kept :=
  simpl;
  match goal with
  | Hr : vrSessions _ !! _ = Some _, Ho : Js.oget _ _ = Some _ |- _ =>
      rewrite Hr; by rewrite Ho
  end.

(** X28: an object stays in its room for as long as the room is in the
    table: whatever the event, a room that held an object under some id
    either still holds one under that id or has been removed. *)
Theorem objects_live_as_long_as_their_room
  (now : Z) (socket : Socket.t) (i : input) (st : state)
  (r objectId : string) (room : Room.t) (o : gmap string value)
  (Hr : vrSessions st !! r = Some room)
  (Ho : Js.oget objectId (Room.sharedObjects room) = Some o) :
  match vrSessions (step now socket i st).1 !! r with
  | Some room' => is_Some (Js.oget objectId (Room.sharedObjects room'))
  | None => True
  end.
Proof.
  assert (forall v,
            is_Some (Js.oget objectId
                       (Js.oset v.1 v.2 (Room.sharedObjects room))))
    as Hset.
  { intros [k v]. simpl. destruct (decide (k = objectId)) as [-> | Hne].
    - rewrite oget_oset_eq. by eexists.
    - rewrite oget_oset_ne by done. by rewrite Ho. }
  destruct i; simpl; try kept.
  - unfold on_join_vr_session.
    destruct (Js.oget (Socket.userId socket) (activeUsers st))
      as [user |]; simpl; [| kept].
    destruct (decide (sessionId = r)) as [-> | Hne].
    + rewrite lookup_insert_eq, Hr. simpl. by rewrite Ho.
    + rewrite lookup_insert_ne by done. rewrite Hr. by rewrite Ho.
  - unfold on_vr_position_update.
    destruct (Js.oget (Socket.userId socket) (activeUsers st))
      as [user |]; [| kept].
    destruct (ActiveUser.currentRoom user); [| kept].
    destruct (Js.truthy _); simpl; kept.
  - unfold on_create_shared_object.
    destruct (roomOf socket st) as [[[user r0] session] |] eqn:Hroom;
      simpl; [| kept].
    apply roomOf_Some in Hroom as (_ & _ & Hs).
    destruct (decide (r0 = r)) as [-> | Hne].
    + rewrite lookup_insert_eq. simpl.
      assert (session = room) as -> by congruence.
      apply (Hset (_, _)).
    + rewrite lookup_insert_ne by done. rewrite Hr. by rewrite Ho.
  - unfold on_update_shared_object.
    destruct (roomOf socket st) as [[[user r0] session] |] eqn:Hroom;
      simpl; [| kept].
    apply roomOf_Some in Hroom as (_ & _ & Hs).
    destruct (ud_id data) as [k |]; [| kept].
    destruct (Js.oget k (Room.sharedObjects session)); simpl;
      [| kept].
    destruct (decide (r0 = r)) as [-> | Hne].
    + rewrite lookup_insert_eq. simpl.
      assert (session = room) as -> by congruence.
      apply (Hset (_, _)).
    + rewrite lookup_insert_ne by done. rewrite Hr. by rewrite Ho.
  - unfold on_send_chat_message.
    destruct (Js.oget (Socket.userId socket) (activeUsers st))
      as [user |]; kept.
  - unfold on_disconnect.
    destruct (roomOf socket st) as [[[user r0] session] |] eqn:Hroom;
      simpl; [| kept].
    apply roomOf_Some in Hroom as (_ & _ & Hs).
    case_bool_decide; simpl.
    + destruct (decide (r0 = r)) as [-> | Hne].
      * by rewrite lookup_delete_eq.
      * rewrite lookup_delete_ne by done. rewrite Hr. by rewrite Ho.
    + destruct (decide (r0 = r)) as [-> | Hne].
      * rewrite lookup_insert_eq. simpl.
        assert (session = room) as -> by congruence. by rewrite Ho.
      * rewrite lookup_insert_ne by done. rewrite Hr. by rewrite Ho.
Qed.

Lemma objects_live_as_long_as_their_room_witness :
  match vrSessions (step 9 Samples.socketB Disconnect Samples.withBox).1
          !! "A"%string with
  | Some room' => is_Some (Js.oget "box1"%string (Room.sharedObjects room'))
  | None => True
  end.
Proof.
  apply (objects_live_as_long_as_their_room 9 Samples.socketB Disconnect
           Samples.withBox "A" "box1"
           {| Room.id := "A";
              Room.users := ["u1"; "u2"]%string;
              Room.createdAt := 2;
              Room.sharedObjects :=
                [("box1"%string,
                  buildObject 4 "box1" "u1" (Samples.box "box"))] |}
           (buildObject 4 "box1" "u1" (Samples.box "box"))).
  - vm_compute. reflexivity.
  - vm_compute. reflexivity.
Defined.

Lemma buildObject_id now objectId createdBy data :
  buildObject now objectId createdBy data !! "id"%string
  = Some (VStr objectId).
Proof.
  unfold buildObject. rewrite !withField_lookup_ne by done.
  apply lookup_insert_eq.
Qed.

(** X29: an object created without an id, or with the empty string as id,
    is stored and announced under the identifier drawn for it, which it
    also carries in its own [id] field; the objects stored under other ids
    are untouched. *)
Theorem create_without_id_uses_uuid
  (now : Z) (uuid : string) (socket : Socket.t) (data : ObjectData)
  (st : state) (user : ActiveUser.t) (r : string) (session : Room.t)
  (Hroom : roomOf socket st = Some (user, r, session))
  (Hnoid : od_id data = None \/ od_id data = Some EmptyString) :
  exists object session',
    on_create_shared_object now uuid socket data st
    = (set_vrSessions (<[r := session']> (vrSessions st)) st,
       [(ToRoom r, shared_object_created object)])
    /\ Js.oget uuid (Room.sharedObjects session') = Some object
    /\ object !! "id"%string = Some (VStr uuid)
    /\ object !! "createdBy"%string = Some (VStr (Socket.userId socket))
    /\ object !! "createdAt"%string = Some (VDate now)
    /\ Room.users session' = Room.users session
    /\ forall i, i <> uuid ->
         Js.oget i (Room.sharedObjects session')
         = Js.oget i (Room.sharedObjects session).
Proof.
  assert (Js.or_else (od_id data) uuid = uuid) as Hid.
  { by destruct Hnoid as [-> | ->]. }
  rewrite (create_shared_object_stores _ _ _ _ _ _ _ _ Hroom). rewrite Hid.
  eexists _, _. split; [reflexivity |]. simpl.
  split; [apply oget_oset_eq |].
  split; [apply buildObject_id |].
  split; [apply buildObject_createdBy |].
  split.
  { unfold buildObject. rewrite !withField_lookup_ne by done.
    rewrite !lookup_insert_ne by done. apply lookup_insert_eq. }
  split; [done |]. intros i Hne. apply oget_oset_ne. congruence.
Qed.

Lemma create_without_id_uses_uuid_witness :
  exists object session',
    on_create_shared_object 7 "fresh-uuid" Samples.socketB
      {| od_id := None; od_type := Some (VStr "sphere"); od_position := None;
         od_rotation := None; od_scale := None; od_properties := None |}
      Samples.withBox
    = (set_vrSessions (<["A"%string := session']>
                         (vrSessions Samples.withBox)) Samples.withBox,
       [(ToRoom "A", shared_object_created object)])
    /\ object !! "id"%string = Some (VStr "fresh-uuid").
Proof.
  destruct (create_without_id_uses_uuid 7 "fresh-uuid" Samples.socketB
              {| od_id := None; od_type := Some (VStr "sphere");
                 od_position := None; od_rotation := None;
                 od_scale := None; od_properties := None |}
              Samples.withBox _ "A" _
              ltac:(vm_compute; reflexivity) (or_introl eq_refl))
    as (object & session' & Hstep & _ & Hid & _).
  exists object, session'. split; [exact Hstep | exact Hid].
Defined.

Lemma or_else_nonempty o d : d <> EmptyString -> Js.or_else o d <> EmptyString.
Proof.
  intros Hd. unfold Js.or_else. destruct o as [s |]; [| done].
  by destruct (String.eqb_spec s EmptyString).
Qed.

Lemma elem_of_keepLast100 (m : Msg.t) (l : list Msg.t) :
  m ∈ keepLast100 l -> m ∈ l.
Proof.
  unfold keepLast100. destruct (100 <? length l)%nat; [| done].
  intros Hm. rewrite <- (take_drop (length l - 100) l).
  apply elem_of_app. by right.
Qed.

Lemma step_chat_room now socket i st :
  chatRooms (step now socket i st).1 = chatRooms st
  \/ exists m,
       Msg.room m <> EmptyString
       /\ chatRooms (step now socket i st).1
          = <[Msg.room m := keepLast100 (logOf st (Msg.room m) ++ [m])]>
              (chatRooms st).
Proof.
  destruct i; simpl; try (by left).
  - left. unfold on_join_vr_session. by destruct (Js.oget _ _).
  - left. unfold on_vr_position_update.
    destruct (Js.oget _ _) as [u |]; [| done].
    destruct (ActiveUser.currentRoom u); [| done].
    by destruct (Js.truthy _).
  - left. unfold on_create_shared_object.
    by destruct (roomOf _ _) as [[[? ?] ?] |].
  - left. unfold on_update_shared_object.
    destruct (roomOf _ _) as [[[? ?] ?] |]; [| done].
    destruct (ud_id data); [| done]. by destruct (Js.oget _ _).
  - unfold on_send_chat_message.
    destruct (Js.oget _ _) as [user |]; [| by left].
    right. eexists. split; [| reflexivity]. by apply or_else_nonempty.
  - left. unfold on_disconnect. by destruct (roomOf _ _) as [[[? ?] ?] |];
      [destruct (bool_decide _) |].
Qed.

Lemma step_logs_hold_their_room now socket i st :
  Inv.logsHoldTheirRoom st -> Inv.logsHoldTheirRoom (step now socket i st).1.
Proof.
  unfold Inv.logsHoldTheirRoom. intros Hinv room m Hm.
  destruct (step_chat_room now socket i st) as [Hsame | (m0 & Hne & Hlog)].
  - apply Hinv. unfold logOf in *. by rewrite <- Hsame.
  - unfold logOf in Hm. rewrite Hlog in Hm.
    destruct (decide (Msg.room m0 = room)) as [Heq | Hother].
    + subst room. rewrite lookup_insert_eq in Hm. simpl in Hm.
      apply elem_of_keepLast100, elem_of_app in Hm as [Hold | Hnew].
      * by apply Hinv.
      * apply list_elem_of_singleton in Hnew. by subst m.
    + rewrite lookup_insert_ne in Hm by done. by apply Hinv.
Qed.

(** X30: every message in the in-memory chat log of a room carries that room
    as its tag, and no message is logged under the empty room name.  This
    holds after any sequence of socket events from a state where it holds,
    so [get_chat_history], which answers the asking socket with the log of
    the room asked for ("global" by default) and changes nothing, never
    returns another room's message. *)
Theorem chat_logs_hold_their_room
  (trace : list (Z * Socket.t * input)) (st : state)
  (Hst : Inv.logsHoldTheirRoom st) :
  Inv.logsHoldTheirRoom (run trace st).1
  /\ forall now socket room,
       (on_get_chat_history socket room (run trace st).1).2
       = [(ToSocket (Socket.id socket),
           chat_history (default "global"%string room)
             (logOf (run trace st).1 (default "global"%string room)))]
       /\ Forall (fun m => Msg.room m = default "global"%string room)
            (logOf (run trace st).1 (default "global"%string room))
       /\ (step now socket (GetChatHistory room) (run trace st).1).1
          = (run trace st).1.
Proof.
  assert (Inv.logsHoldTheirRoom (run trace st).1) as Hrun.
  { revert st Hst. induction trace as [| [[now socket] i] trace IH];
      intros st Hst; [done |].
    simpl. pose proof (step_logs_hold_their_room now socket i st Hst) as Hstep.
    destruct (step now socket i st) as [st1 out1]. simpl in Hstep.
    specialize (IH st1 Hstep). by destruct (run trace st1). }
  split; [exact Hrun |]. intros now socket room.
  split; [done |]. split; [| done].
  apply Forall_forall. intros m Hm. by destruct (Hrun _ _ Hm).
Qed.

Lemma chat_logs_hold_their_room_witness :
  Inv.logsHoldTheirRoom (run Samples.twoMessages initial).1.
Proof.
  refine (proj1 (chat_logs_hold_their_room Samples.twoMessages initial _)).
  intros room m Hm. unfold logOf in Hm. simpl in Hm.
  rewrite lookup_empty in Hm. simpl in Hm. by apply elem_of_nil in Hm.
Defined.

End RelayEvents.
